(** * Reguard / markitdown-web: batch conversion pipeline

    A shallow embedding of the batch pipeline of
    [markitdown-web/conveter/app.py] (archive extraction, format
    classification, converter dispatch, the batch worker and the history
    log) and of [converters/archive_extractor.py] (the table-driven
    classifier), followed by the properties the specification states
    about them.

    Conventions.  Python [str] values are modelled as [string] (byte
    strings; [str.lower] acts on the ASCII letters).  A dictionary key
    that may be absent, or a value that may be [None], is an [option].
    Python truthiness is written out ([truthy]).  Calls into libraries
    that are not part of the repository (zipfile, the per-format
    converters, the clock, uuid4, the file system) are data of the model:
    their outcome is an input. *)

From Stdlib Require Import String Ascii ZArith List Lia.
From stdpp Require Import base option list gmap strings pretty.

Local Open Scope string_scope.
Local Open Scope list_scope.

(** ** Python primitives *)

Module Py.

(** The line feed of the f-strings' "\n". *)
Definition nl : string := String (ascii_of_nat 10) EmptyString.

(** [bool(s)] for a value that is a [str] or [None]. *)
Definition truthy (v : option string) : bool :=
  match v with
  | Some s => negb (String.eqb s "")
  | None => false
  end.

(** [a or None] for a [str]. *)
Definition or_none (s : string) : option string :=
  if truthy (Some s) then Some s else None.

Definition lower_ascii (c : ascii) : ascii :=
  let n := nat_of_ascii c in
  if (65 <=? n)%nat && (n <=? 90)%nat then ascii_of_nat (n + 32) else c.

(** [s.lower()]. *)
Fixpoint lower (s : string) : string :=
  match s with
  | EmptyString => EmptyString
  | String c r => String (lower_ascii c) (lower r)
  end.

Definition is_dot (c : ascii) : bool := Ascii.eqb c "."%char.
Definition is_slash (c : ascii) : bool := Ascii.eqb c "/"%char.

(** [s.split('.')[-1]] when ['.' in s], [None] when s has no dot. *)
Fixpoint after_last_dot (s : string) : option string :=
  match s with
  | EmptyString => None
  | String c r =>
      match after_last_dot r with
      | Some t => Some t
      | None => if is_dot c then Some r else None
      end
  end.

(** [s.split('.')[-1].lower() if '.' in s else ''], the expression both
    classifiers start with. *)
Definition extension (s : string) : string :=
  match after_last_dot s with
  | Some t => lower t
  | None => ""
  end.

(** [s.endswith('/')]. *)
Fixpoint ends_with_slash (s : string) : bool :=
  match s with
  | EmptyString => false
  | String c EmptyString => is_slash c
  | String _ r => ends_with_slash r
  end.

(** ['/' in p]. *)
Fixpoint has_slash (p : string) : bool :=
  match p with
  | EmptyString => false
  | String c r => is_slash c || has_slash r
  end.

(** [(p[:i], p[i:])] for [i = p.rfind('/') + 1]. *)
Fixpoint split_slash (p : string) : string * string :=
  match p with
  | EmptyString => (EmptyString, EmptyString)
  | String c r =>
      if has_slash r then
        let '(h, t) := split_slash r in (String c h, t)
      else if is_slash c then (String c EmptyString, r)
      else (EmptyString, p)
  end.

(** [os.path.basename] of posixpath: what follows the last '/'. *)
Definition basename (p : string) : string := snd (split_slash p).

(** [p.rfind('.')] as a split: [Some (p[:i], p[i:])] at the last dot. *)
Fixpoint rsplit_dot (p : string) : option (string * string) :=
  match p with
  | EmptyString => None
  | String c r =>
      match rsplit_dot r with
      | Some (a, b) => Some (String c a, b)
      | None => if is_dot c then Some (EmptyString, p) else None
      end
  end.

Fixpoint all_dots (s : string) : bool :=
  match s with
  | EmptyString => true
  | String c r => is_dot c && all_dots r
  end.

(** [os.path.splitext] of posixpath (genericpath._splitext): split at the
    last dot when it lies in the last component and something other than
    dots precedes it there. *)
Definition splitext (p : string) : string * string :=
  let '(head, name) := split_slash p in
  match rsplit_dot name with
  | Some (a, b) => if all_dots a then (p, "") else (head +:+ a, b)
  | None => (p, "")
  end.

Definition starts_with_slash (s : string) : bool :=
  match s with
  | String c _ => is_slash c
  | EmptyString => false
  end.

(** [os.path.join(a, b)] of posixpath. *)
Definition path_join (a b : string) : string :=
  if starts_with_slash b then b
  else if String.eqb a "" || ends_with_slash a then a +:+ b
  else a +:+ "/" +:+ b.

(** [str(n)] for a non-negative [int]. *)
Definition str_of_nat (n : nat) : string := pretty n.

End Py.

(** ** Format classifier *)

Module Classifier.

(** The dictionary literal [format_map] of [extract_archive_safe]. *)
Definition format_map : gmap string string :=
  list_to_map
    [ ("pdf", "pdf"); ("doc", "word"); ("docx", "word");
      ("xls", "excel"); ("xlsx", "excel"); ("ppt", "ppt"); ("pptx", "ppt");
      ("jpg", "image"); ("jpeg", "image"); ("png", "image"); ("gif", "image");
      ("html", "html"); ("htm", "html"); ("txt", "text");
      ("csv", "csv"); ("json", "json"); ("xml", "xml") ].

(** Lines 52-61 of [extract_archive_safe]: the tag of an extracted name. *)
Definition detect_format (filename_only : string) : string :=
  default "unknown" (format_map !! Py.extension filename_only).

(** The dictionary literal of [ArchiveExtractor._detect_file_format]. *)
Definition extractor_format_map : gmap string string :=
  list_to_map
    [ ("pdf", "pdf");
      ("doc", "word"); ("docx", "word");
      ("xls", "excel"); ("xlsx", "excel");
      ("ppt", "ppt"); ("pptx", "ppt");
      ("jpg", "image"); ("jpeg", "image"); ("png", "image");
      ("gif", "image"); ("bmp", "image");
      ("mp3", "audio"); ("wav", "audio"); ("flac", "audio");
      ("aac", "audio"); ("ogg", "audio"); ("m4a", "audio");
      ("wma", "audio");
      ("mp4", "video"); ("avi", "video"); ("mov", "video");
      ("mkv", "video"); ("wmv", "video"); ("flv", "video");
      ("webm", "video"); ("m4v", "video"); ("3gp", "video");
      ("mpg", "video"); ("mpeg", "video");
      ("html", "html"); ("htm", "html");
      ("txt", "text");
      ("csv", "csv");
      ("json", "json");
      ("xml", "xml") ].

(** [ArchiveExtractor._detect_file_format(filename)]. *)
Definition _detect_file_format (filename : string) : string :=
  if String.eqb filename "" then "unknown"
  else default "unknown" (extractor_format_map !! Py.extension filename).

(** The closed tag set the specification gives for [classify]. *)
Definition spec_tags : list string :=
  ["pdf"; "word"; "excel"; "ppt"; "image"; "audio"; "video";
   "html"; "csv"; "json"; "xml"; "unknown"].

(** The values of [extractor_format_map], with the default. *)
Definition extractor_tags : list string := "text" :: spec_tags.

(** The values of [format_map], with the default. *)
Definition inline_tags : list string :=
  ["pdf"; "word"; "excel"; "ppt"; "image"; "html"; "text"; "csv"; "json"; "xml";
   "unknown"].

End Classifier.

(** ** Data model *)

(** The result of a call that may raise: the value, or [str(e)]. *)
Inductive outcome (A : Type) : Type :=
  | Ok (a : A)
  | Raised (msg : string).
Arguments Ok {A} a.
Arguments Raised {A} msg.

(** [conversion_status] of a member. *)
Inductive ConvStatus := cs_processing | cs_completed | cs_failed.

(** [status] of a batch. *)
Inductive BatchState :=
  | st_uploaded | st_extracting | st_extracted | st_extract_failed
  | st_converting | st_completed | st_conversion_failed.

(** A member dictionary of [batch_status['files']].  The keys of the
    second group are absent until the worker sets them. *)
Record FileInfo := {
  filename : string;
  original_path : string;
  extracted_path : option string;
  size : Z;
  format : string;
  error : option string;
  extract_time : Z;
  conversion_status : option ConvStatus;
  conversion_progress : option Z;
  conversion_error : option string;
  md_file_path : option string;
  download_url : option string;
  converted_at : option string
}.

(** ** Archive extractor *)

Module Zip.

(** What reading one entry does once the password check has passed. *)
Inductive Payload :=
  | Readable
  | OpenError (msg : string)
  | CopyError (msg : string).

(** A [ZipInfo] of [infolist()], with what the library needs to decide
    [ZipFile.open]: the password the entry was encrypted with and the
    state of its data. *)
Record ZipInfo := {
  zi_filename : string;
  file_size : Z;
  flag_bits : Z;
  key : string;
  payload : Payload
}.

(** The entry has a name.  An archive can hold an entry whose name is
    empty. *)
Definition named (zi : ZipInfo) : Prop := zi_filename zi ≠ "".

(** [ZipInfo.is_dir()] of CPython 3.11: [self.filename[-1] == '/'], which
    raises IndexError on an empty name. *)
Definition is_dir (zi : ZipInfo) : outcome bool :=
  if String.eqb (zi_filename zi) "" then Raised "string index out of range"
  else Ok (Py.ends_with_slash (zi_filename zi)).

(** Bit 0 of the general purpose flags: the entry is encrypted. *)
Definition is_encrypted (zi : ZipInfo) : bool := Z.testbit (flag_bits zi) 0.

(** [ZipFile.open(zi, pwd=pwd)] followed by the copy to the target, as
    CPython's zipfile does it: an encrypted entry without a password, or
    with a wrong one, raises RuntimeError before anything is written. *)
Definition open_and_copy (zi : ZipInfo) (pwd : option string) : Payload :=
  if is_encrypted zi then
    match pwd with
    | None =>
        OpenError ("File '" +:+ zi_filename zi
                   +:+ "' is encrypted, password required for extraction")
    | Some p =>
        if String.eqb p (key zi) then payload zi
        else OpenError ("Bad password for file '" +:+ zi_filename zi +:+ "'")
    end
  else payload zi.

End Zip.

Module Extractor.
Import Zip.

(** The dictionary [extract_archive_safe] returns: the five keys of a
    success, or ['success': False] with the message. *)
Inductive ExtractResult :=
  | Extracted (total_files extracted_files failed_files : Z)
              (files : list FileInfo) (temp_dir : string)
  | NotExtracted (error : string).

Definition success (r : ExtractResult) : bool :=
  match r with Extracted _ _ _ _ _ => true | NotExtracted _ => false end.

Definition result_files (r : ExtractResult) : list FileInfo :=
  match r with Extracted _ _ _ fs _ => fs | NotExtracted _ => [] end.

(** The paths that exist in a directory [mkdtemp] has just made. *)
Definition fresh_dir (temp_dir : string) : list string :=
  [Py.path_join temp_dir ""; Py.path_join temp_dir "."; Py.path_join temp_dir ".."].

(** [os.path.exists] over the paths that exist under the scratch
    directory. *)
Definition path_exists (fs : list string) (p : string) : bool :=
  bool_decide (p ∈ fs).

(** The f-string of line 43: the name tried when the counter is [k]. *)
Definition candidate (base_name ext : string) (k : nat) : string :=
  base_name +:+ "_" +:+ Py.str_of_nat k +:+ ext.

(** Lines 41-45, the loop [while os.path.exists(extract_path)]: each
    iteration that finds the path taken spends one unit of fuel. *)
Fixpoint unique_name (fuel : nat) (fs : list string)
    (temp_dir base_name ext filename_only : string) (counter : nat)
    : option (string * string) :=
  let extract_path := Py.path_join temp_dir filename_only in
  if path_exists fs extract_path then
    match fuel with
    | O => None
    | S fuel' =>
        unique_name fuel' fs temp_dir base_name ext
          (candidate base_name ext counter) (S counter)
    end
  else Some (filename_only, extract_path).

(** The record of an entry that was extracted (lines 64-72). *)
Definition extracted_record (zi : ZipInfo) (filename_only extract_path : string)
    (now : Z) : FileInfo :=
  {| filename := filename_only;
     original_path := zi_filename zi;
     extracted_path := Some extract_path;
     size := file_size zi;
     format := Classifier.detect_format filename_only;
     error := None;
     extract_time := now;
     conversion_status := None; conversion_progress := None;
     conversion_error := None; md_file_path := None;
     download_url := None; converted_at := None |}.

(** The record of an entry whose extraction raised (lines 77-85). *)
Definition failed_record (zi : ZipInfo) (msg : string) (now : Z) : FileInfo :=
  {| filename := zi_filename zi;
     original_path := zi_filename zi;
     extracted_path := None;
     size := file_size zi;
     format := "unknown";
     error := Some msg;
     extract_time := now;
     conversion_status := None; conversion_progress := None;
     conversion_error := None; md_file_path := None;
     download_url := None; converted_at := None |}.

(** [password.encode() if password else None], the [pwd] of line 48. *)
Definition pwd_arg (password : option string) : option string :=
  if Py.truthy password then password else None.

(** The entries that are not directories: those whose name does not
    end in [/]. *)
Definition members (file_list : list ZipInfo) : list ZipInfo :=
  filter (λ f, Py.ends_with_slash (zi_filename f) = false) file_list.

(** [[f for f in file_list if not f.is_dir()]] of line 27: the list, or
    the exception of the first [is_dir] that raises. *)
Fixpoint non_directories (file_list : list ZipInfo) : outcome (list ZipInfo) :=
  match file_list with
  | [] => Ok []
  | f :: rest =>
      match is_dir f with
      | Raised e => Raised e
      | Ok d =>
          match non_directories rest with
          | Raised e => Raised e
          | Ok l => Ok (if d then l else f :: l)
          end
      end
  end.

(** The state of the loop over [file_list]: the paths that exist and the
    list [extracted_files]. *)
Definition LoopState : Type := list string * list FileInfo.

(** One iteration of the loop of lines 29-86: the state after it, or
    the exception of [is_dir] (line 30), which is outside the [try] of
    the entry.  [None] only when the renaming loop runs out of fuel. *)
Definition extract_entry (temp_dir : string) (password : option string)
    (clock : nat → Z) (st : LoopState) (zi : ZipInfo)
    : option (outcome LoopState) :=
  let '(fs, extracted_files) := st in
  match is_dir zi with
  | Raised e => Some (Raised e)
  | Ok true => Some (Ok st)
  | Ok false =>
      let now := clock (length extracted_files) in
      let filename := zi_filename zi in
      let filename_only := Py.basename filename in
      let '(base_name, ext) := Py.splitext filename_only in
      '(filename_only, extract_path) ←
        unique_name (S (length fs)) fs temp_dir base_name ext filename_only 1;
      match open_and_copy zi (pwd_arg password) with
      | Readable =>
          Some (Ok (extract_path :: fs,
                    extracted_files
                    ++ [extracted_record zi filename_only extract_path now]))
      | OpenError msg =>
          Some (Ok (fs, extracted_files ++ [failed_record zi msg now]))
      | CopyError msg =>
          Some (Ok (extract_path :: fs, extracted_files ++ [failed_record zi msg now]))
      end
  end.

Fixpoint extract_loop (temp_dir : string) (password : option string)
    (clock : nat → Z) (st : LoopState) (file_list : list ZipInfo)
    : option (outcome LoopState) :=
  match file_list with
  | [] => Some (Ok st)
  | zi :: rest =>
      r ← extract_entry temp_dir password clock st zi;
      match r with
      | Ok st' => extract_loop temp_dir password clock st' rest
      | Raised e => Some (Raised e)
      end
  end.

Definition has_error (f : FileInfo) : bool := Py.truthy (error f).

(** [extract_archive_safe(archive_path, password)].  [mkdtemp] is the
    outcome of [tempfile.mkdtemp], [archive] that of opening
    [archive_path] and listing it.  An exception outside the [try] of an
    entry is caught by the outer handler (lines 97-102). *)
Definition extract_archive_safe (mkdtemp : outcome string)
    (archive : outcome (list ZipInfo)) (clock : nat → Z)
    (password : option string) : option ExtractResult :=
  match mkdtemp with
  | Raised msg => Some (NotExtracted msg)
  | Ok temp_dir =>
      match archive with
      | Raised msg => Some (NotExtracted msg)
      | Ok file_list =>
          match non_directories file_list with
          | Raised msg => Some (NotExtracted msg)
          | Ok listed =>
              let total_files := Z.of_nat (length listed) in
              r ← extract_loop temp_dir password clock (fresh_dir temp_dir, [])
                    file_list;
              match r with
              | Raised msg => Some (NotExtracted msg)
              | Ok (_, extracted_files) =>
                  Some (Extracted total_files
                          (Z.of_nat (length (filter (λ f, has_error f = false)
                                               extracted_files)))
                          (Z.of_nat (length (filter (λ f, has_error f = true)
                                               extracted_files)))
                          extracted_files temp_dir)
              end
          end
      end
  end.

End Extractor.

(** ** The extraction loop as a relation *)

Module ExtractorRel.
Import Zip Extractor.

(** What [extract_entry] does with an entry that is not a directory:
    the entry is written under the name the renaming loop returns, or
    it fails before the target is created, or while it is copied. *)
Inductive entry_step (temp_dir : string) (password : option string)
    (clock : nat → Z) (fs : list string) (recs : list FileInfo) (zi : ZipInfo)
    : LoopState → Prop :=
  | step_extracted n p :
      unique_name (S (length fs)) fs temp_dir
        (Py.splitext (Py.basename (zi_filename zi))).1
        (Py.splitext (Py.basename (zi_filename zi))).2
        (Py.basename (zi_filename zi)) 1 = Some (n, p) →
      open_and_copy zi (pwd_arg password) = Readable →
      entry_step temp_dir password clock fs recs zi
        (p :: fs, recs ++ [extracted_record zi n p (clock (length recs))])
  | step_not_opened n p msg :
      unique_name (S (length fs)) fs temp_dir
        (Py.splitext (Py.basename (zi_filename zi))).1
        (Py.splitext (Py.basename (zi_filename zi))).2
        (Py.basename (zi_filename zi)) 1 = Some (n, p) →
      open_and_copy zi (pwd_arg password) = OpenError msg →
      entry_step temp_dir password clock fs recs zi
        (fs, recs ++ [failed_record zi msg (clock (length recs))])
  | step_not_copied n p msg :
      unique_name (S (length fs)) fs temp_dir
        (Py.splitext (Py.basename (zi_filename zi))).1
        (Py.splitext (Py.basename (zi_filename zi))).2
        (Py.basename (zi_filename zi)) 1 = Some (n, p) →
      open_and_copy zi (pwd_arg password) = CopyError msg →
      entry_step temp_dir password clock fs recs zi
        (p :: fs, recs ++ [failed_record zi msg (clock (length recs))]).

(** The run of the loop over the entries that are not directories: the
    paths that exist before and after, the number of records before, and
    the records appended. *)
Inductive loop_run (temp_dir : string) (password : option string)
    (clock : nat → Z)
    : list string → nat → list ZipInfo → list string → list FileInfo → Prop :=
  | run_nil fs k : loop_run temp_dir password clock fs k [] fs []
  | run_cons fs k zi f fs' rest fs'' new recs :
      length recs = k →
      entry_step temp_dir password clock fs recs zi (fs', recs ++ [f]) →
      loop_run temp_dir password clock fs' (S k) rest fs'' new →
      loop_run temp_dir password clock fs k (zi :: rest) fs'' (f :: new).

(** What the record of an entry says, whatever the other entries are. *)
Definition entry_record (password : option string) (zi : ZipInfo) (f : FileInfo)
    : Prop :=
  original_path f = zi_filename zi
  ∧ size f = file_size zi
  ∧ match open_and_copy zi (pwd_arg password) with
    | Readable =>
        error f = None ∧ is_Some (extracted_path f)
        ∧ format f = Classifier.detect_format (filename f)
    | OpenError msg | CopyError msg =>
        error f = Some msg ∧ extracted_path f = None
        ∧ filename f = zi_filename zi ∧ format f = "unknown"
    end.

End ExtractorRel.

(** ** History recorder *)

Module History.

Record HistoryRecord := {
  id : string;
  original_name : string;
  format : string;
  file_size : Z;
  md_file_path : string;
  download_url : string;
  converted_at : string;
  status : string
}.

(** The state of [history.json]. *)
Inductive HistoryFile :=
  | Missing
  | Unreadable
  | Stored (history : list HistoryRecord).

(** [load_history()]: the stored list, [[]] when the file is missing or
    does not parse. *)
Definition load_history (file : HistoryFile) : list HistoryRecord :=
  match file with
  | Stored history => history
  | Missing | Unreadable => []
  end.

(** How the write of [save_history] ends: done, refused at [open] (the
    file is left as it was), or interrupted during [json.dump] (the file
    is left truncated).  The exception is printed, never raised. *)
Inductive SaveOutcome := Saved | OpenRefused | DumpInterrupted.

Definition save_history (o : SaveOutcome) (history : list HistoryRecord)
    (file : HistoryFile) : HistoryFile :=
  match o with
  | Saved => Stored history
  | OpenRefused => file
  | DumpInterrupted => Unreadable
  end.

(** The cap of line 175. *)
Definition cap : nat := 100.

(** [add_to_history(original_name, file_format, file_size, md_file_path,
    download_url)]; [uuid] is [uuid.uuid4().hex] and [now] is
    [datetime.datetime.now().isoformat()]. *)
Definition add_to_history (uuid now : string) (o : SaveOutcome)
    (original_name file_format : string) (file_size : Z)
    (md_file_path download_url : string) (file : HistoryFile)
    : HistoryRecord * HistoryFile :=
  let history := load_history file in
  let record :=
    {| id := uuid;
       original_name := original_name;
       format := file_format;
       file_size := file_size;
       md_file_path := md_file_path;
       download_url := download_url;
       converted_at := now;
       status := "completed" |} in
  let history := record :: history in
  let history := if (cap <? length history)%nat then take cap history else history in
  (record, save_history o history file).

End History.

(** ** Converter dispatch *)

Module Dispatch.

(** The external capabilities [convert_file_content] delegates to.  Each
    is the outcome of the call on its argument: the text, or the message
    of the [Exception] it raised.  [file_path] is an [option]: the worker
    passes [global_file['extracted_path']], which may be [None]. *)
Record Converters := {
  read_text : option string → outcome string;
  csv_converter : string → outcome string;
  pdf_converter : option string → outcome string;
  pdf_native_converter : option string → outcome string;
  img_converter : option string → outcome string;
  word_converter : option string → outcome string;
  ppt_native_converter : option string → outcome string;
  audio_converter : option string → outcome string;
  video_converter : option string → outcome string
}.

(** The capabilities, to record which ones a call attempted. *)
Inductive Capability :=
  | ReadText | Csv | PdfOcr | PdfNative | Img | Word | Ppt | Audio | Video.

Definition heading : string := "# 转换错误" +:+ Py.nl +:+ Py.nl.

(** The document of line 907. *)
Definition pdf_error_document (e e2 : string) : string :=
  heading +:+ "PDF转换失败" +:+ Py.nl +:+ Py.nl
  +:+ "PaddleOCR错误: " +:+ e +:+ Py.nl +:+ "原生转换错误: " +:+ e2.

(** The documents of lines 929, 935 and 941. *)
Definition error_document (what e : string) : string :=
  heading +:+ what +:+ "转换失败" +:+ Py.nl +:+ Py.nl +:+ "错误详情: " +:+ e.

(** The placeholder of line 943. *)
Definition unsupported_document (file_format : string) : string :=
  "# 不支持的格式" +:+ Py.nl +:+ Py.nl
  +:+ "文件格式 " +:+ file_format +:+ " 暂不支持转换".

(** [try: content = conv(file_path) except Exception as e: content = doc(e)]. *)
Definition absorbed (c : Capability) (r : outcome string) (doc : string → string)
    : list Capability * outcome string :=
  match r with
  | Ok content => ([c], Ok content)
  | Raised e => ([c], Ok (doc e))
  end.

(** [with open(file_path) as f: content = f.read()], then the fence. *)
Definition fenced (cv : Converters) (file_path : option string) (lang : string)
    : list Capability * outcome string :=
  match read_text cv file_path with
  | Ok content => ([ReadText], Ok ("```" +:+ lang +:+ Py.nl +:+ content +:+ Py.nl +:+ "```"))
  | Raised e => ([ReadText], Raised e)
  end.

(** [convert_file_content(file_path, file_format)]: the capabilities
    attempted, in order, and the returned text or the exception that
    escapes. *)
Definition convert_file_content (cv : Converters) (file_path : option string)
    (file_format : string) : list Capability * outcome string :=
  if String.eqb file_format "csv" then
    match read_text cv file_path with
    | Ok content => ([ReadText; Csv], csv_converter cv content)
    | Raised e => ([ReadText], Raised e)
    end
  else if String.eqb file_format "pdf" then
    match pdf_converter cv file_path with
    | Ok content => ([PdfOcr], Ok content)
    | Raised e =>
        match pdf_native_converter cv file_path with
        | Ok content => ([PdfOcr; PdfNative], Ok content)
        | Raised e2 => ([PdfOcr; PdfNative], Ok (pdf_error_document e e2))
        end
    end
  else if String.eqb file_format "image" then
    ([Img], img_converter cv file_path)
  else if String.eqb file_format "json" then fenced cv file_path "json"
  else if String.eqb file_format "xml" then fenced cv file_path "xml"
  else if String.eqb file_format "html" then fenced cv file_path "html"
  else if String.eqb file_format "word" then
    ([Word], word_converter cv file_path)
  else if String.eqb file_format "ppt" then
    absorbed Ppt (ppt_native_converter cv file_path) (error_document "PPT")
  else if String.eqb file_format "audio" then
    absorbed Audio (audio_converter cv file_path) (error_document "音频")
  else if String.eqb file_format "video" then
    absorbed Video (video_converter cv file_path) (error_document "视频")
  else ([], Ok (unsupported_document file_format)).

(** The [pdf] branch of the route [convert_format] (lines 324-335), the
    same two-tier attempt. *)
Definition convert_format_pdf (cv : Converters) (upload_path : option string)
    : list Capability * outcome string :=
  match pdf_converter cv upload_path with
  | Ok content => ([PdfOcr], Ok content)
  | Raised e =>
      match pdf_native_converter cv upload_path with
      | Ok content => ([PdfOcr; PdfNative], Ok content)
      | Raised e2 => ([PdfOcr; PdfNative], Ok (pdf_error_document e e2))
      end
  end.

End Dispatch.

(** ** Batch orchestrator *)

Module Batch.

(** [SUPPORTED_FORMATS]. *)
Definition SUPPORTED_FORMATS : gmap string string :=
  list_to_map
    [ ("pdf", ".pdf");
      ("word", ".doc,.docx");
      ("excel", ".xls,.xlsx");
      ("ppt", ".ppt,.pptx");
      ("image", ".jpg,.jpeg,.png,.gif,.bmp");
      ("audio", ".mp3,.wav,.flac,.aac,.ogg,.m4a,.wma");
      ("video", ".mp4,.avi,.mov,.mkv,.wmv,.flv,.webm,.m4v,.3gp,.mpg,.mpeg");
      ("html", ".html,.htm");
      ("csv", ".csv");
      ("json", ".json");
      ("xml", ".xml");
      ("zip", ".zip");
      ("rar", ".rar") ].

(** [file_format in SUPPORTED_FORMATS]. *)
Definition supported (file_format : string) : bool :=
  bool_decide (is_Some (SUPPORTED_FORMATS !! file_format)).

Definition UPLOAD_FOLDER : string := "uploads".
Definition DOWNLOAD_FOLDER : string := "downloads".

(** [batch_status['conversion_progress']]. *)
Record Progress := {
  total : Z;
  completed : Z;
  failed : Z;
  processing : Z
}.

(** The dictionary of one batch; the field [b_x] is the key ['x'].  The
    last three keys are absent after upload. *)
Record BatchStatus := {
  b_batch_id : string;
  b_archive_name : string;
  b_archive_path : string;
  b_password : string;
  b_status : BatchState;
  b_total_files : Z;
  b_extracted_files : Z;
  b_failed_files : Z;
  b_files : list FileInfo;
  b_extracted_at : option string;
  b_converted_at : option string;
  b_created_at : string;
  b_temp_dir : option string;
  b_error : option string;
  b_conversion_progress : option Progress
}.

(** *** Assignments to one key *)

Definition set_status (s : BatchState) (b : BatchStatus) : BatchStatus :=
  {| b_batch_id := b_batch_id b; b_archive_name := b_archive_name b;
     b_archive_path := b_archive_path b; b_password := b_password b;
     b_status := s;
     b_total_files := b_total_files b; b_extracted_files := b_extracted_files b;
     b_failed_files := b_failed_files b; b_files := b_files b;
     b_extracted_at := b_extracted_at b; b_converted_at := b_converted_at b;
     b_created_at := b_created_at b; b_temp_dir := b_temp_dir b;
     b_error := b_error b; b_conversion_progress := b_conversion_progress b |}.

Definition set_files (fs : list FileInfo) (b : BatchStatus) : BatchStatus :=
  {| b_batch_id := b_batch_id b; b_archive_name := b_archive_name b;
     b_archive_path := b_archive_path b; b_password := b_password b;
     b_status := b_status b;
     b_total_files := b_total_files b; b_extracted_files := b_extracted_files b;
     b_failed_files := b_failed_files b; b_files := fs;
     b_extracted_at := b_extracted_at b; b_converted_at := b_converted_at b;
     b_created_at := b_created_at b; b_temp_dir := b_temp_dir b;
     b_error := b_error b; b_conversion_progress := b_conversion_progress b |}.

Definition set_converted_at (t : string) (b : BatchStatus) : BatchStatus :=
  {| b_batch_id := b_batch_id b; b_archive_name := b_archive_name b;
     b_archive_path := b_archive_path b; b_password := b_password b;
     b_status := b_status b;
     b_total_files := b_total_files b; b_extracted_files := b_extracted_files b;
     b_failed_files := b_failed_files b; b_files := b_files b;
     b_extracted_at := b_extracted_at b; b_converted_at := Some t;
     b_created_at := b_created_at b; b_temp_dir := b_temp_dir b;
     b_error := b_error b; b_conversion_progress := b_conversion_progress b |}.

Definition set_error (e : string) (b : BatchStatus) : BatchStatus :=
  {| b_batch_id := b_batch_id b; b_archive_name := b_archive_name b;
     b_archive_path := b_archive_path b; b_password := b_password b;
     b_status := b_status b;
     b_total_files := b_total_files b; b_extracted_files := b_extracted_files b;
     b_failed_files := b_failed_files b; b_files := b_files b;
     b_extracted_at := b_extracted_at b; b_converted_at := b_converted_at b;
     b_created_at := b_created_at b; b_temp_dir := b_temp_dir b;
     b_error := Some e; b_conversion_progress := b_conversion_progress b |}.

Definition set_progress (p : Progress) (b : BatchStatus) : BatchStatus :=
  {| b_batch_id := b_batch_id b; b_archive_name := b_archive_name b;
     b_archive_path := b_archive_path b; b_password := b_password b;
     b_status := b_status b;
     b_total_files := b_total_files b; b_extracted_files := b_extracted_files b;
     b_failed_files := b_failed_files b; b_files := b_files b;
     b_extracted_at := b_extracted_at b; b_converted_at := b_converted_at b;
     b_created_at := b_created_at b; b_temp_dir := b_temp_dir b;
     b_error := b_error b; b_conversion_progress := Some p |}.

(** The [batch_status.update({...})] of lines 675-683. *)
Definition set_extracted (total_files extracted_files failed_files : Z)
    (fs : list FileInfo) (temp_dir now : string) (b : BatchStatus) : BatchStatus :=
  {| b_batch_id := b_batch_id b; b_archive_name := b_archive_name b;
     b_archive_path := b_archive_path b; b_password := b_password b;
     b_status := st_extracted;
     b_total_files := total_files; b_extracted_files := extracted_files;
     b_failed_files := failed_files; b_files := fs;
     b_extracted_at := Some now; b_converted_at := b_converted_at b;
     b_created_at := b_created_at b; b_temp_dir := Some temp_dir;
     b_error := b_error b; b_conversion_progress := b_conversion_progress b |}.

(** The assignments to the keys of a member the worker makes. *)
Inductive FileUpdate :=
  | SetStatus (s : ConvStatus)
  | SetProgress (n : Z)
  | SetError (e : string)
  | SetMdFilePath (p : string)
  | SetDownloadUrl (u : string)
  | SetConvertedAt (t : string).

Definition update_member (u : FileUpdate) (f : FileInfo) : FileInfo :=
  {| filename := filename f; original_path := original_path f;
     extracted_path := extracted_path f; size := size f;
     format := format f; error := error f; extract_time := extract_time f;
     conversion_status :=
       match u with SetStatus s => Some s | _ => conversion_status f end;
     conversion_progress :=
       match u with SetProgress n => Some n | _ => conversion_progress f end;
     conversion_error :=
       match u with SetError e => Some e | _ => conversion_error f end;
     md_file_path :=
       match u with SetMdFilePath p => Some p | _ => md_file_path f end;
     download_url :=
       match u with SetDownloadUrl d => Some d | _ => download_url f end;
     converted_at :=
       match u with SetConvertedAt t => Some t | _ => converted_at f end |}.

(** The assignments to the counters the worker makes. *)
Inductive Counter := CCompleted | CFailed | CProcessing.

(** [progress[c] += d]. *)
Definition add_to (c : Counter) (d : Z) (p : Progress) : Progress :=
  {| total := total p;
     completed := match c with CCompleted => completed p + d | _ => completed p end;
     failed := match c with CFailed => failed p + d | _ => failed p end;
     processing := match c with CProcessing => processing p + d | _ => processing p end |}.

(** *** The registry and its routes *)

(** [batch_conversion_status]. *)
Abbreviation Registry := (gmap string BatchStatus).

(** [get_batch_status(batch_id)]; [None] stands for the empty
    dictionary it returns for an unknown id. *)
Definition get_batch_status (reg : Registry) (batch_id : string) : option BatchStatus :=
  reg !! batch_id.

(** [SimpleArchiveExtractor.is_supported_format(filename)]. *)
Definition is_supported_format (filename : string) : bool :=
  if String.eqb filename "" then false
  else match Py.after_last_dot filename with
       | Some t => String.eqb ("." +:+ Py.lower t) ".zip"
       | None => false
       end.

Inductive UploadResponse :=
  | UploadRejected (code : Z)
  | UploadAccepted (batch_id archive_name : string).

(** [upload_batch()]: [file] is [request.files.get('file')] as the name
    of the upload, [form_password] is [request.form.get('password')],
    [uuid] is [uuid.uuid4().hex] and [now] the clock's isoformat;
    [save_error] is the exception of [file.save(archive_path)] (line
    610), when it raises, and [size_error] that of
    [os.path.getsize(archive_path)] in the response (line 634), which is
    evaluated after the batch is registered.  Both are caught by the
    handler that answers 500. *)
Definition upload_batch (reg : Registry) (file : option string)
    (form_password : option string) (uuid now : string)
    (save_error size_error : option string)
    : UploadResponse * Registry :=
  match file with
  | None => (UploadRejected 400, reg)
  | Some file_filename =>
      if String.eqb file_filename "" then (UploadRejected 400, reg)
      else
        let password := default "" form_password in
        if negb (is_supported_format file_filename) then (UploadRejected 400, reg)
        else
          let batch_id := uuid in
          let archive_filename := "batch_" +:+ batch_id +:+ "_" +:+ file_filename in
          let archive_path := Py.path_join UPLOAD_FOLDER archive_filename in
          let batch_status :=
            {| b_batch_id := batch_id;
               b_archive_name := file_filename;
               b_archive_path := archive_path;
               b_password := password;
               b_status := st_uploaded;
               b_total_files := 0;
               b_extracted_files := 0;
               b_failed_files := 0;
               b_files := [];
               b_extracted_at := None;
               b_converted_at := None;
               b_created_at := now;
               b_temp_dir := None;
               b_error := None;
               b_conversion_progress := None |} in
          match save_error with
          | Some _ => (UploadRejected 500, reg)
          | None =>
              let reg := <[batch_id := batch_status]> reg in
              match size_error with
              | Some _ => (UploadRejected 500, reg)
              | None => (UploadAccepted batch_id file_filename, reg)
              end
          end
  end.

(** What [extract_batch] finds outside the registry: the outcome of
    [mkdtemp], the archive stored at a path, the clock. *)
Record ExtractEnv := {
  mkdtemp : outcome string;
  open_archive : string → outcome (list Zip.ZipInfo);
  clock : nat → Z;
  extracted_now : string
}.

Inductive ExtractResponse :=
  | ExtractNotFound
  | ExtractWrongState (s : BatchState)
  | ExtractDone (total_files extracted_files failed_files : Z) (files : list FileInfo)
  | ExtractError (message : string).

(** [extract_batch(batch_id)]. *)
Definition extract_batch (env : ExtractEnv) (reg : Registry) (batch_id : string)
    : option (ExtractResponse * Registry) :=
  match get_batch_status reg batch_id with
  | None => Some (ExtractNotFound, reg)
  | Some batch_status =>
      match b_status batch_status with
      | st_uploaded =>
          let batch_status := set_status st_extracting batch_status in
          extract_result ←
            Extractor.extract_archive_safe (mkdtemp env)
              (open_archive env (b_archive_path batch_status)) (clock env)
              (Py.or_none (b_password batch_status));
          match extract_result with
          | Extractor.Extracted total_files extracted_files failed_files files temp_dir =>
              let batch_status :=
                set_extracted total_files extracted_files failed_files files
                  temp_dir (extracted_now env) batch_status in
              Some (ExtractDone total_files extracted_files failed_files files,
                    <[batch_id := batch_status]> reg)
          | Extractor.NotExtracted _ =>
              let batch_status :=
                set_error "解压失败" (set_status st_extract_failed batch_status) in
              Some (ExtractError "解压失败: 解压失败", <[batch_id := batch_status]> reg)
          end
      | s => Some (ExtractWrongState s, reg)
      end
  end.

(** *** The conversion worker *)

(** An element of [selected_files]: a JSON object, of which the worker
    reads the keys ['filename'], ['extracted_path'] and ['error'], or
    any other JSON value, given by the name of its Python type.  The
    default selection passes the member dictionaries themselves; the
    worker never assigns to the three keys it reads. *)
Inductive Selected :=
  | SelDict (sel_filename sel_extracted_path sel_error : option string)
  | SelOther (type_name : string).

(** What the worker finds outside the registry during one iteration.
    [write_error] is the exception of [open(output_path, 'w')] or of the
    write that follows, when one raises; [write_partial] is what is then
    left at [output_path]: [None] when [open] raised and made no file,
    the text that reached the file when the write raised after [open]
    had made it. *)
Record MemberIo := {
  out_uuid : string;
  write_error : option string;
  write_partial : option string;
  converted_now : string;
  out_size : Z;
  hist_uuid : string;
  hist_now : string;
  hist_save : History.SaveOutcome
}.

(** The state the worker runs in: the shared dictionary of its batch,
    the states it passed through (every assignment, latest first), the
    states handed to [save_batch_status] (latest first), the history
    file, the files made in the download folder with what they hold
    (latest first) and the calls of [convert_file_content]. *)
Record World := {
  batch : BatchStatus;
  seen : list BatchStatus;
  saved : list BatchStatus;
  history : History.HistoryFile;
  downloads : list (string * string);
  calls : list (option string * string * list Dispatch.Capability)
}.

(** State and exceptions. *)
Definition Worker (A : Type) : Type := World → World * outcome A.

#[global] Instance worker_ret : MRet Worker := λ A a w, (w, Ok a).
#[global] Instance worker_bind : MBind Worker := λ A B k m w,
  match m w with
  | (w', Ok a) => k a w'
  | (w', Raised e) => (w', Raised e)
  end.

Definition raise {A : Type} (e : string) : Worker A := λ w, (w, Raised e).

(** [try: body except Exception as e: handler(str(e))]. *)
Definition try_except {A : Type} (body : Worker A) (handler : string → Worker A)
    : Worker A := λ w,
  match body w with
  | (w', Ok a) => (w', Ok a)
  | (w', Raised e) => handler e w'
  end.

(** An assignment into the shared dictionary. *)
Definition mutate (g : BatchStatus → BatchStatus) : Worker unit := λ w,
  let b := g (batch w) in
  ({| batch := b; seen := b :: seen w; saved := saved w; history := history w;
      downloads := downloads w; calls := calls w |}, Ok tt).

(** [save_batch_status(batch_id, batch_status)] with the shared
    dictionary: the registry keeps the same object, the state is dumped. *)
Definition save_batch_status : Worker unit := λ w,
  ({| batch := batch w; seen := seen w; saved := batch w :: saved w;
      history := history w; downloads := downloads w; calls := calls w |}, Ok tt).

(** [global_file[key] = value] for the member at index [gi]. *)
Definition assign (gi : nat) (u : FileUpdate) : Worker unit :=
  mutate (λ b, set_files (alter (update_member u) gi (b_files b)) b).

(** [batch_status['conversion_progress'][c] += d]. *)
Definition count (c : Counter) (d : Z) : Worker unit := λ w,
  match b_conversion_progress (batch w) with
  | Some p => mutate (set_progress (add_to c d p)) w
  | None => (w, Raised "'conversion_progress'")
  end.

(** [convert_file_content(file_path, file_format)], recorded. *)
Definition dispatch (cv : Dispatch.Converters) (file_path : option string)
    (file_format : string) : Worker string := λ w,
  let '(caps, r) := Dispatch.convert_file_content cv file_path file_format in
  ({| batch := batch w; seen := seen w; saved := saved w; history := history w;
      downloads := downloads w;
      calls := calls w ++ [(file_path, file_format, caps)] |}, r).

(** [with open(output_path, 'w') as f: f.write(content)]. *)
Definition write_output (io : MemberIo) (output_path content : string)
    : Worker unit := λ w,
  match write_error io with
  | Some e =>
      match write_partial io with
      | Some part =>
          ({| batch := batch w; seen := seen w; saved := saved w;
              history := history w;
              downloads := (output_path, part) :: downloads w;
              calls := calls w |}, Raised e)
      | None => (w, Raised e)
      end
  | None =>
      ({| batch := batch w; seen := seen w; saved := saved w; history := history w;
          downloads := (output_path, content) :: downloads w;
          calls := calls w |}, Ok tt)
  end.

(** The call of [add_to_history] of lines 852-858. *)
Definition record_history (io : MemberIo) (filename file_format output_path
    download_url : string) : Worker unit := λ w,
  let '(_, file) :=
    History.add_to_history (hist_uuid io) (hist_now io) (hist_save io)
      filename file_format (out_size io) output_path download_url (history w) in
  ({| batch := batch w; seen := seen w; saved := saved w; history := file;
      downloads := downloads w; calls := calls w |}, Ok tt).

(** The loop of lines 790-793 and 872-875: the first member of that name. *)
Definition find_file (name : string) (fs : list FileInfo) : option (nat * FileInfo) :=
  list_find (λ f, filename f = name) fs.

(** The statements of lines 819-823, and again of lines 878-883, for the
    member at index [gi]. *)
Definition mark_failed (gi : nat) (e : string) : Worker unit :=
  assign gi (SetStatus cs_failed);;
  assign gi (SetError e);;
  count CFailed 1;;
  count CProcessing (-1);;
  save_batch_status.

(** Lines 800-865, for the member [global_file] found at index [gi]. *)
Definition convert_member (cv : Dispatch.Converters) (io : MemberIo)
    (gi : nat) (global_file : FileInfo) : Worker unit :=
  assign gi (SetStatus cs_processing);;
  assign gi (SetProgress 0);;
  save_batch_status;;
  count CProcessing 1;;
  save_batch_status;;
  let file_path := extracted_path global_file in
  let file_format := format global_file in
  let filename := filename global_file in
  if negb (supported file_format) then
    mark_failed gi ("不支持的文件格式: " +:+ file_format)
  else
    content ← dispatch cv file_path file_format;
    let output_filename :=
      fst (Py.splitext filename) +:+ "_" +:+ out_uuid io +:+ ".md" in
    let output_path := Py.path_join DOWNLOAD_FOLDER output_filename in
    write_output io output_path content;;
    let download_url :=
      "/download-md?file_path=" +:+ output_path +:+ "&filename=" +:+ output_filename in
    assign gi (SetStatus cs_completed);;
    assign gi (SetProgress 100);;
    assign gi (SetMdFilePath output_path);;
    assign gi (SetDownloadUrl download_url);;
    assign gi (SetConvertedAt (converted_now io));;
    record_history io filename file_format output_path download_url;;
    count CCompleted 1;;
    count CProcessing (-1);;
    save_batch_status.

(** The [try] block of one iteration (lines 782-865).  Returning
    without raising covers both [continue] and the end of the block. *)
Definition try_block (cv : Dispatch.Converters) (io : MemberIo)
    (file_info : Selected) : Worker unit :=
  match file_info with
  | SelOther _ => raise "string indices must be integers"
  | SelDict None _ _ => raise "'filename'"
  | SelDict (Some name) path err =>
      if negb (Py.truthy path) || Py.truthy err then mret tt
      else λ w,
        match find_file name (b_files (batch w)) with
        | None => (w, Ok tt)
        | Some (gi, global_file) => convert_member cv io gi global_file w
        end
  end.

(** The [except Exception as e] block of the iteration (lines 867-883). *)
Definition except_block (file_info : Selected) (e : string) : Worker unit :=
  match file_info with
  | SelOther type_name =>
      raise ("'" +:+ type_name +:+ "' object has no attribute 'get'")
  | SelDict name _ _ => λ w,
      match find_file (default "" name) (b_files (batch w)) with
      | Some (gi, _) => mark_failed gi e w
      | None => (w, Ok tt)
      end
  end.

(** One iteration of the loop: the [try] block and its handler. *)
Definition iteration (cv : Dispatch.Converters) (io : MemberIo)
    (file_info : Selected) : Worker unit :=
  try_except (try_block cv io file_info) (except_block file_info).

(** [for i, file_info in enumerate(files)]. *)
Fixpoint worker_loop (cv : Dispatch.Converters) (io : nat → MemberIo) (i : nat)
    (files : list Selected) : Worker unit :=
  match files with
  | [] => mret tt
  | file_info :: rest =>
      iteration cv (io i) file_info;;
      worker_loop cv io (S i) rest
  end.

(** [convert_batch_files(batch_id, files)], started by [convert_batch]
    on a batch of the registry. *)
Definition convert_batch_files (cv : Dispatch.Converters) (io : nat → MemberIo)
    (files : list Selected) : Worker unit :=
  worker_loop cv io 0 files;;
  mutate (set_status st_completed);;
  save_batch_status.

(** [async_convert()], the body of the thread. *)
Definition async_convert (cv : Dispatch.Converters) (io : nat → MemberIo)
    (selected_files : list Selected) : Worker unit :=
  try_except (convert_batch_files cv io selected_files)
    (λ e, mutate (set_status st_conversion_failed);;
          mutate (set_error e);;
          save_batch_status).

(** A member dictionary as an element of [selected_files]. *)
Definition as_selected (f : FileInfo) : Selected :=
  SelDict (Some (filename f)) (extracted_path f) (error f).

(** Line 735: every member that was extracted without error. *)
Definition default_selection (fs : list FileInfo) : list Selected :=
  as_selected <$>
    filter (λ f, Py.truthy (extracted_path f) && negb (Py.truthy (error f)) = true) fs.

(** Lines 731-735: the request's list, or the default when it is empty. *)
Definition selection (batch_status : BatchStatus) (data_files : list Selected)
    : list Selected :=
  match data_files with
  | [] => default_selection (b_files batch_status)
  | _ => data_files
  end.

Inductive ConvertResponse :=
  | ConvertNotFound
  | ConvertWrongState (s : BatchState)
  | ConvertStarted (total_files : Z).

(** The part of [convert_batch(batch_id)] that runs in the request
    (lines 716-746): the response, and the world and the selection the
    thread starts from.  [data_files] is the ['files'] of the request
    body, [[]] when there is none. *)
Definition convert_batch (reg : Registry) (hist : History.HistoryFile)
    (batch_id : string) (data_files : list Selected) (now : string)
    : ConvertResponse * option (World * list Selected) :=
  match get_batch_status reg batch_id with
  | None => (ConvertNotFound, None)
  | Some batch_status =>
      match b_status batch_status with
      | st_extracted =>
          let selected_files := selection batch_status data_files in
          let n := Z.of_nat (length selected_files) in
          let w0 :=
            {| batch := batch_status; seen := []; saved := []; history := hist;
               downloads := []; calls := [] |} in
          let start : Worker unit :=
            mutate (set_status st_converting);;
            mutate (set_converted_at now);;
            mutate (set_progress
                      {| total := n; completed := 0; failed := 0; processing := 0 |});;
            save_batch_status in
          (ConvertStarted n, Some (fst (start w0), selected_files))
      | s => (ConvertWrongState s, None)
      end
  end.

(** The request of [convert_batch] and the run of its thread to the end:
    the final world. *)
Definition run_conversion (cv : Dispatch.Converters) (io : nat → MemberIo)
    (reg : Registry) (hist : History.HistoryFile) (batch_id : string)
    (data_files : list Selected) (now : string) : option World :=
  match snd (convert_batch reg hist batch_id data_files now) with
  | Some (w, selected_files) => Some (fst (async_convert cv io selected_files w))
  | None => None
  end.

(** [get_batch_conversion_status] reads the shared dictionary: what the
    route can return while and after the thread runs. *)
Definition status_reads (w : World) : list BatchStatus := seen w.

End Batch.

(** ** Assertions on the worker *)

Module WorkerSpec.
Import Batch.

(** [{P} m {Q} {E}]: from a world in [P], [m] ends in [Q] when it
    returns and in [E] when it raises. *)
Definition hoare {A : Type} (P : World → Prop) (m : Worker A)
    (Q : A → World → Prop) (E : World → Prop) : Prop :=
  ∀ w, P w →
    match m w with
    | (w', Ok a) => Q a w'
    | (w', Raised _) => E w'
    end.

(** [completed + failed + processing]. *)
Definition progress_sum (p : Progress) : Z := completed p + failed p + processing p.

(** The counters are there, [total] is [n] and the sum is at most [a]. *)
Definition counters (n a : Z) (b : BatchStatus) : Prop :=
  ∃ p, b_conversion_progress b = Some p ∧ total p = n ∧ (progress_sum p ≤ a)%Z.

(** The same, for a state that may be without counters. *)
Definition counters_if (n a : Z) (b : BatchStatus) : Prop :=
  ∀ p, b_conversion_progress b = Some p → total p = n ∧ (progress_sum p ≤ a)%Z.

(** The bounds of the current state, of the saved states and of every
    state passed through. *)
Definition bounded (n a s e : Z) (w : World) : Prop :=
  counters n a (batch w)
  ∧ Forall (counters n s) (saved w)
  ∧ Forall (counters_if n e) (seen w).

(** [done] members are accounted for, [busy] are being processed, and
    the members go by the names [names]. *)
Definition exact (n done busy : Z) (names : list string) (w : World) : Prop :=
  ∃ p, b_conversion_progress (batch w) = Some p
       ∧ total p = n
       ∧ (completed p + failed p = done)%Z
       ∧ processing p = busy
       ∧ filename <$> b_files (batch w) = names.


(** A selected element as the default selection makes them: a member of
    the batch, by its name, that was extracted without error. *)
Definition convertible (names : list string) (s : Selected) : Prop :=
  match s with
  | SelDict (Some name) path err =>
      name ∈ names ∧ Py.truthy path = true ∧ Py.truthy err = false
  | _ => False
  end.

(** A step that leaves the shared dictionary and its records alone. *)
Definition quiet {A : Type} (m : Worker A) : Prop :=
  ∀ w, batch (m w).1 = batch w ∧ seen (m w).1 = seen w ∧ saved (m w).1 = saved w.

(** A step that does not call the dispatch. *)
Definition silent {A : Type} (m : Worker A) : Prop := ∀ w, calls (m w).1 = calls w.

(** Every recorded call of the dispatch was for a supported tag. *)
Definition calls_supported (w : World) : Prop :=
  Forall (λ c, supported c.1.2 = true) (calls w).

End WorkerSpec.

(** ** A sample batch *)

Module Sample.
Import Batch.

(** [a.pdf], extracted. *)
Definition member : FileInfo :=
  {| filename := "a.pdf"; original_path := "docs/a.pdf";
     extracted_path := Some "/tmp/archive_extract_x/a.pdf"; size := 120;
     format := "pdf"; error := None; extract_time := 0;
     conversion_status := None; conversion_progress := None;
     conversion_error := None; md_file_path := None;
     download_url := None; converted_at := None |}.

(** The same entry as a member of a format that is not supported. *)
Definition unknown_member : FileInfo :=
  {| filename := "a.pdf"; original_path := "docs/a.pdf";
     extracted_path := Some "/tmp/archive_extract_x/a.pdf"; size := 120;
     format := "unknown"; error := None; extract_time := 0;
     conversion_status := None; conversion_progress := None;
     conversion_error := None; md_file_path := None;
     download_url := None; converted_at := None |}.

(** A batch of one member, after extraction. *)
Definition batch_status : BatchStatus :=
  {| b_batch_id := "b1"; b_archive_name := "docs.zip";
     b_archive_path := "uploads/batch_b1_docs.zip"; b_password := "";
     b_status := st_extracted; b_total_files := 1; b_extracted_files := 1;
     b_failed_files := 0; b_files := [member];
     b_extracted_at := Some "2025-11-11T18:06:40"; b_converted_at := None;
     b_created_at := "2025-11-11T18:06:30";
     b_temp_dir := Some "/tmp/archive_extract_x"; b_error := None;
     b_conversion_progress := None |}.

Definition registry : gmap string BatchStatus := {[ "b1" := batch_status ]}.

(** Converters that return a text. *)
Definition converters : Dispatch.Converters :=
  {| Dispatch.read_text := λ _, Ok "text";
     Dispatch.csv_converter := λ _, Ok "| a |";
     Dispatch.pdf_converter := λ _, Ok "# a";
     Dispatch.pdf_native_converter := λ _, Ok "# a";
     Dispatch.img_converter := λ _, Ok "![a](a.png)";
     Dispatch.word_converter := λ _, Ok "# a";
     Dispatch.ppt_native_converter := λ _, Ok "# a";
     Dispatch.audio_converter := λ _, Ok "# a";
     Dispatch.video_converter := λ _, Ok "# a" |}.

Definition io (i : nat) : MemberIo :=
  {| out_uuid := "1b2c3d4e"; write_error := None; write_partial := None;
     converted_now := "2025-11-11T18:06:48"; out_size := 3;
     hist_uuid := "0f3a"; hist_now := "2025-11-11T18:06:48";
     hist_save := History.Saved |}.

(** The batch of [docs.zip] as [upload_batch] stores it. *)
Definition uploaded : BatchStatus :=
  {| b_batch_id := "b1"; b_archive_name := "docs.zip";
     b_archive_path := "uploads/batch_b1_docs.zip"; b_password := "";
     b_status := st_uploaded; b_total_files := 0; b_extracted_files := 0;
     b_failed_files := 0; b_files := [];
     b_extracted_at := None; b_converted_at := None;
     b_created_at := "2025-11-11T18:06:30";
     b_temp_dir := None; b_error := None; b_conversion_progress := None |}.

Definition uploaded_registry : gmap string BatchStatus := {[ "b1" := uploaded ]}.

(** An archive of an encrypted entry and a plain one. *)
Definition archive : list Zip.ZipInfo :=
  [ {| Zip.zi_filename := "secret/a.pdf"; Zip.file_size := 120; Zip.flag_bits := 1;
       Zip.key := "hunter2"; Zip.payload := Zip.Readable |};
    {| Zip.zi_filename := "b.pdf"; Zip.file_size := 80; Zip.flag_bits := 0;
       Zip.key := ""; Zip.payload := Zip.Readable |} ].

Definition extract_env : ExtractEnv :=
  {| mkdtemp := Ok "/tmp/archive_extract_x";
     open_archive := λ _, Ok archive;
     clock := λ _, 0%Z;
     extracted_now := "2025-11-11T18:06:40" |}.

(** The selection of that member. *)
Definition selected : list Selected :=
  [SelDict (Some "a.pdf") (Some "/tmp/archive_extract_x/a.pdf") None].

(** The worker's world for the batch whose member is not supported,
    after the trigger. *)
Definition unsupported_world : World :=
  {| batch :=
       set_progress
         {| total := 1; completed := 0; failed := 0; processing := 0 |}
         (set_status st_converting (set_files [unknown_member] batch_status));
     seen := []; saved := []; history := History.Missing;
     downloads := []; calls := [] |}.

End Sample.

(** ** The worker: names of the output *)

Module Output.
Import Batch.

(** The [output_filename] of line 831 for a member called [filename]. *)
Definition output_filename (io : MemberIo) (filename : string) : string :=
  (Py.splitext filename).1 +:+ "_" +:+ out_uuid io +:+ ".md".

(** The [output_path] of line 832. *)
Definition output_path (io : MemberIo) (filename : string) : string :=
  Py.path_join DOWNLOAD_FOLDER (output_filename io filename).

(** The [download_url] of line 839. *)
Definition download_url_of (io : MemberIo) (filename : string) : string :=
  "/download-md?file_path=" +:+ output_path io filename
  +:+ "&filename=" +:+ output_filename io filename.

(** The keys of a member that the extraction sets. *)
Definition extraction_part (f : FileInfo)
    : string * string * option string * Z * string * option string * Z :=
  (filename f, original_path f, extracted_path f, size f, format f, error f,
   extract_time f).

(** The keys of a batch that upload and extraction set, with the
    extraction's part of its members. *)
Definition extraction_view (b : BatchStatus) :=
  (b_batch_id b, b_archive_name b, b_archive_path b, b_password b,
   b_total_files b, b_extracted_files b, b_failed_files b,
   b_extracted_at b, b_created_at b, b_temp_dir b,
   extraction_part <$> b_files b).

(** A selected element the worker works on (lines 784-797): a JSON
    object with a name, an extracted path and no error, naming a member. *)
Definition selectable (names : list string) (s : Selected) : bool :=
  match s with
  | SelDict (Some name) path err =>
      bool_decide (name ∈ names) && Py.truthy path && negb (Py.truthy err)
  | _ => false
  end.

(** A JSON object with a name. *)
Definition named (s : Selected) : Prop :=
  match s with
  | SelDict (Some _) _ _ => True
  | _ => False
  end.

(** [I] holds of the worker's current state and of every state it passed
    through or saved. *)
Definition kept (I : BatchStatus → Prop) (w : World) : Prop :=
  I (batch w) ∧ Forall I (seen w) ∧ Forall I (saved w).


(** Of [n] selected members [k] are completed, none has failed and
    none is being processed; the dispatch was called and a file was
    written for each; the members are those of [b] as the extraction
    left them. *)
Definition all_done (b : BatchStatus) (n k : Z) (w : World) : Prop :=
  ∃ p, b_conversion_progress (batch w) = Some p
       ∧ total p = n ∧ completed p = k ∧ failed p = 0%Z ∧ processing p = 0%Z
       ∧ Z.of_nat (length (downloads w)) = k
       ∧ Z.of_nat (length (calls w)) = k
       ∧ extraction_part <$> b_files (batch w) = extraction_part <$> b_files b.

End Output.

(** ** History routes *)

Module HistoryRoutes.
Import History.

(** [get_history()]: the list and its length. *)
Definition get_history (file : HistoryFile) : list HistoryRecord * nat :=
  let history := load_history file in
  (history, length history).

(** [clear_history()]: the file after [save_history([])]; the response
    is the same whatever the write does. *)
Definition clear_history (o : SaveOutcome) (file : HistoryFile) : HistoryFile :=
  save_history o [] file.

(** The responses of [delete_history_item]: 200 and 404. *)
Inductive DeleteResponse := Deleted | NotFound.

(** [delete_history_item(history_id)]. *)
Definition delete_history_item (o : SaveOutcome) (history_id : string)
    (file : HistoryFile) : DeleteResponse * HistoryFile :=
  let history := load_history file in
  let new_history := filter (λ item, id item ≠ history_id) history in
  if (length history =? length new_history)%nat then (NotFound, file)
  else (Deleted, save_history o new_history file).

(** [add_to_history] called once for each element of [adds], in order,
    every write succeeding. *)
Definition add_all (adds : list HistoryRecord) (file : HistoryFile) : HistoryFile :=
  foldl (λ file r,
           (add_to_history (id r) (converted_at r) Saved (original_name r)
              (format r) (file_size r) (md_file_path r) (download_url r) file).2)
        file adds.

End HistoryRoutes.

(** ** Names of uploads *)

Module Upload.

(** A name that ends in a dot followed by [zip], in any letter case. *)
Definition zip_name (name : string) : Prop :=
  ∃ stem e, name = stem +:+ "." +:+ e ∧ Py.after_last_dot e = None
            ∧ Py.lower e = "zip".

End Upload.

(** ** Extensions of media files *)

Module Media.

(** The extensions that [ArchiveExtractor._detect_file_format] knows and
    the [format_map] of [extract_archive_safe] does not. *)
Definition extensions : list string :=
  ["bmp"; "mp3"; "wav"; "flac"; "aac"; "ogg"; "m4a"; "wma";
   "mp4"; "avi"; "mov"; "mkv"; "wmv"; "flv"; "webm"; "m4v"; "3gp"; "mpg"; "mpeg"].

End Media.

(** ** Entries that can be read *)

Module ExtractorSpec.
Import Zip Extractor.

(** The entry opens with the password given and is copied to the end. *)
Definition written (password : option string) (zi : ZipInfo) : bool :=
  match open_and_copy zi (pwd_arg password) with
  | Readable => true
  | OpenError _ | CopyError _ => false
  end.

(** The message of the exception that opening or copying the entry
    raises. *)
Definition failure (password : option string) (zi : ZipInfo) : option string :=
  match open_and_copy zi (pwd_arg password) with
  | Readable => None
  | OpenError msg | CopyError msg => Some msg
  end.

(** The path [q] exists when the entry at index [j] is reached: it was
    among the paths [fs] the extraction started with, or the record of
    an earlier entry has it, or an earlier entry broke off while it was
    copied, which leaves a file whose path no record keeps. *)
Definition taken (password : option string) (fs : list string)
    (ms : list ZipInfo) (files : list FileInfo) (j : nat) (q : string) : Prop :=
  q ∈ fs
  ∨ (∃ i fi, (i < j)%nat ∧ files !! i = Some fi ∧ extracted_path fi = Some q)
  ∨ (∃ i zi msg, (i < j)%nat ∧ ms !! i = Some zi
                 ∧ open_and_copy zi (pwd_arg password) = CopyError msg).

End ExtractorSpec.

(** ** The routes for a single file *)

Module Single.
Import Batch.

Definition is_comma (c : ascii) : bool := Ascii.eqb c ","%char.

(** [s.split(',')]. *)
Fixpoint split_comma (s : string) : list string :=
  match s with
  | EmptyString => [EmptyString]
  | String c r =>
      if is_comma c then EmptyString :: split_comma r
      else match split_comma r with
           | x :: xs => String c x :: xs
           | [] => [String c EmptyString]
           end
  end.

(** [x in l] for a list of strings. *)
Definition contains (l : list string) (x : string) : bool :=
  existsb (String.eqb x) l.

(** [SUPPORTED_FORMATS.items()], in the order of the literal. *)
Definition supported_items : list (string * string) :=
  [ ("pdf", ".pdf");
    ("word", ".doc,.docx");
    ("excel", ".xls,.xlsx");
    ("ppt", ".ppt,.pptx");
    ("image", ".jpg,.jpeg,.png,.gif,.bmp");
    ("audio", ".mp3,.wav,.flac,.aac,.ogg,.m4a,.wma");
    ("video", ".mp4,.avi,.mov,.mkv,.wmv,.flv,.webm,.m4v,.3gp,.mpg,.mpeg");
    ("html", ".html,.htm");
    ("csv", ".csv");
    ("json", ".json");
    ("xml", ".xml");
    ("zip", ".zip");
    ("rar", ".rar") ].

(** ['.' + filename.split('.')[-1].lower() if '.' in filename else '']. *)
Definition dot_extension (filename : string) : string :=
  match Py.after_last_dot filename with
  | Some t => "." +:+ Py.lower t
  | None => ""
  end.

(** [detect_file_format(filename)]. *)
Definition detect_file_format (filename : string) : option string :=
  if String.eqb filename "" then None
  else
    let ext := dot_extension filename in
    fst <$> find (λ item, contains (split_comma item.2) ext) supported_items.

(** [is_supported_file(filename, format_type)]. *)
Definition is_supported_file (filename format_type : string) : bool :=
  match SUPPORTED_FORMATS !! format_type with
  | None => false
  | Some extensions => contains (split_comma extensions) (dot_extension filename)
  end.

(** The responses of [upload_file]: an error with its code, or the
    success with ['file_id'], ['original_name'], ['file_size'] and
    ['upload_path']. *)
Inductive UploadFileResponse :=
  | FileRejected (code : Z) (message : string)
  | FileStored (file_id original_name : string) (file_size : Z) (upload_path : string).

(** [upload_file(format_type)]: [file] is the name of
    [request.files['file']] when there is one, [uuid] is
    [uuid.uuid4().hex], [save] the outcome of [file.save(upload_path)]
    followed by [os.path.getsize(upload_path)]. *)
Definition upload_file (format_type : string) (file : option string)
    (uuid : string) (save : outcome Z) : UploadFileResponse :=
  if negb (supported format_type) then
    FileRejected 400 ("不支持的格式: " +:+ format_type)
  else
    match file with
    | None => FileRejected 400 "没有选择文件"
    | Some file_filename =>
        if String.eqb file_filename "" then FileRejected 400 "没有选择文件"
        else if negb (is_supported_file file_filename format_type) then
          FileRejected 400 ("文件格式不匹配，期望 " +:+ format_type +:+ " 格式")
        else
          let filename := file_filename in
          let upload_path := Py.path_join UPLOAD_FOLDER (uuid +:+ "_" +:+ filename) in
          match save with
          | Raised e => FileRejected 500 ("上传失败: " +:+ e)
          | Ok file_size =>
              FileStored (Py.basename upload_path) filename file_size upload_path
          end
  end.

(** The formats [convert_format] has a branch for. *)
Definition converted_formats : list string :=
  ["csv"; "pdf"; "image"; "json"; "xml"; "html"; "word"; "ppt"; "audio"; "video"].

(** The branches of [convert_format] on [format_type] (lines 316-377):
    the text, or the exception that leaves the [try] block.  There is
    no [else]: for any other format [content] stays the empty text. *)
Definition route_content (cv : Dispatch.Converters) (upload_path format_type : string)
    : outcome string :=
  if String.eqb format_type "csv" then
    match Dispatch.read_text cv (Some upload_path) with
    | Ok content => Dispatch.csv_converter cv content
    | Raised e => Raised e
    end
  else if String.eqb format_type "pdf" then
    match Dispatch.pdf_converter cv (Some upload_path) with
    | Ok content => Ok content
    | Raised e =>
        match Dispatch.pdf_native_converter cv (Some upload_path) with
        | Ok content => Ok content
        | Raised e2 => Ok (Dispatch.pdf_error_document e e2)
        end
    end
  else if String.eqb format_type "image" then
    Dispatch.img_converter cv (Some upload_path)
  else if String.eqb format_type "json" then
    match Dispatch.read_text cv (Some upload_path) with
    | Ok content => Ok ("```json" +:+ Py.nl +:+ content +:+ Py.nl +:+ "```")
    | Raised e => Raised e
    end
  else if String.eqb format_type "xml" then
    match Dispatch.read_text cv (Some upload_path) with
    | Ok content => Ok ("```xml" +:+ Py.nl +:+ content +:+ Py.nl +:+ "```")
    | Raised e => Raised e
    end
  else if String.eqb format_type "html" then
    match Dispatch.read_text cv (Some upload_path) with
    | Ok content => Ok ("```html" +:+ Py.nl +:+ content +:+ Py.nl +:+ "```")
    | Raised e => Raised e
    end
  else if String.eqb format_type "word" then
    Dispatch.word_converter cv (Some upload_path)
  else if String.eqb format_type "ppt" then
    match Dispatch.ppt_native_converter cv (Some upload_path) with
    | Ok content => Ok content
    | Raised e => Ok (Dispatch.error_document "PPT" e)
    end
  else if String.eqb format_type "audio" then
    match Dispatch.audio_converter cv (Some upload_path) with
    | Ok content => Ok content
    | Raised e => Ok (Dispatch.error_document "音频" e)
    end
  else if String.eqb format_type "video" then
    match Dispatch.video_converter cv (Some upload_path) with
    | Ok content => Ok content
    | Raised e => Ok (Dispatch.error_document "视频" e)
    end
  else Ok "".

(** What [convert_format] finds outside: the paths that exist, the
    eight digits of the output name, the exceptions of writing the
    output and of removing the upload, the size of the output, and what
    [add_to_history] draws.  [write_error] is the exception of
    [open(output_path, 'w')] or of the write that follows;
    [write_partial] is what is then left at [output_path]: [None] when
    [open] raised and made no file, the text that reached the file when
    the write raised after [open] had made it. *)
Record RouteIo := {
  exists_path : string → bool;
  uuid8 : string;
  write_error : option string;
  write_partial : option string;
  remove_error : option string;
  output_size : Z;
  hist_uuid : string;
  hist_now : string;
  hist_save : History.SaveOutcome
}.

(** The files of the route: the history, the files made in the
    download folder with what they hold and the paths removed, latest
    first. *)
Record Files := {
  history : History.HistoryFile;
  written : list (string * string);
  removed : list string
}.

(** The responses of [convert_format]: an error with its code, the
    success, or an exception that leaves the view. *)
Inductive ConvertFormatResponse :=
  | FormatRejected (code : Z) (message : string)
  | FormatConverted (md_file_path message history_id : string)
  | FormatEscaped (e : string).

(** [convert_format(format_type)] on a request whose body is JSON:
    [data] is [None] for a body that is falsy, [Some None] for an
    object without ['file_id'], [Some (Some file_id)] for an object with
    a string under that key. *)
Definition convert_format (cv : Dispatch.Converters) (io : RouteIo)
    (format_type : string) (data : option (option string)) (fs : Files)
    : ConvertFormatResponse * Files :=
  if negb (supported format_type) then
    (FormatRejected 400 ("不支持的格式: " +:+ format_type), fs)
  else
    match data with
    | None | Some None => (FormatRejected 400 "没有提供文件ID", fs)
    | Some (Some file_id) =>
        let upload_path := Py.path_join UPLOAD_FOLDER file_id in
        if negb (exists_path io upload_path) then
          (FormatRejected 400 "文件不存在，请重新上传", fs)
        else
          let filename := Py.basename upload_path in
          match route_content cv upload_path format_type with
          | Raised e => (FormatRejected 500 ("服务器错误: " +:+ e), fs)
          | Ok content =>
              let output_filename :=
                (Py.splitext filename).1 +:+ "_" +:+ uuid8 io +:+ ".md" in
              let output_path := Py.path_join DOWNLOAD_FOLDER output_filename in
              match write_error io with
              | Some e =>
                  match write_partial io with
                  | Some part =>
                      (FormatEscaped e,
                       {| history := history fs;
                          written := (output_path, part) :: written fs;
                          removed := removed fs |})
                  | None => (FormatEscaped e, fs)
                  end
              | None =>
                  let fs :=
                    {| history := history fs;
                       written := (output_path, content) :: written fs;
                       removed := removed fs |} in
                  match remove_error io with
                  | Some e => (FormatEscaped e, fs)
                  | None =>
                      let fs :=
                        {| history := history fs; written := written fs;
                           removed := upload_path :: removed fs |} in
                      let original_filename := Py.basename upload_path in
                      let download_url :=
                        "/download-md?file_path=" +:+ output_path
                        +:+ "&filename=" +:+ Py.basename output_filename in
                      let '(history_record, file) :=
                        History.add_to_history (hist_uuid io) (hist_now io)
                          (hist_save io) original_filename format_type
                          (output_size io) output_path download_url (history fs) in
                      (FormatConverted output_path ("成功转换 " +:+ filename)
                         (History.id history_record),
                       {| history := file; written := written fs;
                          removed := removed fs |})
                  end
              end
          end
    end.

End Single.

(** ** Further sample data *)

Module Scenario.
Import Batch.

(** An entry that is not encrypted and can be read. *)
Definition entry (name : string) : Zip.ZipInfo :=
  {| Zip.zi_filename := name; Zip.file_size := 10; Zip.flag_bits := 0;
     Zip.key := ""; Zip.payload := Zip.Readable |}.



(** [docs.zip] with [a.pdf] under two directories. *)
Definition twice_archive : list Zip.ZipInfo :=
  [entry "docs/"; entry "docs/a.pdf"; entry "old/a.pdf"; entry "b.txt"].

(** An archive whose entries are named to be written elsewhere. *)
Definition escaping_archive : list Zip.ZipInfo :=
  [entry "../../etc/cron.d/job"; entry "/abs/b.txt"; entry "docs/";
   entry "c/d/e.md"].

(** An archive with an encrypted [a.txt] at its root and a plain
    [docs/a.txt]. *)
Definition shadow_archive : list Zip.ZipInfo :=
  [ {| Zip.zi_filename := "a.txt"; Zip.file_size := 120; Zip.flag_bits := 1;
       Zip.key := "hunter2"; Zip.payload := Zip.Readable |};
    entry "docs/a.txt" ].

Definition shadow_env : ExtractEnv :=
  {| mkdtemp := Ok "/tmp/archive_extract_x";
     open_archive := λ _, Ok shadow_archive;
     clock := λ _, 0%Z;
     extracted_now := "2025-11-11T18:06:40" |}.

(** The worker's world for the sample batch, after the trigger. *)
Definition started : World :=
  {| batch :=
       set_progress
         {| total := 1; completed := 0; failed := 0; processing := 0 |}
         (set_converted_at "2025-11-11T18:06:47"
            (set_status st_converting Sample.batch_status));
     seen := []; saved := []; history := History.Missing;
     downloads := []; calls := [] |}.

(** The disk is full: the output file is opened, which creates it, and
    writing it raises. *)
Definition full_disk : MemberIo :=
  {| out_uuid := "1b2c3d4e"; write_error := Some "[Errno 28] No space left on device";
     write_partial := Some "";
     converted_now := "2025-11-11T18:06:48"; out_size := 3;
     hist_uuid := "0f3a"; hist_now := "2025-11-11T18:06:48";
     hist_save := History.Saved |}.

(** The record of [a.pdf] at the root of the archive, which could not be
    opened. *)
Definition failed_member : FileInfo :=
  {| filename := "a.pdf"; original_path := "a.pdf";
     extracted_path := None; size := 120;
     format := "unknown"; error := Some "Bad password for file 'a.pdf'";
     extract_time := 0;
     conversion_status := None; conversion_progress := None;
     conversion_error := None; md_file_path := None;
     download_url := None; converted_at := None |}.

(** A batch in which the failed [a.pdf] stands before the extracted
    [docs/a.pdf]. *)
Definition shadowed : BatchStatus :=
  set_files [failed_member; Sample.member] Sample.batch_status.

Definition shadowed_registry : gmap string BatchStatus := {[ "b1" := shadowed ]}.

(** The history record of a conversion of [a.pdf]. *)
Definition history_record (id : string) : History.HistoryRecord :=
  {| History.id := id; History.original_name := "a.pdf"; History.format := "pdf";
     History.file_size := 120; History.md_file_path := "downloads/a_1b2c3d4e.md";
     History.download_url := "/download-md";
     History.converted_at := "2025-11-11T18:06:47";
     History.status := "completed" |}.

(** Converters of which the one for images raises. *)
Definition no_ocr : Dispatch.Converters :=
  {| Dispatch.read_text := λ _, Ok "text";
     Dispatch.csv_converter := λ _, Ok "| a |";
     Dispatch.pdf_converter := λ _, Raised "PaddleOCR is not installed";
     Dispatch.pdf_native_converter := λ _, Ok "# a";
     Dispatch.img_converter := λ _, Raised "PaddleOCR is not installed";
     Dispatch.word_converter := λ _, Ok "# a";
     Dispatch.ppt_native_converter := λ _, Ok "# a";
     Dispatch.audio_converter := λ _, Ok "# a";
     Dispatch.video_converter := λ _, Ok "# a" |}.

(** A request of [convert_format] when the disk is full: the output is
    opened, and writing it raises. *)
Definition route_full_disk : Single.RouteIo :=
  {| Single.exists_path := λ _, true; Single.uuid8 := "1b2c3d4e";
     Single.write_error := Some "[Errno 28] No space left on device";
     Single.write_partial := Some "";
     Single.remove_error := None;
     Single.output_size := 3;
     Single.hist_uuid := "0f3a"; Single.hist_now := "2025-11-11T18:06:48";
     Single.hist_save := History.Saved |}.

(** A request of [convert_format] finds the upload and writes and
    removes without error. *)
Definition route_io : Single.RouteIo :=
  {| Single.exists_path := λ _, true; Single.uuid8 := "1b2c3d4e";
     Single.write_error := None; Single.write_partial := None;
     Single.remove_error := None;
     Single.output_size := 3;
     Single.hist_uuid := "0f3a"; Single.hist_now := "2025-11-11T18:06:48";
     Single.hist_save := History.Saved |}.

Definition no_files : Single.Files :=
  {| Single.history := History.Missing; Single.written := []; Single.removed := [] |}.

End Scenario.

(** * Properties *)

(** ** Strings and paths *)

Lemma append_nil_l (s : string) : "" +:+ s = s.
Proof. reflexivity. Qed.

Lemma append_cons_l (c : ascii) (s t : string) :
  String c s +:+ t = String c (s +:+ t).
Proof. reflexivity. Qed.

Lemma append_nil_r (s : string) : s +:+ "" = s.
Proof. induction s as [|c s IH]; [reflexivity|]. now rewrite append_cons_l, IH. Qed.

Lemma append_assoc (s t u : string) : (s +:+ t) +:+ u = s +:+ t +:+ u.
Proof.
  induction s as [|c s IH]; [reflexivity|].
  now rewrite !append_cons_l, IH.
Qed.

Lemma after_last_dot_app (s e : string) :
  Py.after_last_dot e = None →
  Py.after_last_dot (s +:+ "." +:+ e) = Some e.
Proof.
  intros He. induction s as [|c s IH].
  - rewrite append_nil_l, append_cons_l, append_nil_l.
    cbn [Py.after_last_dot]. rewrite He. reflexivity.
  - rewrite append_cons_l. cbn [Py.after_last_dot]. rewrite IH. reflexivity.
Qed.

Lemma extension_app (s e : string) :
  Py.after_last_dot e = None →
  Py.extension (s +:+ "." +:+ e) = Py.lower e.
Proof. intros He. unfold Py.extension. now rewrite after_last_dot_app. Qed.

(** ** Format classifier *)

Lemma table_value_listed (l : list (string * string)) (k v : string) :
  (list_to_map l : gmap string string) !! k = Some v → v ∈ l.*2.
Proof.
  intros H. apply elem_of_list_to_map_2 in H.
  apply list_elem_of_fmap. now exists (k, v).
Qed.

Lemma lookup_default_listed (l : list (string * string)) (tags : list string) (k : string) :
  Forall (λ v, v ∈ tags) ("unknown" :: l.*2) →
  default "unknown" ((list_to_map l : gmap string string) !! k) ∈ tags.
Proof.
  intros H. apply Forall_cons in H as [Hu Hl].
  destruct (_ !! k) as [v|] eqn:E; simpl; [|exact Hu].
  rewrite Forall_forall in Hl. apply Hl. eapply table_value_listed, E.
Qed.

Lemma _detect_file_format_in (f : string) :
  Classifier._detect_file_format f ∈ Classifier.extractor_tags.
Proof.
  unfold Classifier._detect_file_format.
  destruct (String.eqb f ""); [vm_compute; repeat constructor|].
  apply lookup_default_listed. vm_compute. repeat constructor.
Qed.

Lemma detect_format_in (f : string) : Classifier.detect_format f ∈ Classifier.inline_tags.
Proof.
  apply lookup_default_listed. vm_compute. repeat constructor.
Qed.

(** C2, as the specification states it, fails at the scenario's own file:
    [b.txt] is tagged [text] by both classifiers, which is neither
    [unknown] nor a tag of the closed set. *)
Lemma classify_txt_counterexample :
  (Classifier._detect_file_format "b.txt" ≠ "unknown")
  ∧ (Classifier._detect_file_format "b.txt" ∉ Classifier.spec_tags)
  ∧ (Classifier.detect_format "b.txt" ≠ "unknown")
  ∧ (Classifier.detect_format "b.txt" ∉ Classifier.spec_tags).
Proof.
  assert (E1 : Classifier._detect_file_format "b.txt" = "text") by (vm_compute; reflexivity).
  assert (E2 : Classifier.detect_format "b.txt" = "text") by (vm_compute; reflexivity).
  rewrite E1, E2. unfold Classifier.spec_tags.
  repeat split; try discriminate; rewrite !elem_of_cons, elem_of_nil;
    intros H; repeat (destruct H as [H|H]; [discriminate H|]); exact H.
Qed.

(** C2 (amended): both classifiers are total functions that look the
    lower-cased extension up in a fixed table; the range of
    [_detect_file_format] is exactly the specification's tag set extended
    by [text], the range of the table of [extract_archive_safe] is exactly
    that set without [audio] and [video]; a name whose extension is not a
    key of the table is tagged [unknown], and every [.txt] name is tagged
    [text]. *)
Theorem classify_range_with_text :
  (∀ f, Classifier._detect_file_format f ∈ Classifier.extractor_tags)
  ∧ (∀ t, t ∈ Classifier.extractor_tags → ∃ f, Classifier._detect_file_format f = t)
  ∧ (∀ f, Classifier.detect_format f ∈ Classifier.inline_tags)
  ∧ (∀ t, t ∈ Classifier.inline_tags → ∃ f, Classifier.detect_format f = t)
  ∧ (∀ f, f ≠ "" →
       Classifier._detect_file_format f
       = default "unknown" (Classifier.extractor_format_map !! Py.extension f))
  ∧ (∀ f, Classifier.extractor_format_map !! Py.extension f = None →
       Classifier._detect_file_format f = "unknown")
  ∧ (∀ f, Classifier.format_map !! Py.extension f = None →
       Classifier.detect_format f = "unknown")
  ∧ (∀ stem e, Py.after_last_dot e = None → Py.lower e = "txt" →
       Classifier._detect_file_format (stem +:+ "." +:+ e) = "text"
       ∧ Classifier.detect_format (stem +:+ "." +:+ e) = "text").
Proof.
  split; [exact _detect_file_format_in|].
  split.
  { intros t Ht. unfold Classifier.extractor_tags, Classifier.spec_tags in Ht.
    rewrite !elem_of_cons, elem_of_nil in Ht.
    destruct Ht as [->|[->|[->|[->|[->|[->|[->|[->|[->|[->|[->|[->|[->|[]]]]]]]]]]]]]].
    - exists "a.txt". vm_compute. reflexivity.
    - exists "a.pdf". vm_compute. reflexivity.
    - exists "a.docx". vm_compute. reflexivity.
    - exists "a.xlsx". vm_compute. reflexivity.
    - exists "a.pptx". vm_compute. reflexivity.
    - exists "a.png". vm_compute. reflexivity.
    - exists "a.mp3". vm_compute. reflexivity.
    - exists "a.mp4". vm_compute. reflexivity.
    - exists "a.html". vm_compute. reflexivity.
    - exists "a.csv". vm_compute. reflexivity.
    - exists "a.json". vm_compute. reflexivity.
    - exists "a.xml". vm_compute. reflexivity.
    - exists "a". vm_compute. reflexivity. }
  split; [exact detect_format_in|].
  split.
  { intros t Ht. unfold Classifier.inline_tags in Ht.
    rewrite !elem_of_cons, elem_of_nil in Ht.
    destruct Ht as [->|[->|[->|[->|[->|[->|[->|[->|[->|[->|[->|[]]]]]]]]]]]].
    - exists "a.pdf". vm_compute. reflexivity.
    - exists "a.doc". vm_compute. reflexivity.
    - exists "a.xls". vm_compute. reflexivity.
    - exists "a.ppt". vm_compute. reflexivity.
    - exists "a.JPG". vm_compute. reflexivity.
    - exists "a.htm". vm_compute. reflexivity.
    - exists "a.txt". vm_compute. reflexivity.
    - exists "a.csv". vm_compute. reflexivity.
    - exists "a.json". vm_compute. reflexivity.
    - exists "a.xml". vm_compute. reflexivity.
    - exists "a.mp4". vm_compute. reflexivity. }
  split.
  { intros f Hf. unfold Classifier._detect_file_format.
    destruct (String.eqb_spec f ""); [contradiction|reflexivity]. }
  split.
  { intros f Hf. unfold Classifier._detect_file_format.
    destruct (String.eqb f ""); [reflexivity|]. now rewrite Hf. }
  split.
  { intros f Hf. unfold Classifier.detect_format. now rewrite Hf. }
  intros stem e He Hl.
  assert (Hne : stem +:+ "." +:+ e ≠ "").
  { destruct stem; rewrite ?append_nil_l, !append_cons_l; discriminate. }
  unfold Classifier._detect_file_format, Classifier.detect_format.
  destruct (String.eqb_spec (stem +:+ "." +:+ e) ""); [contradiction|].
  rewrite extension_app, Hl by exact He. split; vm_compute; reflexivity.
Qed.

(** The scenario of the specification and some upper-case names. *)
Lemma classify_txt_witness :
  Classifier._detect_file_format ("b" +:+ "." +:+ "TXT") = "text"
  ∧ Classifier.detect_format ("b" +:+ "." +:+ "TXT") = "text".
Proof.
  apply (proj2 (proj2 (proj2 (proj2 (proj2 (proj2 (proj2 classify_range_with_text)))))) "b" "TXT");
    vm_compute; reflexivity.
Defined.

(** ** Converter dispatch *)

Lemma pdf_error_document_embeds (e e2 : string) :
  ∃ before between : string,
    Dispatch.pdf_error_document e e2 = before +:+ e +:+ between +:+ e2.
Proof.
  exists (Dispatch.heading +:+ "PDF转换失败" +:+ Py.nl +:+ Py.nl +:+ "PaddleOCR错误: "),
         (Py.nl +:+ "原生转换错误: ").
  unfold Dispatch.pdf_error_document. now rewrite !append_assoc.
Qed.

(** C3: for the tag [pdf] the dispatch attempts the OCR converter first;
    only if it raises does it attempt the native converter; if both raise
    it returns the generated error document, which embeds both messages.
    In every case the call returns a text and raises nothing.  The [pdf]
    branch of the route [convert_format] behaves the same. *)
Theorem pdf_dispatch_two_tier (cv : Dispatch.Converters) (file_path : option string) :
  (∀ content, Dispatch.pdf_converter cv file_path = Ok content →
     Dispatch.convert_file_content cv file_path "pdf" = ([Dispatch.PdfOcr], Ok content))
  ∧ (∀ e content,
       Dispatch.pdf_converter cv file_path = Raised e →
       Dispatch.pdf_native_converter cv file_path = Ok content →
       Dispatch.convert_file_content cv file_path "pdf"
       = ([Dispatch.PdfOcr; Dispatch.PdfNative], Ok content))
  ∧ (∀ e e2,
       Dispatch.pdf_converter cv file_path = Raised e →
       Dispatch.pdf_native_converter cv file_path = Raised e2 →
       Dispatch.convert_file_content cv file_path "pdf"
       = ([Dispatch.PdfOcr; Dispatch.PdfNative], Ok (Dispatch.pdf_error_document e e2))
       ∧ ∃ before between : string,
           Dispatch.pdf_error_document e e2 = before +:+ e +:+ between +:+ e2)
  ∧ (∃ content, snd (Dispatch.convert_file_content cv file_path "pdf") = Ok content)
  ∧ Dispatch.convert_format_pdf cv file_path
    = Dispatch.convert_file_content cv file_path "pdf".
Proof.
  unfold Dispatch.convert_file_content, Dispatch.convert_format_pdf.
  cbn [String.eqb Ascii.eqb Bool.eqb].
  split; [|split; [|split; [|split]]].
  - intros content ->. reflexivity.
  - intros e content -> ->. reflexivity.
  - intros e e2 -> ->. split; [reflexivity|apply pdf_error_document_embeds].
  - destruct (Dispatch.pdf_converter cv file_path) as [c|e]; [now exists c|].
    destruct (Dispatch.pdf_native_converter cv file_path) as [c|e2]; eauto.
  - reflexivity.
Qed.

(** ** History recorder *)

Lemma take_cons_succ {A : Type} (n : nat) (x : A) (l : list A) :
  take (S n) (x :: l) = x :: take n l.
Proof. reflexivity. Qed.

(** C8: [add_to_history] keeps the log within its cap of 100 records.  The
    record it returns carries the generated id and the current time; when
    the write goes through, the stored log is the new record followed by
    the first 99 of the old ones, so what is dropped is the tail of the
    old log, and a fresh id keeps the ids distinct.  When the write fails
    the stored log is unchanged or unreadable (read back as empty). *)
Theorem add_to_history_capped (uuid now : string) (o : History.SaveOutcome)
    (original_name file_format : string) (file_size : Z)
    (md_file_path download_url : string) (file : History.HistoryFile) :
  (length (History.load_history file) ≤ History.cap)%nat →
  ∃ record file',
    History.add_to_history uuid now o original_name file_format file_size
      md_file_path download_url file = (record, file')
    ∧ (length (History.load_history file') ≤ History.cap)%nat
    ∧ History.id record = uuid
    ∧ History.converted_at record = now
    ∧ History.original_name record = original_name
    ∧ (o = History.Saved →
         History.load_history file'
         = record :: take (History.cap - 1) (History.load_history file)
         ∧ History.load_history file
           = take (History.cap - 1) (History.load_history file)
             ++ drop (History.cap - 1) (History.load_history file)
         ∧ ((length (History.load_history file) < History.cap)%nat →
              History.load_history file' = record :: History.load_history file)
         ∧ (uuid ∉ History.id <$> History.load_history file →
            NoDup (History.id <$> History.load_history file) →
            NoDup (History.id <$> History.load_history file'))).
Proof.
  intros Hcap. unfold History.add_to_history. eexists _, _. split; [reflexivity|].
  set (old := History.load_history file) in *.
  set (record := History.Build_HistoryRecord _ _ _ _ _ _ _ _).
  assert (Hnew : (if (History.cap <? length (record :: old))%nat
                  then take History.cap (record :: old) else record :: old)
                 = record :: take (History.cap - 1) old).
  { change History.cap with 100 in *. cbn [length].
    destruct (Nat.ltb_spec 100 (S (length old))) as [Hlt|Hge].
    - reflexivity.
    - cbn [Nat.sub]. rewrite take_ge by lia. reflexivity. }
  rewrite Hnew.
  split.
  { destruct o; cbn [History.save_history History.load_history].
    - cbn [length]. rewrite length_take. change History.cap with 100. lia.
    - exact Hcap.
    - apply Nat.le_0_l. }
  split; [reflexivity|]. split; [reflexivity|]. split; [reflexivity|].
  intros Ho. split; [|split; [|split]].
  - now subst o.
  - now rewrite take_drop.
  - intros Hlt. subst o. cbn [History.save_history History.load_history].
    rewrite take_ge by lia. reflexivity.
  - intros Hfresh Hnd. subst o. cbn [History.save_history History.load_history].
    rewrite fmap_cons. apply NoDup_cons. split.
    + intros Hin. apply Hfresh. rewrite <- (take_drop (History.cap - 1) old).
      rewrite fmap_app. apply elem_of_app. now left.
    + rewrite <- (take_drop (History.cap - 1) old), fmap_app in Hnd.
      now apply NoDup_app in Hnd as [Hnd _].
Qed.

(** A log of one record, written through. *)
Lemma add_to_history_capped_witness :
  (length (History.load_history History.Missing) ≤ History.cap)%nat
  ∧ ∃ record file',
      History.add_to_history "0f3a" "2025-11-11T18:06:47" History.Saved
        "a.pdf" "pdf" 120 "downloads/a_1b2c3d4e.md" "/download-md" History.Missing
      = (record, file')
      ∧ (length (History.load_history file') ≤ History.cap)%nat
      ∧ History.id record = "0f3a".
Proof.
  assert (H : (length (History.load_history History.Missing) ≤ History.cap)%nat)
    by (vm_compute; lia).
  split; [exact H|].
  destruct (add_to_history_capped "0f3a" "2025-11-11T18:06:47" History.Saved
              "a.pdf" "pdf" 120 "downloads/a_1b2c3d4e.md" "/download-md"
              History.Missing H) as (record & file' & E & Hlen & Hid & _).
  exists record, file'. auto.
Defined.

(** ** Passwords *)

Lemma extract_loop_empty_password (temp_dir : string) (clock : nat → Z)
    (file_list : list Zip.ZipInfo) (st : Extractor.LoopState) :
  Extractor.extract_loop temp_dir (Some "") clock st file_list
  = Extractor.extract_loop temp_dir None clock st file_list.
Proof.
  revert st. induction file_list as [|zi rest IH]; intros st; [reflexivity|].
  cbn [Extractor.extract_loop].
  assert (E : Extractor.extract_entry temp_dir (Some "") clock st zi
              = Extractor.extract_entry temp_dir None clock st zi) by reflexivity.
  rewrite E.
  destruct (Extractor.extract_entry temp_dir None clock st zi) as [[st'|e]|];
    simpl; auto.
Qed.

(** C10: an empty password given at upload behaves as no password.  An
    upload that is accepted stores [''] as the password of the batch
    when the form has no password, as it does when the form has the
    empty one; [extract_batch] turns a stored [''] into [None] before it
    opens the archive, and [extract_archive_safe] itself treats [''] as
    [None]; so the two uploads, and the extractions that follow them, are
    equal for every archive. *)
Theorem empty_password_is_no_password :
  (∀ reg file uuid now save_error size_error,
     Batch.upload_batch reg file (Some "") uuid now save_error size_error
     = Batch.upload_batch reg file None uuid now save_error size_error)
  ∧ Py.or_none "" = None
  ∧ (∀ mkdtemp archive clock,
       Extractor.extract_archive_safe mkdtemp archive clock (Some "")
       = Extractor.extract_archive_safe mkdtemp archive clock None)
  ∧ (∀ env reg file uuid now save_error size_error batch_id,
       Batch.extract_batch env
         (snd (Batch.upload_batch reg file (Some "") uuid now save_error size_error))
         batch_id
       = Batch.extract_batch env
           (snd (Batch.upload_batch reg file None uuid now save_error size_error))
           batch_id)
  ∧ (∀ env reg batch_id b,
       reg !! batch_id = Some b → Batch.b_status b = st_uploaded →
       Batch.b_password b = "" →
       Batch.extract_batch env reg batch_id
       = match Extractor.extract_archive_safe (Batch.mkdtemp env)
                 (Batch.open_archive env (Batch.b_archive_path b)) (Batch.clock env) None
         with
         | Some (Extractor.Extracted t e f fs d) =>
             Some (Batch.ExtractDone t e f fs,
                   <[batch_id := Batch.set_extracted t e f fs d (Batch.extracted_now env)
                                   (Batch.set_status st_extracting b)]> reg)
         | Some (Extractor.NotExtracted _) =>
             Some (Batch.ExtractError "解压失败: 解压失败",
                   <[batch_id := Batch.set_error "解压失败"
                                   (Batch.set_status st_extract_failed
                                      (Batch.set_status st_extracting b))]> reg)
         | None => None
         end)
  ∧ (∀ reg name form_password uuid now,
       Batch.is_supported_format name = true →
       form_password = None ∨ form_password = Some "" →
       ∃ b,
         Batch.upload_batch reg (Some name) form_password uuid now None None
         = (Batch.UploadAccepted uuid name, <[uuid := b]> reg)
         ∧ Batch.b_password b = ""
         ∧ Batch.b_status b = st_uploaded
         ∧ Batch.b_archive_name b = name
         ∧ Batch.b_archive_path b
           = Py.path_join Batch.UPLOAD_FOLDER ("batch_" +:+ uuid +:+ "_" +:+ name)
         ∧ ∀ env,
             Batch.extract_batch env (<[uuid := b]> reg) uuid
             = match Extractor.extract_archive_safe (Batch.mkdtemp env)
                       (Batch.open_archive env (Batch.b_archive_path b))
                       (Batch.clock env) None
               with
               | Some (Extractor.Extracted t e f fs d) =>
                   Some (Batch.ExtractDone t e f fs,
                         <[uuid := Batch.set_extracted t e f fs d
                                     (Batch.extracted_now env)
                                     (Batch.set_status st_extracting b)]>
                           (<[uuid := b]> reg))
               | Some (Extractor.NotExtracted _) =>
                   Some (Batch.ExtractError "解压失败: 解压失败",
                         <[uuid := Batch.set_error "解压失败"
                                     (Batch.set_status st_extract_failed
                                        (Batch.set_status st_extracting b))]>
                           (<[uuid := b]> reg))
               | None => None
               end).
Proof.
  assert (Hextract : ∀ env reg batch_id b,
            reg !! batch_id = Some b → Batch.b_status b = st_uploaded →
            Batch.b_password b = "" →
            Batch.extract_batch env reg batch_id
            = match Extractor.extract_archive_safe (Batch.mkdtemp env)
                      (Batch.open_archive env (Batch.b_archive_path b))
                      (Batch.clock env) None
              with
              | Some (Extractor.Extracted t e f fs d) =>
                  Some (Batch.ExtractDone t e f fs,
                        <[batch_id := Batch.set_extracted t e f fs d
                                        (Batch.extracted_now env)
                                        (Batch.set_status st_extracting b)]> reg)
              | Some (Extractor.NotExtracted _) =>
                  Some (Batch.ExtractError "解压失败: 解压失败",
                        <[batch_id := Batch.set_error "解压失败"
                                        (Batch.set_status st_extract_failed
                                           (Batch.set_status st_extracting b))]> reg)
              | None => None
              end).
  { intros env reg batch_id b Hb Hst Hpw.
    unfold Batch.extract_batch, Batch.get_batch_status. rewrite Hb, Hst.
    cbn [Batch.set_status Batch.b_password Batch.b_archive_path]. rewrite Hpw.
    change (Py.or_none "") with (@None string).
    destruct (Extractor.extract_archive_safe _ _ _ None) as [[t e f fs d|msg]|];
      reflexivity. }
  split; [reflexivity|]. split; [reflexivity|].
  split.
  { intros [temp_dir|msg] [file_list|msg'] clock; try reflexivity.
    unfold Extractor.extract_archive_safe. now rewrite extract_loop_empty_password. }
  split; [reflexivity|]. split; [exact Hextract|].
  intros reg name form_password uuid now Hsup Hpw.
  assert (Hname : String.eqb name "" = false).
  { destruct (String.eqb_spec name "") as [->|_]; [discriminate Hsup|reflexivity]. }
  eexists. split.
  { unfold Batch.upload_batch. rewrite Hname, Hsup. cbn [negb]. reflexivity. }
  cbn [Batch.b_password Batch.b_status Batch.b_archive_name].
  split; [destruct Hpw as [-> | ->]; reflexivity|].
  split; [reflexivity|]. split; [reflexivity|]. split; [reflexivity|].
  intros env. apply Hextract.
  - apply lookup_insert_eq.
  - reflexivity.
  - destruct Hpw as [-> | ->]; reflexivity.
Qed.

(** The upload of [docs.zip] without a password, and its extraction. *)
Lemma empty_password_is_no_password_witness :
  ∃ b,
    Batch.upload_batch ∅ (Some "docs.zip") None "b1" "2025-11-11T18:06:30" None None
    = (Batch.UploadAccepted "b1" "docs.zip", <["b1" := b]> ∅)
    ∧ Batch.upload_batch ∅ (Some "docs.zip") (Some "") "b1" "2025-11-11T18:06:30"
        None None
      = (Batch.UploadAccepted "b1" "docs.zip", <["b1" := b]> ∅)
    ∧ Batch.b_password b = ""
    ∧ Batch.b_archive_path b = "uploads/batch_b1_docs.zip".
Proof.
  destruct empty_password_is_no_password as (Hsame & _ & _ & _ & _ & Hstores).
  destruct (Hstores ∅ "docs.zip" None "b1" "2025-11-11T18:06:30" eq_refl
              (or_introl eq_refl)) as (b & Hup & Hpw & _ & _ & Hpath & _).
  exists b. split; [exact Hup|]. split; [rewrite Hsame; exact Hup|].
  split; [exact Hpw|exact Hpath].
Defined.

(** ** Archive extractor: the renaming loop *)

Lemma length_append (s t : string) :
  String.length (s +:+ t) = (String.length s + String.length t)%nat.
Proof.
  induction s as [|c s IH]; [reflexivity|].
  rewrite append_cons_l. cbn [String.length]. now rewrite IH.
Qed.

Lemma append_inj_r (s s' e : string) : s +:+ e = s' +:+ e → s = s'.
Proof.
  revert s'. induction s as [|c s IH]; intros [|c' s'] H.
  - reflexivity.
  - apply (f_equal String.length) in H.
    rewrite !length_append in H. cbn [String.length] in H. lia.
  - apply (f_equal String.length) in H.
    rewrite !length_append in H. cbn [String.length] in H. lia.
  - rewrite !append_cons_l in H. injection H as -> H. f_equal. now apply IH.
Qed.

Section Renaming.
Variables temp_dir base_name ext : string.

Local Abbreviation candidate := (Extractor.candidate base_name ext).

Lemma candidate_inj (k k' : nat) : candidate k = candidate k' → k = k'.
Proof.
  unfold Extractor.candidate. intros H.
  apply (inj (String.append base_name)) in H.
  apply (inj (String.append "_")) in H.
  apply append_inj_r in H. now apply (inj pretty) in H.
Qed.

Lemma starts_with_slash_candidate (k : nat) :
  Py.starts_with_slash (candidate k) = Py.starts_with_slash base_name.
Proof.
  unfold Extractor.candidate. destruct base_name as [|c b]; [reflexivity|].
  now rewrite append_cons_l.
Qed.

Lemma path_join_candidate_inj (k k' : nat) :
  Py.path_join temp_dir (candidate k) = Py.path_join temp_dir (candidate k') →
  k = k'.
Proof.
  unfold Py.path_join. rewrite !starts_with_slash_candidate.
  destruct (Py.starts_with_slash base_name); [apply candidate_inj|].
  destruct (String.eqb temp_dir "" || Py.ends_with_slash temp_dir); intros H.
  - apply (inj (String.append temp_dir)) in H. now apply candidate_inj.
  - apply (inj (String.append temp_dir)) in H.
    apply (inj (String.append "/")) in H. now apply candidate_inj.
Qed.

(** Enough fuel: the paths still to be met, [rem], are no more than the
    fuel left. *)
Lemma unique_name_candidates (fs : list string) (fuel : nat) :
  ∀ (rem : list string) (c : nat),
    (length rem ≤ fuel)%nat →
    (∀ k, (c ≤ k)%nat →
       Py.path_join temp_dir (candidate k) ∈ fs →
       Py.path_join temp_dir (candidate k) ∈ rem) →
    is_Some (Extractor.unique_name fuel fs temp_dir base_name ext (candidate c) (S c)).
Proof.
  induction fuel as [|fuel IH]; intros rem c Hlen Hrem.
  - cbn [Extractor.unique_name]. unfold Extractor.path_exists.
    case_bool_decide as Hin; [|eauto].
    apply Hrem in Hin; [|lia]. destruct rem; [inversion Hin|simpl in Hlen; lia].
  - cbn [Extractor.unique_name]. unfold Extractor.path_exists.
    case_bool_decide as Hin; [|eauto].
    pose proof (Hrem c (Nat.le_refl c) Hin) as Hin'.
    apply (IH (filter (λ p, p ≠ Py.path_join temp_dir (candidate c)) rem)).
    + pose proof (length_filter_lt (λ p, p ≠ Py.path_join temp_dir (candidate c))
                    rem _ Hin') as Hlt.
      assert (Hlt' := Hlt (λ H, H eq_refl)). lia.
    + intros k Hk Hfs. apply list_elem_of_filter. split.
      * intros E. apply path_join_candidate_inj in E. lia.
      * apply Hrem; [lia|exact Hfs].
Qed.

(** The loop ends: the fuel [extract_entry] gives it is enough. *)
Lemma unique_name_total (fs : list string) (filename_only : string) :
  is_Some (Extractor.unique_name (S (length fs)) fs temp_dir base_name ext
             filename_only 1).
Proof.
  cbn [Extractor.unique_name]. destruct (Extractor.path_exists fs _); [|eauto].
  apply (unique_name_candidates fs (length fs) fs 1); auto.
Qed.

(** What the loop returns: a path that does not exist, under the first
    name if it is free and under a suffixed name otherwise. *)
Lemma unique_name_spec (fs : list string) (fuel : nat) :
  ∀ (filename_only : string) (c : nat) (n p : string),
    Extractor.unique_name fuel fs temp_dir base_name ext filename_only c = Some (n, p) →
    p = Py.path_join temp_dir n
    ∧ (p ∉ fs)
    ∧ ((n = filename_only ∧ (Py.path_join temp_dir filename_only ∉ fs))
       ∨ (Py.path_join temp_dir filename_only ∈ fs
          ∧ ∃ k, (c ≤ k)%nat ∧ n = candidate k)).
Proof.
  induction fuel as [|fuel IH]; intros filename_only c n p;
    cbn [Extractor.unique_name]; unfold Extractor.path_exists;
    case_bool_decide as Hin; intros H; try discriminate.
  - injection H as <- <-. auto.
  - apply IH in H as (Hp & Hfree & Hn). split; [exact Hp|]. split; [exact Hfree|].
    right. split; [exact Hin|].
    destruct Hn as [[-> _]|[_ (k & Hk & ->)]].
    + exists c. auto.
    + exists k. split; [lia|reflexivity].
  - injection H as <- <-. auto.
Qed.

(** The suffix is the least one whose path does not exist. *)
Lemma unique_name_least (fs : list string) (fuel : nat) :
  ∀ (filename_only : string) (c : nat) (n p : string),
    Extractor.unique_name fuel fs temp_dir base_name ext filename_only c = Some (n, p) →
    (n = filename_only ∧ (Py.path_join temp_dir filename_only ∉ fs))
    ∨ (Py.path_join temp_dir filename_only ∈ fs
       ∧ ∃ k, (c ≤ k)%nat ∧ n = candidate k
              ∧ ∀ k', (c ≤ k')%nat → (k' < k)%nat →
                      Py.path_join temp_dir (candidate k') ∈ fs).
Proof.
  induction fuel as [|fuel IH]; intros filename_only c n p;
    cbn [Extractor.unique_name]; unfold Extractor.path_exists;
    case_bool_decide as Hin; intros H; try discriminate.
  - injection H as <- <-. auto.
  - right. split; [exact Hin|].
    apply IH in H as [[-> _]|[Hc (k & Hk & -> & Hbelow)]].
    + exists c. split; [lia|]. split; [reflexivity|]. intros k' H1 H2. lia.
    + exists k. split; [lia|]. split; [reflexivity|]. intros k' H1 H2.
      destruct (decide (k' = c)) as [->|Hne]; [exact Hc|]. apply Hbelow; lia.
  - injection H as <- <-. auto.
Qed.

End Renaming.

(** ** Archive extractor: one entry and the loop *)

Section Extraction.
Variables (temp_dir : string) (password : option string) (clock : nat → Z).

Local Abbreviation pwd := (Extractor.pwd_arg password).
Local Abbreviation entry_step := (ExtractorRel.entry_step temp_dir password clock).
Local Abbreviation loop_run := (ExtractorRel.loop_run temp_dir password clock).
Local Abbreviation members := Extractor.members.

Lemma is_dir_named (zi : Zip.ZipInfo) :
  Zip.named zi → Zip.is_dir zi = Ok (Py.ends_with_slash (Zip.zi_filename zi)).
Proof.
  intros H. unfold Zip.is_dir.
  destruct (String.eqb_spec (Zip.zi_filename zi) ""); [contradiction|reflexivity].
Qed.

Lemma is_dir_unnamed (zi : Zip.ZipInfo) :
  ¬ Zip.named zi → Zip.is_dir zi = Raised "string index out of range".
Proof.
  intros H. unfold Zip.is_dir.
  destruct (String.eqb_spec (Zip.zi_filename zi) "") as [_|Hne];
    [reflexivity|contradiction].
Qed.

Lemma named_dec (zi : Zip.ZipInfo) : Zip.named zi ∨ ¬ Zip.named zi.
Proof.
  unfold Zip.named.
  destruct (String.eqb_spec (Zip.zi_filename zi) ""); [right|left]; auto.
Qed.

(** The list of line 27 is the list of the entries that are not
    directories when every entry has a name. *)
Lemma non_directories_named (file_list : list Zip.ZipInfo) :
  Forall Zip.named file_list →
  Extractor.non_directories file_list = Ok (members file_list).
Proof.
  induction 1 as [|zi rest Hzi _ IH]; [reflexivity|].
  cbn [Extractor.non_directories]. rewrite (is_dir_named zi Hzi), IH.
  unfold Extractor.members. rewrite filter_cons.
  destruct (Py.ends_with_slash (Zip.zi_filename zi)) eqn:E.
  - rewrite decide_False by discriminate. reflexivity.
  - rewrite decide_True by reflexivity. reflexivity.
Qed.

(** It raises as soon as one entry has no name. *)
Lemma non_directories_unnamed (file_list : list Zip.ZipInfo) :
  ¬ Forall Zip.named file_list →
  Extractor.non_directories file_list = Raised "string index out of range".
Proof.
  induction file_list as [|zi rest IH]; intros H.
  - exfalso. apply H. constructor.
  - cbn [Extractor.non_directories].
    destruct (named_dec zi) as [Hzi|Hzi].
    + rewrite (is_dir_named zi Hzi), IH; [reflexivity|].
      intros Hrest. apply H. constructor; assumption.
    + now rewrite (is_dir_unnamed zi Hzi).
Qed.

Lemma non_directories_ok (file_list listed : list Zip.ZipInfo) :
  Extractor.non_directories file_list = Ok listed →
  Forall Zip.named file_list ∧ listed = members file_list.
Proof.
  intros H.
  assert (Hall : Forall Zip.named file_list).
  { revert listed H. induction file_list as [|zi rest IH]; intros listed H;
      [constructor|].
    cbn [Extractor.non_directories] in H.
    destruct (named_dec zi) as [Hzi|Hzi];
      [|rewrite (is_dir_unnamed zi Hzi) in H; discriminate H].
    rewrite (is_dir_named zi Hzi) in H.
    destruct (Extractor.non_directories rest) as [l|e]; [|discriminate H].
    constructor; [exact Hzi|]. eapply IH. reflexivity. }
  split; [exact Hall|]. rewrite (non_directories_named _ Hall) in H. congruence.
Qed.

Lemma extract_entry_dir (st : Extractor.LoopState) (zi : Zip.ZipInfo) :
  Zip.named zi → Py.ends_with_slash (Zip.zi_filename zi) = true →
  Extractor.extract_entry temp_dir password clock st zi = Some (Ok st).
Proof.
  intros Hn H. destruct st. unfold Extractor.extract_entry.
  now rewrite (is_dir_named zi Hn), H.
Qed.

(** An iteration never runs out of fuel, and does one of the three steps. *)
Lemma extract_entry_file (fs : list string) (recs : list FileInfo) (zi : Zip.ZipInfo) :
  Zip.named zi → Py.ends_with_slash (Zip.zi_filename zi) = false →
  ∃ st', Extractor.extract_entry temp_dir password clock (fs, recs) zi = Some (Ok st')
         ∧ entry_step fs recs zi st'.
Proof.
  intros Hn Hd. unfold Extractor.extract_entry. rewrite (is_dir_named zi Hn), Hd.
  destruct (Py.splitext (Py.basename (Zip.zi_filename zi))) as [base_name ext] eqn:Es.
  destruct (unique_name_total temp_dir base_name ext fs
              (Py.basename (Zip.zi_filename zi))) as [[n p] Hu].
  rewrite Hu. cbn [mbind option_bind].
  destruct (Zip.open_and_copy zi pwd) as [|msg|msg] eqn:Eo;
    eexists; (split; [reflexivity|]).
  - eapply ExtractorRel.step_extracted; rewrite ?Es; eauto.
  - eapply ExtractorRel.step_not_opened; rewrite ?Es; eauto.
  - eapply ExtractorRel.step_not_copied; rewrite ?Es; eauto.
Qed.

Lemma entry_step_appends fs recs zi st' :
  entry_step fs recs zi st' → ∃ fs' f, st' = (fs', recs ++ [f]).
Proof. intros H. inversion H; subst; eauto. Qed.

(** When every entry has a name the loop runs to the end, never out of
    fuel; it appends one record for each entry that is not a directory. *)
Lemma extract_loop_run (file_list : list Zip.ZipInfo) :
  Forall Zip.named file_list →
  ∀ fs recs, ∃ fs' new,
    Extractor.extract_loop temp_dir password clock (fs, recs) file_list
    = Some (Ok (fs', recs ++ new))
    ∧ loop_run fs (length recs) (members file_list) fs' new.
Proof.
  induction 1 as [|zi rest Hzi _ IH]; intros fs recs.
  - exists fs, []. rewrite app_nil_r. split; [reflexivity|constructor].
  - cbn [Extractor.extract_loop]. unfold Extractor.members.
    destruct (Py.ends_with_slash (Zip.zi_filename zi)) eqn:Hd.
    + rewrite extract_entry_dir by assumption. cbn [mbind option_bind].
      rewrite filter_cons_False by (rewrite Hd; discriminate).
      apply IH.
    + destruct (extract_entry_file fs recs zi Hzi Hd) as (st' & -> & Hstep).
      cbn [mbind option_bind].
      destruct (entry_step_appends _ _ _ _ Hstep) as (fs1 & f & ->).
      destruct (IH fs1 (recs ++ [f])) as (fs2 & new & -> & Hrun).
      exists fs2, (f :: new). rewrite <- app_assoc. split; [reflexivity|].
      rewrite filter_cons_True by exact Hd.
      eapply ExtractorRel.run_cons; [reflexivity|exact Hstep|].
      rewrite length_app in Hrun. cbn [length] in Hrun.
      now rewrite Nat.add_1_r in Hrun.
Qed.

End Extraction.

Section ExtractionFacts.
Variables (temp_dir : string) (password : option string) (clock : nat → Z).

Local Abbreviation pwd := (Extractor.pwd_arg password).
Local Abbreviation step := (ExtractorRel.entry_step temp_dir password clock).
Local Abbreviation run := (ExtractorRel.loop_run temp_dir password clock).
Local Abbreviation entry_record := (ExtractorRel.entry_record password).

Lemma step_inv fs recs zi st' :
  step fs recs zi st' →
  ∃ n p,
    Extractor.unique_name (S (length fs)) fs temp_dir
      (Py.splitext (Py.basename (Zip.zi_filename zi))).1
      (Py.splitext (Py.basename (Zip.zi_filename zi))).2
      (Py.basename (Zip.zi_filename zi)) 1 = Some (n, p)
    ∧ ((Zip.open_and_copy zi pwd = Zip.Readable
        ∧ st' = (p :: fs,
                 recs ++ [Extractor.extracted_record zi n p (clock (length recs))]))
       ∨ (∃ msg, Zip.open_and_copy zi pwd = Zip.OpenError msg
                 ∧ st' = (fs, recs ++ [Extractor.failed_record zi msg (clock (length recs))]))
       ∨ (∃ msg, Zip.open_and_copy zi pwd = Zip.CopyError msg
                 ∧ st' = (p :: fs,
                          recs ++ [Extractor.failed_record zi msg (clock (length recs))]))).
Proof. intros H. destruct H; eauto 10. Qed.

Ltac step_cases H :=
  let n := fresh "n" in let p := fresh "q" in let msg := fresh "msg" in
  let Hu := fresh "Hu" in let Ho := fresh "Ho" in let E := fresh "E" in
  apply step_inv in H as (n & p & Hu & [[Ho E]|[(msg & Ho & E)|(msg & Ho & E)]]);
  injection E as E1 E; apply app_inj_tail in E as [_ E]; subst.

Lemma step_record fs recs zi fs' f :
  step fs recs zi (fs', recs ++ [f]) → entry_record zi f.
Proof.
  intros H. step_cases H; unfold ExtractorRel.entry_record; rewrite Ho; cbn; eauto 10.
Qed.

Lemma step_grows fs recs zi fs' recs' :
  step fs recs zi (fs', recs') → fs ⊆ fs'.
Proof.
  intros H. apply step_inv in H as (n & p & _ & [[_ E]|[(msg & _ & E)|(msg & _ & E)]]);
    injection E as -> _; set_solver.
Qed.

(** A record with a path was written to a path that did not exist. *)
Lemma step_path fs recs zi fs' f p :
  step fs recs zi (fs', recs ++ [f]) → extracted_path f = Some p →
  (p ∉ fs) ∧ p ∈ fs' ∧ p = Py.path_join temp_dir (filename f).
Proof.
  intros H Hp. step_cases H; cbn in Hp; try discriminate.
  injection Hp as ->. apply unique_name_spec in Hu as (Hq & Hfree & _).
  cbn. split; [exact Hfree|]. split; [set_solver|exact Hq].
Qed.

(** Once an entry was written, the path of its own base name exists. *)
Lemma step_occupies fs recs zi fs' f :
  step fs recs zi (fs', recs ++ [f]) → error f = None →
  Py.path_join temp_dir (Py.basename (Zip.zi_filename zi)) ∈ fs'.
Proof.
  intros H He. step_cases H; cbn in He; try discriminate.
  apply unique_name_spec in Hu as (Hq & _ & [[-> _]|[Hin _]]); subst; set_solver.
Qed.


Lemma run_grows fs k ms fs' new : run fs k ms fs' new → fs ⊆ fs'.
Proof.
  induction 1 as [|fs k zi f fs1 rest fs2 new recs Hk Hs Hr IH]; [set_solver|].
  apply step_grows in Hs. set_solver.
Qed.

Lemma run_records fs k ms fs' new : run fs k ms fs' new → Forall2 entry_record ms new.
Proof.
  induction 1 as [|fs k zi f fs1 rest fs2 new recs Hk Hs Hr IH]; constructor.
  - eapply step_record, Hs.
  - exact IH.
Qed.

(** The paths written by a run did not exist before it and are pairwise
    distinct. *)
Lemma run_paths fs k ms fs' new :
  run fs k ms fs' new →
  (∀ p, p ∈ omap extracted_path new → (p ∉ fs) ∧ p ∈ fs')
  ∧ NoDup (omap extracted_path new).
Proof.
  induction 1 as [|fs k zi f fs1 rest fs2 new recs Hk Hs Hr [IHin IHnd]].
  - split; [intros p Hp; inversion Hp|constructor].
  - pose proof (step_grows _ _ _ _ _ Hs) as Hg1.
    pose proof (run_grows _ _ _ _ _ Hr) as Hg2.
    cbn [omap list_omap]. destruct (extracted_path f) as [q|] eqn:Eq.
    + destruct (step_path _ _ _ _ _ _ Hs Eq) as (Hq1 & Hq2 & _). split.
      * intros p [->|Hp]%elem_of_cons; [split; [exact Hq1|apply Hg2, Hq2]|].
        destruct (IHin p Hp) as [Hp1 Hp2].
        split; [intros Hp0; apply Hp1, Hg1, Hp0|exact Hp2].
      * apply NoDup_cons. split; [|exact IHnd].
        intros Hq. destruct (IHin q Hq) as [Hq' _]. contradiction.
    + split; [|exact IHnd]. intros p Hp. destruct (IHin p Hp) as [Hp1 Hp2].
      split; [intros Hp0; apply Hp1, Hg1, Hp0|exact Hp2].
Qed.

Local Abbreviation taken := (ExtractorSpec.taken password).

(** The paths that exist after a step. *)
Lemma step_paths fs recs zi fs' f :
  step fs recs zi (fs', recs ++ [f]) →
  ∀ q, q ∈ fs' →
    q ∈ fs ∨ extracted_path f = Some q
    ∨ ∃ msg, Zip.open_and_copy zi pwd = Zip.CopyError msg.
Proof.
  intros H q Hq. step_cases H.
  - apply elem_of_cons in Hq as [->|Hq]; [right; left; reflexivity|left; exact Hq].
  - left. exact Hq.
  - right. right. eauto.
Qed.

(** A written entry keeps its base name, or gets the least suffix whose
    path does not exist. *)
Lemma step_least fs recs zi fs' f :
  step fs recs zi (fs', recs ++ [f]) → error f = None →
  filename f = Py.basename (Zip.zi_filename zi)
  ∨ (Py.path_join temp_dir (Py.basename (Zip.zi_filename zi)) ∈ fs
     ∧ ∃ c, (1 ≤ c)%nat
            ∧ filename f
              = Extractor.candidate (Py.splitext (Py.basename (Zip.zi_filename zi))).1
                  (Py.splitext (Py.basename (Zip.zi_filename zi))).2 c
            ∧ ∀ k', (1 ≤ k')%nat → (k' < c)%nat →
                Py.path_join temp_dir
                  (Extractor.candidate (Py.splitext (Py.basename (Zip.zi_filename zi))).1
                     (Py.splitext (Py.basename (Zip.zi_filename zi))).2 k') ∈ fs).
Proof.
  intros H He. step_cases H; cbn in He; try discriminate.
  apply unique_name_least in Hu as [[-> _]|[Hin (c & Hc & -> & Hbelow)]]; cbn.
  - left. reflexivity.
  - right. split; [exact Hin|]. exists c. auto.
Qed.

Lemma taken_later fs z rest f new fs1 recs j q :
  step fs recs z (fs1, recs ++ [f]) →
  taken fs1 rest new j q → taken fs (z :: rest) (f :: new) (S j) q.
Proof.
  intros Hs [Hq|[(i & fi & Hi & Hfi & Hp)|(i & zi & msg & Hi & Hzi & Ho)]].
  - destruct (step_paths _ _ _ _ _ Hs q Hq) as [H|[H|[msg H]]].
    + left. exact H.
    + right. left. exists 0%nat, f. split; [lia|]. split; [reflexivity|exact H].
    + right. right. exists 0%nat, z, msg. split; [lia|]. split; [reflexivity|exact H].
  - right. left. exists (S i), fi. split; [lia|]. split; [exact Hfi|exact Hp].
  - right. right. exists (S i), zi, msg. split; [lia|]. split; [exact Hzi|exact Ho].
Qed.

(** The entries of a run that are not directories and have a name are
    those the loop of the source goes through, with the same result. *)
Lemma run_loop fs k ms fs' new :
  run fs k ms fs' new →
  Forall (λ zi, Zip.named zi ∧ Py.ends_with_slash (Zip.zi_filename zi) = false) ms →
  ∀ recs, length recs = k →
    Extractor.extract_loop temp_dir password clock (fs, recs) ms
    = Some (Ok (fs', recs ++ new)).
Proof.
  induction 1 as [fs k|fs k zi f fs1 rest fs2 new recs0 Hk Hs Hr IH];
    intros Hall recs Hlen.
  - now rewrite app_nil_r.
  - apply Forall_cons in Hall as [[Hn Hd] Hall].
    assert (He : Extractor.extract_entry temp_dir password clock (fs, recs) zi
                 = Some (Ok (fs1, recs ++ [f]))).
    { unfold Extractor.extract_entry. rewrite (is_dir_named zi Hn), Hd, Hlen, <- Hk.
      step_cases Hs;
        destruct (Py.splitext (Py.basename (Zip.zi_filename zi))) as [base_name ext];
        cbn [fst snd] in Hu; rewrite Hu; cbn [mbind option_bind]; rewrite Ho;
        reflexivity. }
    cbn [Extractor.extract_loop]. rewrite He. cbn [mbind option_bind].
    rewrite (IH Hall (recs ++ [f])), <- app_assoc; [reflexivity|].
    rewrite length_app. cbn [length]. lia.
Qed.

(** The state of a run when it reaches the entry at index [j]: the run
    over the entries before it gives the records before it; the step of
    the entry starts from that state; the paths of the records before
    it exist, and so do the paths of the base names of the entries
    written before it; and nothing else exists than what [taken]
    says. *)
Lemma run_take fs k ms fs' new :
  run fs k ms fs' new →
  ∀ j, ∃ fs_j,
    run fs k (take j ms) fs_j (take j new)
    ∧ (∀ zj fj, ms !! j = Some zj → new !! j = Some fj →
         ∃ fs1 recs, step fs_j recs zj (fs1, recs ++ [fj]))
    ∧ (∀ i fi p, (i < j)%nat → new !! i = Some fi → extracted_path fi = Some p →
         p ∈ fs_j)
    ∧ (∀ i zi fi, (i < j)%nat → ms !! i = Some zi → new !! i = Some fi →
         error fi = None →
         Py.path_join temp_dir (Py.basename (Zip.zi_filename zi)) ∈ fs_j)
    ∧ (∀ q, q ∈ fs_j → taken fs ms new j q).
Proof.
  induction 1 as [fs k|fs k zi f fs1 rest fs2 new recs Hk Hs Hr IH]; intros j.
  - exists fs. rewrite !take_nil. split; [constructor|].
    split; [intros zj fj Hz; inversion Hz|].
    split; [intros i fi p _ Hf; inversion Hf|].
    split; [intros i zi fi _ Hz; inversion Hz|].
    intros q Hq. left. exact Hq.
  - destruct j as [|j].
    + exists fs. cbn [take]. split; [constructor|].
      split.
      { intros zj fj Hz Hf. cbn in Hz, Hf. injection Hz as <-. injection Hf as <-.
        eauto. }
      split; [intros i fi p Hi; lia|].
      split; [intros i z0 fi Hi; lia|].
      intros q Hq. left. exact Hq.
    + destruct (IH j) as (fs_j & Hrun & Hstep & Hpaths & Hbase & Hup).
      pose proof (run_grows _ _ _ _ _ Hrun) as Hg.
      exists fs_j. cbn [take]. split; [econstructor; eauto|].
      split; [intros zj fj Hz Hf; cbn in Hz, Hf; eauto|].
      split.
      { intros i fi p Hi Hf Hp. destruct i as [|i]; cbn in Hf.
        - injection Hf as <-. apply Hg.
          now destruct (step_path _ _ _ _ _ _ Hs Hp) as (_ & Hin & _).
        - eapply Hpaths; eauto. lia. }
      split.
      { intros i z0 fi Hi Hz Hf He. destruct i as [|i]; cbn in Hz, Hf.
        - injection Hz as <-. injection Hf as <-. apply Hg.
          eapply step_occupies; eauto.
        - eapply Hbase; eauto. lia. }
      intros q Hq. eapply taken_later; eauto.
Qed.

End ExtractionFacts.

Lemma entry_record_written password zi f :
  ExtractorRel.entry_record password zi f → error f = None → is_Some (extracted_path f).
Proof.
  intros (_ & _ & H) He.
  destruct (Zip.open_and_copy zi (Extractor.pwd_arg password)) as [|msg|msg].
  - apply H.
  - destruct H as [H _]. congruence.
  - destruct H as [H _]. congruence.
Qed.

Section ExtractionClaims.
Variables (temp_dir : string) (password : option string) (clock : nat → Z).


(** The result of [extract_archive_safe] on an archive that opens and
    whose entries all have a name. *)
Lemma extract_archive_safe_run (file_list : list Zip.ZipInfo) :
  Forall Zip.named file_list →
  ∃ fs' files,
    Extractor.extract_archive_safe (Ok temp_dir) (Ok file_list) clock password
    = Some (Extractor.Extracted
              (Z.of_nat (length (Extractor.members file_list)))
              (Z.of_nat (length (filter (λ f, Extractor.has_error f = false) files)))
              (Z.of_nat (length (filter (λ f, Extractor.has_error f = true) files)))
              files temp_dir)
    ∧ ExtractorRel.loop_run temp_dir password clock (Extractor.fresh_dir temp_dir) 0
        (Extractor.members file_list) fs' files.
Proof.
  intros Hall. unfold Extractor.extract_archive_safe.
  rewrite (non_directories_named file_list Hall).
  destruct (extract_loop_run temp_dir password clock file_list Hall
              (Extractor.fresh_dir temp_dir) []) as (fs' & new & -> & Hrun).
  exists fs', new. split; [reflexivity|exact Hrun].
Qed.

(** An entry without a name makes the extraction fail as a whole. *)
Lemma extract_archive_safe_unnamed (file_list : list Zip.ZipInfo) :
  ¬ Forall Zip.named file_list →
  Extractor.extract_archive_safe (Ok temp_dir) (Ok file_list) clock password
  = Some (Extractor.NotExtracted "string index out of range").
Proof.
  intros H. unfold Extractor.extract_archive_safe.
  now rewrite (non_directories_unnamed file_list H).
Qed.

(** An extraction that succeeded was of entries that all have a name. *)
Lemma extract_archive_safe_extracted (file_list : list Zip.ZipInfo)
    (total_files extracted_files failed_files : Z) (files : list FileInfo)
    (dir : string) :
  Extractor.extract_archive_safe (Ok temp_dir) (Ok file_list) clock password
  = Some (Extractor.Extracted total_files extracted_files failed_files files dir) →
  Forall Zip.named file_list.
Proof.
  unfold Extractor.extract_archive_safe.
  destruct (Extractor.non_directories file_list) as [listed|e] eqn:E;
    [|discriminate].
  intros _. now apply non_directories_ok in E.
Qed.

Lemma members_take_named (file_list : list Zip.ZipInfo) (j : nat) :
  Forall Zip.named file_list →
  Forall (λ zi, Zip.named zi ∧ Py.ends_with_slash (Zip.zi_filename zi) = false)
    (take j (Extractor.members file_list)).
Proof.
  intros H. apply Forall_take. unfold Extractor.members.
  apply Forall_forall. intros zi Hin. apply list_elem_of_filter in Hin as [Hd Hin].
  split; [|exact Hd]. rewrite Forall_forall in H. auto.
Qed.

(** The state of the loop when it reaches a written entry, and the name
    the entry gets: its base name, or the base name with the least
    suffix whose path does not exist. *)
Lemma run_entry_state (file_list : list Zip.ZipInfo) (fs' : list string)
    (files : list FileInfo) :
  Forall Zip.named file_list →
  ExtractorRel.loop_run temp_dir password clock (Extractor.fresh_dir temp_dir) 0
    (Extractor.members file_list) fs' files →
  ∀ j zj fj,
    Extractor.members file_list !! j = Some zj → files !! j = Some fj →
    error fj = None →
    ∃ fs_j,
      Extractor.extract_loop temp_dir password clock (Extractor.fresh_dir temp_dir, [])
        (take j (Extractor.members file_list))
      = Some (Ok (fs_j, take j files))
      ∧ extracted_path fj = Some (Py.path_join temp_dir (filename fj))
      ∧ (Py.path_join temp_dir (filename fj) ∉ fs_j)
      ∧ (∀ i fi p, (i < j)%nat → files !! i = Some fi → extracted_path fi = Some p →
           p ∈ fs_j)
      ∧ (∀ i zi fi, (i < j)%nat → Extractor.members file_list !! i = Some zi →
           files !! i = Some fi → error fi = None →
           Py.path_join temp_dir (Py.basename (Zip.zi_filename zi)) ∈ fs_j)
      ∧ (∀ q, q ∈ fs_j →
           ExtractorSpec.taken password (Extractor.fresh_dir temp_dir)
             (Extractor.members file_list) files j q)
      ∧ (filename fj = Py.basename (Zip.zi_filename zj)
         ∨ (Py.path_join temp_dir (Py.basename (Zip.zi_filename zj)) ∈ fs_j
            ∧ ∃ c, (1 ≤ c)%nat
                   ∧ filename fj
                     = Extractor.candidate
                         (Py.splitext (Py.basename (Zip.zi_filename zj))).1
                         (Py.splitext (Py.basename (Zip.zi_filename zj))).2 c
                   ∧ ∀ k, (1 ≤ k)%nat → (k < c)%nat →
                       Py.path_join temp_dir
                         (Extractor.candidate
                            (Py.splitext (Py.basename (Zip.zi_filename zj))).1
                            (Py.splitext (Py.basename (Zip.zi_filename zj))).2 k)
                       ∈ fs_j)).
Proof.
  intros Hall Hrun j zj fj Hz Hf He.
  destruct (run_take _ _ _ _ _ _ _ _ Hrun j)
    as (fs_j & Hpre & Hstep & Hpaths & Hbase & Hup).
  destruct (Hstep zj fj Hz Hf) as (fs1 & recs & Hs).
  destruct (entry_record_written password zj fj (step_record _ _ _ _ _ _ _ _ Hs) He)
    as [p Hp].
  destruct (step_path _ _ _ _ _ _ _ _ _ Hs Hp) as (Hfree & _ & ->).
  exists fs_j.
  split.
  { apply (run_loop _ _ _ _ _ _ _ _ Hpre (members_take_named file_list j Hall) []).
    reflexivity. }
  split; [exact Hp|]. split; [exact Hfree|]. split; [exact Hpaths|].
  split; [exact Hbase|]. split; [exact Hup|].
  exact (step_least _ _ _ _ _ _ _ _ Hs He).
Qed.

End ExtractionClaims.




Lemma run_path_of_name temp_dir password clock fs k ms fs' new :
  ExtractorRel.loop_run temp_dir password clock fs k ms fs' new →
  ∀ j fj pj, new !! j = Some fj → extracted_path fj = Some pj →
    pj = Py.path_join temp_dir (filename fj).
Proof.
  induction 1 as [|fs k z f fs1 rest fs2 new recs Hk Hs Hr IH];
    intros j fj pj Hfj Hpj; [inversion Hfj|].
  destruct j as [|j]; cbn in Hfj.
  - injection Hfj as ->. eapply step_path; eauto.
  - eapply IH; eauto.
Qed.

(** C7: an archive whose entries all have a name is extracted, and in every
    extraction that succeeds the records are those of the entries that are
    not directories, in order, the paths written are pairwise distinct,
    and a written entry is written directly under the scratch directory
    under its base name or, when that path exists, under the base name
    with the least suffix [_c], c >= 1, before the extension whose path
    does not exist when the loop reaches the entry; of two written
    entries with the same base name the later one, in the order of the
    archive, gets such a suffix and another path than the earlier
    one. *)
Theorem collisions_get_suffixes (temp_dir : string) (file_list : list Zip.ZipInfo)
    (clock : nat → Z) (password : option string) :
  (Forall Zip.named file_list →
   ∃ total_files extracted_files failed_files files,
     Extractor.extract_archive_safe (Ok temp_dir) (Ok file_list) clock password
     = Some (Extractor.Extracted total_files extracted_files failed_files files
               temp_dir))
  ∧ ∀ total_files extracted_files failed_files files dir,
      Extractor.extract_archive_safe (Ok temp_dir) (Ok file_list) clock password
      = Some (Extractor.Extracted total_files extracted_files failed_files files dir) →
      dir = temp_dir
      ∧ Forall2 (ExtractorRel.entry_record password) (Extractor.members file_list) files
      ∧ NoDup (omap extracted_path files)
      ∧ (∀ j zj fj,
           Extractor.members file_list !! j = Some zj → files !! j = Some fj →
           error fj = None →
           ∃ fs_j,
             Extractor.extract_loop temp_dir password clock
               (Extractor.fresh_dir temp_dir, []) (take j (Extractor.members file_list))
             = Some (Ok (fs_j, take j files))
             ∧ extracted_path fj = Some (Py.path_join temp_dir (filename fj))
             ∧ (Py.path_join temp_dir (filename fj) ∉ fs_j)
             ∧ (∀ i fi p, (i < j)%nat → files !! i = Some fi →
                  extracted_path fi = Some p → p ∈ fs_j)
             ∧ (∀ q, q ∈ fs_j →
                  ExtractorSpec.taken password (Extractor.fresh_dir temp_dir)
                    (Extractor.members file_list) files j q)
             ∧ (filename fj = Py.basename (Zip.zi_filename zj)
                ∨ (Py.path_join temp_dir (Py.basename (Zip.zi_filename zj)) ∈ fs_j
                   ∧ ∃ c, (1 ≤ c)%nat
                          ∧ filename fj
                            = Extractor.candidate
                                (Py.splitext (Py.basename (Zip.zi_filename zj))).1
                                (Py.splitext (Py.basename (Zip.zi_filename zj))).2 c
                          ∧ ∀ k, (1 ≤ k)%nat → (k < c)%nat →
                              Py.path_join temp_dir
                                (Extractor.candidate
                                   (Py.splitext (Py.basename (Zip.zi_filename zj))).1
                                   (Py.splitext (Py.basename (Zip.zi_filename zj))).2 k)
                              ∈ fs_j)))
      ∧ ∀ i j zi zj fi fj,
          (i < j)%nat →
          Extractor.members file_list !! i = Some zi →
          Extractor.members file_list !! j = Some zj →
          files !! i = Some fi → files !! j = Some fj →
          error fi = None → error fj = None →
          Py.basename (Zip.zi_filename zi) = Py.basename (Zip.zi_filename zj) →
          ∃ pi pj fs_j c,
            extracted_path fi = Some pi ∧ extracted_path fj = Some pj ∧ pi ≠ pj
            ∧ Extractor.extract_loop temp_dir password clock
                (Extractor.fresh_dir temp_dir, []) (take j (Extractor.members file_list))
              = Some (Ok (fs_j, take j files))
            ∧ pi ∈ fs_j ∧ (pj ∉ fs_j)
            ∧ (1 ≤ c)%nat
            ∧ filename fj
              = Extractor.candidate
                  (Py.splitext (Py.basename (Zip.zi_filename zj))).1
                  (Py.splitext (Py.basename (Zip.zi_filename zj))).2 c
            ∧ pj = Py.path_join temp_dir (filename fj)
            ∧ ∀ k, (1 ≤ k)%nat → (k < c)%nat →
                Py.path_join temp_dir
                  (Extractor.candidate
                     (Py.splitext (Py.basename (Zip.zi_filename zj))).1
                     (Py.splitext (Py.basename (Zip.zi_filename zj))).2 k)
                ∈ fs_j.
Proof.
  split.
  { intros Hall.
    destruct (extract_archive_safe_run temp_dir password clock file_list Hall)
      as (fs' & files & E & _).
    eexists _, _, _, files. exact E. }
  intros total_files extracted_files failed_files files dir E.
  pose proof (extract_archive_safe_extracted _ _ _ _ _ _ _ _ _ E) as Hall.
  destruct (extract_archive_safe_run temp_dir password clock file_list Hall)
    as (fs' & files' & E' & Hrun).
  rewrite E' in E. injection E as _ _ _ -> <-.
  split; [reflexivity|].
  split; [eapply run_records, Hrun|].
  split; [eapply run_paths, Hrun|].
  split.
  { intros j zj fj Hz Hf He.
    destruct (run_entry_state temp_dir password clock file_list fs' files Hall Hrun
                j zj fj Hz Hf He)
      as (fs_j & Hloop & Hp & Hfree & Hpaths & _ & Hup & Hleast).
    exists fs_j. auto 10. }
  intros i j zi zj fi fj Hij Hzi Hzj Hfi Hfj Hei Hej Hb.
  pose proof (run_records _ _ _ _ _ _ _ _ Hrun) as Hrec.
  destruct (entry_record_written password zi fi
              (Forall2_lookup_lr _ _ _ _ _ _ Hrec Hzi Hfi) Hei) as [pi Hpi].
  destruct (run_entry_state temp_dir password clock file_list fs' files Hall Hrun
              j zj fj Hzj Hfj Hej)
    as (fs_j & Hloop & Hp & Hfree & Hpaths & Hbase & _ & Hleast).
  pose proof (Hpaths i fi pi Hij Hfi Hpi) as Hin.
  pose proof (Hbase i zi fi Hij Hzi Hfi Hei) as Hbin. rewrite Hb in Hbin.
  destruct Hleast as [Hn|(_ & c & Hc & Hn & Hbelow)].
  { exfalso. apply Hfree. rewrite Hn. exact Hbin. }
  exists pi, (Py.path_join temp_dir (filename fj)), fs_j, c.
  split; [exact Hpi|]. split; [exact Hp|].
  split; [intros ->; contradiction|].
  split; [exact Hloop|]. split; [exact Hin|]. split; [exact Hfree|].
  split; [exact Hc|]. split; [exact Hn|]. split; [reflexivity|exact Hbelow].
Qed.

(** The scenario of the specification: [a.pdf] under two directories.
    The second one is written as [a_1.pdf]. *)
Lemma collisions_get_suffixes_witness :
  ∃ files,
    Extractor.extract_archive_safe (Ok "/tmp/archive_extract_x")
      (Ok Scenario.twice_archive) (λ _, 0%Z) None
    = Some (Extractor.Extracted 3 3 0 files "/tmp/archive_extract_x")
    ∧ filename <$> files = ["a.pdf"; "a_1.pdf"; "b.txt"]
    ∧ NoDup (omap extracted_path files)
    ∧ ∃ fi fj pi pj c,
        files !! 0%nat = Some fi ∧ files !! 1%nat = Some fj
        ∧ extracted_path fi = Some pi ∧ extracted_path fj = Some pj ∧ pi ≠ pj
        ∧ (1 ≤ c)%nat ∧ filename fj = Extractor.candidate "a" ".pdf" c.
Proof.
  destruct (collisions_get_suffixes "/tmp/archive_extract_x" Scenario.twice_archive
              (λ _, 0%Z) None) as [Hex Hall].
  assert (Hn : Forall Zip.named Scenario.twice_archive).
  { repeat (constructor; [discriminate|]). constructor. }
  destruct (Hex Hn) as (t & e & f & files & E).
  destruct (Hall t e f files _ E) as (_ & _ & Hnd & _ & Hpair).
  pose proof E as E'. vm_compute in E'.
  injection E' as <- <- <- <-.
  eexists. split; [exact E|]. split; [reflexivity|]. split; [exact Hnd|].
  destruct (Hpair 0%nat 1%nat _ _ _ _ (Nat.lt_0_succ 0) eq_refl eq_refl eq_refl eq_refl
              eq_refl eq_refl eq_refl)
    as (pi & pj & fs_j & c & Hpi & Hpj & Hne & _ & _ & _ & Hc & Hname & _).
  eexists _, _, pi, pj, c. split; [reflexivity|]. split; [reflexivity|].
  split; [exact Hpi|]. split; [exact Hpj|]. split; [exact Hne|].
  split; [exact Hc|exact Hname].
Defined.

(** The same archive, evaluated. *)
Lemma scenario_docs_zip :
  (λ r, (Extractor.success r,
         (λ f, (filename f, extracted_path f, format f)) <$> Extractor.result_files r))
    <$> Extractor.extract_archive_safe (Ok "/tmp/archive_extract_x")
          (Ok Scenario.twice_archive) (λ _, 0%Z) None
  = Some (true,
          [("a.pdf", Some "/tmp/archive_extract_x/a.pdf", "pdf");
           ("a_1.pdf", Some "/tmp/archive_extract_x/a_1.pdf", "pdf");
           ("b.txt", Some "/tmp/archive_extract_x/b.txt", "text")]).
Proof. vm_compute. reflexivity. Qed.

(** ** Password-protected entries *)




(** ** The worker: rules *)

Section HoareRules.
Import Batch WorkerSpec.
Context {A B : Type}.

Lemma hoare_ret (a : A) (Q : A → World → Prop) (E : World → Prop) :
  hoare (Q a) (mret a) Q E.
Proof. intros w H. exact H. Qed.

Lemma hoare_raise (e : string) (Q : A → World → Prop) (E : World → Prop) :
  hoare E (raise e) Q E.
Proof. intros w H. exact H. Qed.

Lemma hoare_bind (P : World → Prop) (m : Worker A) (R : A → World → Prop)
    (k : A → Worker B) (Q : B → World → Prop) (E : World → Prop) :
  hoare P m R E → (∀ a, hoare (R a) (k a) Q E) → hoare P (m ≫= k) Q E.
Proof.
  intros Hm Hk w Hw. specialize (Hm w Hw).
  unfold mbind, worker_bind. destruct (m w) as [w' [a|e]]; [|exact Hm].
  exact (Hk a w' Hm).
Qed.

Lemma hoare_conseq (P P' : World → Prop) (m : Worker A)
    (Q Q' : A → World → Prop) (E E' : World → Prop) :
  hoare P m Q E →
  (∀ w, P' w → P w) → (∀ a w, Q a w → Q' a w) → (∀ w, E w → E' w) →
  hoare P' m Q' E'.
Proof.
  intros Hm HP HQ HE w Hw. specialize (Hm w (HP w Hw)).
  destruct (m w) as [w' [a|e]]; auto.
Qed.

Lemma hoare_try (P : World → Prop) (body : Worker A) (handler : string → Worker A)
    (Q : A → World → Prop) (E1 E : World → Prop) :
  hoare P body Q E1 → (∀ e, hoare E1 (handler e) Q E) →
  hoare P (try_except body handler) Q E.
Proof.
  intros Hb Hh w Hw. specialize (Hb w Hw). unfold try_except.
  destruct (body w) as [w' [a|e]]; [exact Hb|]. exact (Hh e w' Hb).
Qed.

End HoareRules.

(** The worker's own steps, as the weakest condition for a postcondition. *)
Section StepRules.
Import Batch WorkerSpec.

Lemma hoare_mutate (g : BatchStatus → BatchStatus) (Q : unit → World → Prop)
    (E : World → Prop) :
  hoare (λ w, Q tt (mutate g w).1) (mutate g) Q E.
Proof. intros w H. exact H. Qed.

Lemma hoare_save (Q : unit → World → Prop) (E : World → Prop) :
  hoare (λ w, Q tt (save_batch_status w).1) save_batch_status Q E.
Proof. intros w H. exact H. Qed.

Lemma hoare_count (c : Counter) (d : Z) (Q : unit → World → Prop) (E : World → Prop) :
  hoare (λ w, match b_conversion_progress (batch w) with
              | Some p => Q tt (mutate (set_progress (add_to c d p)) w).1
              | None => E w
              end) (count c d) Q E.
Proof.
  intros w H. unfold count. destruct (b_conversion_progress (batch w)); exact H.
Qed.

Lemma quiet_dispatch cv file_path file_format : quiet (dispatch cv file_path file_format).
Proof.
  intros w. unfold dispatch.
  destruct (Dispatch.convert_file_content cv file_path file_format); auto.
Qed.

Lemma quiet_write_output io output_path content :
  quiet (write_output io output_path content).
Proof.
  intros w. unfold write_output.
  destruct (write_error io); [destruct (write_partial io)|]; auto.
Qed.

Lemma quiet_record_history io filename file_format output_path download_url :
  quiet (record_history io filename file_format output_path download_url).
Proof.
  intros w. unfold record_history. destruct (History.add_to_history _ _ _ _ _ _ _ _ _); auto.
Qed.

End StepRules.

(** ** The worker: the counters stay within [total] *)

Section Bounded.
Import Batch WorkerSpec.
Variable n : Z.

Lemma counters_weaken a a' b : counters n a b → (a ≤ a')%Z → counters n a' b.
Proof. intros (p & Hp & Ht & Hs) Ha. exists p. repeat split; auto. lia. Qed.

Lemma counters_if_weaken a a' b : counters_if n a b → (a ≤ a')%Z → counters_if n a' b.
Proof. intros H Ha p Hp. destruct (H p Hp). split; auto. lia. Qed.

Lemma counters_counters_if a b : counters n a b → counters_if n a b.
Proof. intros (p & Hp & Ht & Hs) q Hq. rewrite Hp in Hq. injection Hq as <-. auto. Qed.

Lemma bounded_weaken a s e a' s' e' w :
  bounded n a s e w → (a ≤ a')%Z → (s ≤ s')%Z → (e ≤ e')%Z → bounded n a' s' e' w.
Proof.
  intros (Hb & Hs & He) Ha Hs' He'. split; [eauto using counters_weaken|].
  split; eapply Forall_impl; eauto; cbn; eauto using counters_weaken, counters_if_weaken.
Qed.

(** An assignment that does not touch the counters. *)
Lemma bounded_mutate (g : BatchStatus → BatchStatus) a s e (E : World → Prop) :
  (∀ b, b_conversion_progress (g b) = b_conversion_progress b) →
  (a ≤ e)%Z →
  hoare (bounded n a s e) (mutate g) (λ _, bounded n a s e) E.
Proof.
  intros Hg Hae w (Hb & Hs & He). unfold bounded, mutate. cbn.
  assert (Hb' : counters n a (g (batch w))).
  { destruct Hb as (p & Hp & Hr). exists p. now rewrite Hg. }
  split; [exact Hb'|]. split; [exact Hs|]. constructor; [|exact He].
  eapply counters_if_weaken; [apply counters_counters_if, Hb'|exact Hae].
Qed.

Lemma bounded_assign gi u a s e (E : World → Prop) :
  (a ≤ e)%Z → hoare (bounded n a s e) (assign gi u) (λ _, bounded n a s e) E.
Proof. intros. apply bounded_mutate; auto. Qed.

Lemma bounded_save a s e (E : World → Prop) :
  (a ≤ s)%Z → hoare (bounded n a s e) save_batch_status (λ _, bounded n a s e) E.
Proof.
  intros Has w (Hb & Hs & He). unfold bounded, save_batch_status. cbn.
  split; [exact Hb|]. split; [|exact He]. constructor; [|exact Hs].
  eapply counters_weaken; eauto.
Qed.

Lemma progress_sum_add_to c d p : progress_sum (add_to c d p) = (progress_sum p + d)%Z.
Proof. unfold progress_sum. destruct c; cbn; lia. Qed.

Lemma bounded_count c d a s e (E : World → Prop) :
  (a + d ≤ e)%Z →
  hoare (bounded n a s e) (count c d) (λ _, bounded n (a + d) s e) E.
Proof.
  intros Hade w (Hb & Hs & He). destruct Hb as (p & Hp & Ht & Hsum).
  unfold count. rewrite Hp. unfold bounded, mutate. cbn.
  assert (Hb' : counters n (a + d) (set_progress (add_to c d p) (batch w))).
  { eexists. split; [reflexivity|]. split; [exact Ht|].
    rewrite progress_sum_add_to. lia. }
  split; [exact Hb'|]. split; [exact Hs|]. constructor; [|exact He].
  eapply counters_if_weaken; [apply counters_counters_if, Hb'|exact Hade].
Qed.

Lemma bounded_quiet {A : Type} (m : Worker A) a s e :
  quiet m → hoare (bounded n a s e) m (λ _, bounded n a s e) (bounded n a s e).
Proof.
  intros Hq w (Hb & Hs & He). destruct (Hq w) as (E1 & E2 & E3).
  destruct (m w) as [w' [x|msg]]; cbn in *; unfold bounded; rewrite E1, E2, E3; auto.
Qed.

Ltac bounded_step :=
  first
    [ apply bounded_assign; lia
    | apply bounded_save; lia
    | apply bounded_count; lia
    | apply bounded_quiet;
      first [apply quiet_dispatch | apply quiet_write_output | apply quiet_record_history] ].

Ltac bounded_seq := eapply hoare_bind; [bounded_step|intros ?].

Lemma bounded_mark_failed gi msg a s e (E : World → Prop) :
  (a ≤ s)%Z → (a + 1 ≤ e)%Z →
  hoare (bounded n a s e) (mark_failed gi msg) (λ _, bounded n a s e) E.
Proof.
  intros Has Hae. unfold mark_failed.
  do 4 bounded_seq.
  replace (a + 1 + -1)%Z with a by lia. bounded_step.
Qed.

Lemma bounded_convert_member cv io gi global_file k :
  hoare (bounded n k (k + 1) (k + 2)) (convert_member cv io gi global_file)
    (λ _, bounded n (k + 1) (k + 1) (k + 2)) (bounded n (k + 1) (k + 1) (k + 2)).
Proof.
  unfold convert_member.
  do 5 bounded_seq.
  destruct (negb (supported (format global_file))).
  - apply bounded_mark_failed; lia.
  - do 10 bounded_seq.
    replace (k + 1 + 1 + -1)%Z with (k + 1)%Z by lia. bounded_step.
Qed.

Lemma bounded_try_block cv io file_info k :
  hoare (bounded n k (k + 1) (k + 2)) (try_block cv io file_info)
    (λ _, bounded n (k + 1) (k + 1) (k + 2)) (bounded n (k + 1) (k + 1) (k + 2)).
Proof.
  assert (Hw : ∀ w, bounded n k (k + 1) (k + 2) w → bounded n (k + 1) (k + 1) (k + 2) w)
    by (intros w H; eapply bounded_weaken; eauto; lia).
  destruct file_info as [[name|] path err|type_name]; cbn [try_block].
  - destruct (negb (Py.truthy path) || Py.truthy err).
    + intros w H. apply Hw, H.
    + intros w H. destruct (find_file name (b_files (batch w))) as [[gi gf]|].
      * apply bounded_convert_member, H.
      * apply Hw, H.
  - intros w H. apply Hw, H.
  - intros w H. apply Hw, H.
Qed.

Lemma bounded_except_block file_info e k :
  hoare (bounded n (k + 1) (k + 1) (k + 2)) (except_block file_info e)
    (λ _, bounded n (k + 1) (k + 1) (k + 2)) (bounded n (k + 1) (k + 1) (k + 2)).
Proof.
  destruct file_info as [name path err|type_name]; cbn [except_block].
  - intros w H. destruct (find_file (default "" name) (b_files (batch w))) as [[gi gf]|].
    + apply bounded_mark_failed; [lia|lia|exact H].
    + exact H.
  - intros w H. exact H.
Qed.

Lemma bounded_iteration cv io file_info k :
  hoare (bounded n k k (k + 1)) (iteration cv io file_info)
    (λ _, bounded n (k + 1) (k + 1) (k + 2)) (bounded n (k + 1) (k + 1) (k + 2)).
Proof.
  unfold iteration. eapply hoare_try.
  - eapply hoare_conseq.
    + apply (bounded_try_block cv io file_info k).
    + intros w H. apply (bounded_weaken _ _ _ _ _ _ _ H); lia.
    + intros ? w H. exact H.
    + intros w H. exact H.
  - intros e. apply bounded_except_block.
Qed.

(** After the loop over [files], started when [k] elements were done. *)
Lemma bounded_worker_loop cv io files :
  ∀ i k,
    hoare (bounded n k k (k + 1)) (worker_loop cv io i files)
      (λ _, bounded n (k + Z.of_nat (length files)) (k + Z.of_nat (length files))
              (k + Z.of_nat (length files) + 1))
      (bounded n (k + Z.of_nat (length files)) (k + Z.of_nat (length files))
         (k + Z.of_nat (length files) + 1)).
Proof.
  induction files as [|file_info rest IH]; intros i k; cbn [worker_loop length].
  - intros w H. cbn. apply (bounded_weaken _ _ _ _ _ _ _ H); lia.
  - eapply hoare_bind.
    + eapply hoare_conseq.
      * apply (bounded_iteration cv (io i) file_info k).
      * intros w H. exact H.
      * intros ? w H. exact H.
      * intros w H. apply (bounded_weaken _ _ _ _ _ _ _ H); lia.
    + intros ?. eapply hoare_conseq.
      * apply (IH (S i) (k + 1)%Z).
      * intros w H. replace (k + 1 + 1)%Z with (k + 2)%Z by lia. exact H.
      * intros ? w H. apply (bounded_weaken _ _ _ _ _ _ _ H); lia.
      * intros w H. apply (bounded_weaken _ _ _ _ _ _ _ H); lia.
Qed.

Lemma bounded_async_convert cv io files :
  hoare (bounded n 0 0 1) (async_convert cv io files)
    (λ _, bounded n (Z.of_nat (length files)) (Z.of_nat (length files))
            (Z.of_nat (length files) + 1))
    (bounded n (Z.of_nat (length files)) (Z.of_nat (length files))
       (Z.of_nat (length files) + 1)).
Proof.
  unfold async_convert, convert_batch_files. eapply hoare_try.
  - eapply hoare_bind; [apply (bounded_worker_loop cv io files 0 0%Z)|intros ?].
    cbn. eapply hoare_bind; [apply bounded_mutate; [reflexivity|lia]|intros ?].
    apply bounded_save. lia.
  - intros e. cbn.
    eapply hoare_bind; [apply bounded_mutate; [reflexivity|lia]|intros ?].
    eapply hoare_bind; [apply bounded_mutate; [reflexivity|lia]|intros ?].
    apply bounded_save. lia.
Qed.

End Bounded.

(** ** The worker: every convertible member is counted once *)

Section Exact.
Import Batch WorkerSpec.
Variables (n : Z) (names : list string).

Lemma filename_alter (u : FileUpdate) (gi : nat) (l : list FileInfo) :
  filename <$> alter (update_member u) gi l = filename <$> l.
Proof.
  rewrite (list_fmap_alter filename (update_member u) id)
    by (apply Forall_forall; reflexivity).
  apply list_alter_id. reflexivity.
Qed.

Lemma exact_assign gi u d b (E : World → Prop) :
  hoare (exact n d b names) (assign gi u) (λ _, exact n d b names) E.
Proof.
  intros w (p & Hp & Ht & Hd & Hb & Hn). unfold assign, mutate, exact. cbn.
  exists p. rewrite filename_alter. auto.
Qed.

Lemma exact_save d b (E : World → Prop) :
  hoare (exact n d b names) save_batch_status (λ _, exact n d b names) E.
Proof. intros w H. exact H. Qed.

Lemma exact_count_processing d' d b (E : World → Prop) :
  hoare (exact n d b names) (count CProcessing d')
    (λ _, exact n d (b + d') names) E.
Proof.
  intros w (p & Hp & Ht & Hd & Hb & Hn). unfold count. rewrite Hp.
  unfold mutate, exact. cbn. eexists. split; [reflexivity|]. cbn. subst b. auto.
Qed.

Lemma exact_count_failed d b (E : World → Prop) :
  hoare (exact n d b names) (count CFailed 1) (λ _, exact n (d + 1) b names) E.
Proof.
  intros w (p & Hp & Ht & Hd & Hb & Hn). unfold count. rewrite Hp.
  unfold mutate, exact. cbn. eexists. split; [reflexivity|]. cbn.
  repeat split; auto. lia.
Qed.

Lemma exact_count_completed d b (E : World → Prop) :
  hoare (exact n d b names) (count CCompleted 1) (λ _, exact n (d + 1) b names) E.
Proof.
  intros w (p & Hp & Ht & Hd & Hb & Hn). unfold count. rewrite Hp.
  unfold mutate, exact. cbn. eexists. split; [reflexivity|]. cbn.
  repeat split; auto. lia.
Qed.

Lemma exact_quiet {A : Type} (m : Worker A) d b :
  quiet m → hoare (exact n d b names) m (λ _, exact n d b names) (exact n d b names).
Proof.
  intros Hq w H. destruct (Hq w) as (E1 & _ & _).
  destruct (m w) as [w' [x|msg]]; cbn in *; unfold exact; rewrite E1; exact H.
Qed.

Ltac exact_step :=
  first
    [ apply exact_assign
    | apply exact_save
    | apply exact_count_processing
    | apply exact_count_failed
    | apply exact_count_completed
    | apply exact_quiet;
      first [apply quiet_dispatch | apply quiet_write_output | apply quiet_record_history] ].

Ltac exact_seq := eapply hoare_bind; [exact_step|intros ?].

Lemma exact_mark_failed gi msg d (E : World → Prop) :
  hoare (exact n d 1 names) (mark_failed gi msg) (λ _, exact n (d + 1) 0 names) E.
Proof.
  unfold mark_failed. do 4 exact_seq. change (1 + -1)%Z with 0%Z. exact_step.
Qed.

Lemma exact_convert_member cv io gi global_file d :
  hoare (exact n d 0 names) (convert_member cv io gi global_file)
    (λ _, exact n (d + 1) 0 names) (exact n d 1 names).
Proof.
  unfold convert_member. do 5 exact_seq. change (0 + 1)%Z with 1%Z.
  destruct (negb (supported (format global_file))).
  - apply exact_mark_failed.
  - do 10 exact_seq. change (1 + -1)%Z with 0%Z. exact_step.
Qed.

Lemma exact_find (name : string) d b w :
  exact n d b names w → name ∈ names →
  ∃ gi gf, find_file name (b_files (batch w)) = Some (gi, gf).
Proof.
  intros (p & _ & _ & _ & _ & Hn) Hin. rewrite <- Hn in Hin.
  apply list_elem_of_fmap in Hin as (f & -> & Hf).
  destruct (list_find_elem_of (λ g, filename g = filename f) _ f Hf eq_refl)
    as [[gi gf] H].
  exists gi, gf. exact H.
Qed.

Lemma exact_iteration cv io file_info d :
  convertible names file_info →
  hoare (exact n d 0 names) (iteration cv io file_info)
    (λ _, exact n (d + 1) 0 names) (λ _, False).
Proof.
  destruct file_info as [[name|] path err|type_name]; cbn [convertible]; try tauto.
  intros (Hin & Hpath & Herr). unfold iteration.
  apply (hoare_try _ _ _ _ (exact n d 1 names)).
  - cbn [try_block]. rewrite Hpath, Herr. cbn [negb orb].
    intros w H. destruct (exact_find name _ _ w H Hin) as (gi & gf & Hf).
    cbn beta. destruct (find_file name (b_files (batch w))) as [[gi' gf']|];
      [|discriminate Hf].
    apply exact_convert_member, H.
  - intros e. cbn [except_block]. change (default "" (Some name)) with name.
    intros w H. destruct (exact_find name _ _ w H Hin) as (gi & gf & Hf).
    cbn beta. destruct (find_file name (b_files (batch w))) as [[gi' gf']|];
      [|discriminate Hf].
    apply exact_mark_failed, H.
Qed.

Lemma exact_worker_loop cv io files :
  Forall (convertible names) files →
  ∀ i d,
    hoare (exact n d 0 names) (worker_loop cv io i files)
      (λ _, exact n (d + Z.of_nat (length files)) 0 names) (λ _, False).
Proof.
  induction 1 as [|file_info rest Hc _ IH]; intros i d; cbn [worker_loop length].
  - intros w H. cbn. replace (d + Z.of_nat 0)%Z with d by lia. exact H.
  - eapply hoare_bind; [apply (exact_iteration cv (io i) file_info d Hc)|intros ?].
    eapply hoare_conseq.
    + apply (IH (S i) (d + 1)%Z).
    + intros w H. exact H.
    + intros ? w H.
      replace (d + Z.of_nat (S (length rest)))%Z
        with (d + 1 + Z.of_nat (length rest))%Z by lia.
      exact H.
    + intros w H. exact H.
Qed.

Lemma exact_async_convert cv io files :
  Forall (convertible names) files →
  hoare (exact n 0 0 names) (async_convert cv io files)
    (λ _ w, exact n (Z.of_nat (length files)) 0 names w
            ∧ b_status (batch w) = st_completed)
    (λ _, False).
Proof.
  intros Hc. unfold async_convert, convert_batch_files. eapply hoare_try.
  - eapply hoare_bind; [apply (exact_worker_loop cv io files Hc 0 0%Z)|intros ?].
    intros w H. cbn. split; [|reflexivity]. exact H.
  - intros e w [].
Qed.

End Exact.

Lemma default_selection_convertible (fs : list FileInfo) :
  Forall (WorkerSpec.convertible (filename <$> fs)) (Batch.default_selection fs).
Proof.
  unfold Batch.default_selection. apply Forall_forall. intros s Hs.
  apply list_elem_of_fmap in Hs as (f & -> & Hf).
  apply list_elem_of_filter in Hf as [Hp Hf]. cbn.
  apply andb_true_iff in Hp as [Hp He]. apply negb_true_iff in He.
  split; [|auto]. apply list_elem_of_fmap. now exists f.
Qed.

(** The world [convert_batch] hands to the thread. *)
Lemma convert_batch_start (reg : gmap string Batch.BatchStatus)
    (hist : History.HistoryFile) (batch_id : string) (b : Batch.BatchStatus)
    (data_files : list Batch.Selected) (now : string) :
  reg !! batch_id = Some b →
  Batch.b_status b = st_extracted →
  ∃ w0,
    Batch.convert_batch reg hist batch_id data_files now
    = (Batch.ConvertStarted (Z.of_nat (length (Batch.selection b data_files))),
       Some (w0, Batch.selection b data_files))
    ∧ Batch.b_conversion_progress (Batch.batch w0)
      = Some {| Batch.total := Z.of_nat (length (Batch.selection b data_files));
                Batch.completed := 0; Batch.failed := 0; Batch.processing := 0 |}
    ∧ Batch.b_files (Batch.batch w0) = Batch.b_files b
    ∧ Batch.saved w0 = [Batch.batch w0]
    ∧ Batch.seen w0
      = [Batch.batch w0;
         Batch.set_converted_at now (Batch.set_status st_converting b);
         Batch.set_status st_converting b].
Proof.
  intros Hb Hst. unfold Batch.convert_batch, Batch.get_batch_status.
  rewrite Hb, Hst. eexists. split; [reflexivity|]. cbn. auto.
Qed.

(** C1, as the specification states it, fails at the first read: when
    the conversion of a batch with one extracted member is triggered the
    counters are saved as total 1 and completed, failed, processing 0. *)
Lemma progress_sum_counterexample :
  ∃ w s p,
    Batch.run_conversion Sample.converters Sample.io Sample.registry History.Missing
      "b1" [] "2025-11-11T18:06:47" = Some w
    ∧ last (Batch.saved w) = Some s
    ∧ last (Batch.status_reads w) = Some (Batch.set_status st_converting Sample.batch_status)
    ∧ s ∈ Batch.status_reads w
    ∧ Batch.b_conversion_progress s = Some p
    ∧ Batch.total p = 1%Z
    ∧ (Batch.completed p + Batch.failed p + Batch.processing p)%Z ≠ Batch.total p.
Proof.
  eexists _, _, _. split; [vm_compute; reflexivity|].
  split; [reflexivity|]. split; [reflexivity|].
  split; [unfold Batch.status_reads; cbn; rewrite !elem_of_cons; tauto|].
  split; [reflexivity|]. split; [reflexivity|]. cbn. discriminate.
Qed.

(** C1 (amended): from the moment the conversion is triggered, [total] is
    the number of selected members and does not change; in every state
    the worker saves, completed + failed + processing is at most [total];
    in every state of the shared dictionary a read can meet, it is at most
    [total + 1] (the worker adds to [failed] or [completed] before it
    takes one off [processing]).  When every selected element is an
    extracted member of the batch, as in the default selection, the
    thread ends with completed + failed equal to [total], processing 0
    and the batch [completed]. *)
Theorem conversion_progress_within_total (cv : Dispatch.Converters)
    (io : nat → Batch.MemberIo) (reg : gmap string Batch.BatchStatus)
    (hist : History.HistoryFile) (batch_id : string) (b : Batch.BatchStatus)
    (data_files : list Batch.Selected) (now : string) :
  reg !! batch_id = Some b →
  Batch.b_status b = st_extracted →
  Batch.b_conversion_progress b = None →
  ∃ w,
    Batch.run_conversion cv io reg hist batch_id data_files now = Some w
    ∧ (∀ s, s ∈ Batch.saved w →
         ∃ p, Batch.b_conversion_progress s = Some p
              ∧ Batch.total p = Z.of_nat (length (Batch.selection b data_files))
              ∧ (Batch.completed p + Batch.failed p + Batch.processing p
                 ≤ Batch.total p)%Z)
    ∧ (∀ s p, s ∈ Batch.status_reads w → Batch.b_conversion_progress s = Some p →
         Batch.total p = Z.of_nat (length (Batch.selection b data_files))
         ∧ (Batch.completed p + Batch.failed p + Batch.processing p
            ≤ Batch.total p + 1)%Z)
    ∧ (∃ p, Batch.b_conversion_progress (Batch.batch w) = Some p
            ∧ Batch.total p = Z.of_nat (length (Batch.selection b data_files))
            ∧ (Batch.completed p + Batch.failed p + Batch.processing p
               ≤ Batch.total p)%Z)
    ∧ (Forall (WorkerSpec.convertible (filename <$> Batch.b_files b))
         (Batch.selection b data_files) →
       ∃ p, Batch.b_conversion_progress (Batch.batch w) = Some p
            ∧ (Batch.completed p + Batch.failed p)%Z = Batch.total p
            ∧ Batch.processing p = 0%Z
            ∧ Batch.b_status (Batch.batch w) = st_completed)
    ∧ Forall (WorkerSpec.convertible (filename <$> Batch.b_files b))
        (Batch.selection b []).
Proof.
  intros Hb Hst Hnone.
  destruct (convert_batch_start reg hist batch_id b data_files now Hb Hst)
    as (w0 & Hstart & Hp0 & Hf0 & Hsaved0 & Hseen0).
  set (files := Batch.selection b data_files) in *.
  set (n := Z.of_nat (length files)) in *.
  unfold Batch.run_conversion. rewrite Hstart. cbn [snd].
  eexists. split; [reflexivity|].
  assert (Hc0 : WorkerSpec.counters n 0 (Batch.batch w0)).
  { eexists. split; [exact Hp0|]. split; [reflexivity|].
    unfold WorkerSpec.progress_sum. cbn. lia. }
  assert (Hb0 : WorkerSpec.bounded n 0 0 1 w0).
  { split; [exact Hc0|]. split.
    - rewrite Hsaved0. constructor; [exact Hc0|constructor].
    - rewrite Hseen0. constructor; [|constructor; [|constructor; [|constructor]]].
      + apply (counters_counters_if n), (counters_weaken n 0); [exact Hc0|lia].
      + intros p Hp. cbn in Hp. congruence.
      + intros p Hp. cbn in Hp. congruence. }
  pose proof (bounded_async_convert n cv io files w0 Hb0) as Hrun.
  assert (Hfin : WorkerSpec.bounded n n n (n + 1)
                   (Batch.async_convert cv io files w0).1).
  { destruct (Batch.async_convert cv io files w0) as [w [[]|e]]; exact Hrun. }
  destruct Hfin as (Hbatch & Hsaved & Hseen).
  assert (Hcount : ∀ a s, WorkerSpec.counters n a s →
            ∃ p, Batch.b_conversion_progress s = Some p ∧ Batch.total p = n
                 ∧ (Batch.completed p + Batch.failed p + Batch.processing p ≤ a)%Z)
    by (intros a s H; exact H).
  split.
  { intros s Hs. rewrite Forall_forall in Hsaved.
    destruct (Hcount n s (Hsaved s Hs)) as (p & Hp & Ht & Hsum).
    exists p. rewrite Ht. auto. }
  split.
  { intros s p Hs Hp. rewrite Forall_forall in Hseen.
    destruct (Hseen s Hs p Hp) as [Ht Hsum]. rewrite Ht. split; [reflexivity|exact Hsum]. }
  split.
  { destruct (Hcount n _ Hbatch) as (p & Hp & Ht & Hsum). exists p. rewrite Ht. auto. }
  split.
  { intros Hconv.
    assert (He0 : WorkerSpec.exact n 0 0 (filename <$> Batch.b_files b) w0).
    { eexists. split; [exact Hp0|]. cbn. rewrite Hf0. auto. }
    pose proof (exact_async_convert n _ cv io files Hconv w0 He0) as Hex.
    destruct (Batch.async_convert cv io files w0) as [w [[]|e]]; [|contradiction].
    destruct Hex as [(p & Hp & Ht & Hd & Hbusy & _) Hstat].
    exists p. cbn [fst]. rewrite Ht. auto. }
  apply default_selection_convertible.
Qed.

(** ** The worker: it reaches the end *)

Section NoEscape.
Import Batch WorkerSpec.

(** The counters are there. *)
Local Abbreviation has_progress :=
  (λ w : World, is_Some (b_conversion_progress (batch w))).











End NoEscape.



(** The run of that batch: the member is [failed], the batch [completed]. *)
Lemma worker_all_failed_run :
  (λ w, (Batch.b_status (Batch.batch w),
         Batch.b_conversion_progress (Batch.batch w),
         conversion_status <$> Batch.b_files (Batch.batch w),
         Batch.calls w))
    (Batch.convert_batch_files Sample.converters Sample.io Sample.selected
       Sample.unsupported_world).1
  = (st_completed,
     Some {| Batch.total := 1; Batch.completed := 0; Batch.failed := 1;
             Batch.processing := 0 |},
     [Some cs_failed], []).
Proof. vm_compute. reflexivity. Qed.

(** ** The worker: members of an unsupported format *)

Lemma unknown_and_text_unsupported :
  Batch.supported "unknown" = false ∧ Batch.supported "text" = false
  ∧ Batch.supported "pdf" = true.
Proof. vm_compute. auto. Qed.

Section CallsSupported.
Import Batch WorkerSpec.

Lemma calls_supported_silent {A : Type} (m : Worker A) :
  silent m → hoare calls_supported m (λ _, calls_supported) calls_supported.
Proof.
  intros Hs w H. specialize (Hs w). unfold calls_supported in *.
  destruct (m w) as [w' [x|e]]; cbn in *; rewrite Hs; exact H.
Qed.

Lemma silent_assign gi u : silent (assign gi u).
Proof. intros w. reflexivity. Qed.

Lemma silent_save : silent save_batch_status.
Proof. intros w. reflexivity. Qed.

Lemma silent_count c d : silent (count c d).
Proof. intros w. unfold count. destruct (b_conversion_progress (batch w)); reflexivity. Qed.

Lemma silent_write_output io output_path content :
  silent (write_output io output_path content).
Proof.
  intros w. unfold write_output.
  destruct (write_error io); [destruct (write_partial io)|]; reflexivity.
Qed.

Lemma silent_record_history io filename file_format output_path download_url :
  silent (record_history io filename file_format output_path download_url).
Proof.
  intros w. unfold record_history.
  destruct (History.add_to_history _ _ _ _ _ _ _ _ _); reflexivity.
Qed.

Lemma calls_supported_dispatch cv file_path file_format :
  supported file_format = true →
  hoare calls_supported (dispatch cv file_path file_format)
    (λ _, calls_supported) calls_supported.
Proof.
  intros Hs w H. unfold dispatch, calls_supported in *.
  destruct (Dispatch.convert_file_content cv file_path file_format) as [caps [c|e]];
    cbn; apply Forall_app; (split; [exact H|]); repeat constructor; exact Hs.
Qed.

Ltac calls_step :=
  apply calls_supported_silent;
  first [ apply silent_assign | apply silent_save | apply silent_count
        | apply silent_write_output | apply silent_record_history ].

Ltac calls_seq := eapply hoare_bind; [calls_step|intros ?].

Lemma calls_supported_mark_failed gi msg :
  hoare calls_supported (mark_failed gi msg) (λ _, calls_supported) calls_supported.
Proof. unfold mark_failed. do 4 calls_seq. calls_step. Qed.

Lemma calls_supported_convert_member cv io gi global_file :
  hoare calls_supported (convert_member cv io gi global_file)
    (λ _, calls_supported) calls_supported.
Proof.
  unfold convert_member. do 5 calls_seq.
  destruct (supported (format global_file)) eqn:Hs; cbn [negb].
  - eapply hoare_bind; [apply calls_supported_dispatch, Hs|intros ?].
    do 9 calls_seq. calls_step.
  - apply calls_supported_mark_failed.
Qed.

Lemma calls_supported_iteration cv io file_info :
  hoare calls_supported (iteration cv io file_info)
    (λ _, calls_supported) calls_supported.
Proof.
  unfold iteration. apply (hoare_try _ _ _ _ calls_supported).
  - destruct file_info as [[name|] path err|type_name]; cbn [try_block];
      try (intros w H; exact H).
    destruct (negb (Py.truthy path) || Py.truthy err); [intros w H; exact H|].
    intros w H. cbn beta.
    destruct (find_file name (b_files (batch w))) as [[gi gf]|]; [|exact H].
    apply calls_supported_convert_member, H.
  - intros e. destruct file_info as [name path err|type_name]; cbn [except_block];
      [|intros w H; exact H].
    intros w H. cbn beta.
    destruct (find_file (default "" name) (b_files (batch w))) as [[gi gf]|];
      [|exact H].
    apply calls_supported_mark_failed, H.
Qed.

(** The worker calls the dispatch for supported tags only. *)
Lemma calls_supported_worker_loop cv io files :
  ∀ i, hoare calls_supported (worker_loop cv io i files)
         (λ _, calls_supported) calls_supported.
Proof.
  induction files as [|file_info rest IH]; intros i; cbn [worker_loop].
  - intros w H. exact H.
  - eapply hoare_bind; [apply calls_supported_iteration|intros ?; apply IH].
Qed.

End CallsSupported.

(** An iteration of the worker over a selected element whose name is
    looked up to a member whose format is not a key of
    [SUPPORTED_FORMATS] returns without raising; the member that the
    lookup returned is [failed] with the message naming the format,
    [failed] is one more and [processing] is back where it was; the
    dispatch is not called, no output file is written and nothing is
    added to the history. *)
Theorem unsupported_member_fails_undispatched (cv : Dispatch.Converters)
    (io : Batch.MemberIo) (name : string) (path err : option string)
    (w : Batch.World) (gi : nat) (global_file : FileInfo) (p : Batch.Progress) :
  Py.truthy path = true → Py.truthy err = false →
  Batch.find_file name (Batch.b_files (Batch.batch w)) = Some (gi, global_file) →
  Batch.supported (format global_file) = false →
  Batch.b_conversion_progress (Batch.batch w) = Some p →
  ∃ w' f' p',
    Batch.iteration cv io (Batch.SelDict (Some name) path err) w = (w', Ok tt)
    ∧ Batch.calls w' = Batch.calls w
    ∧ Batch.downloads w' = Batch.downloads w
    ∧ Batch.history w' = Batch.history w
    ∧ Batch.b_files (Batch.batch w') !! gi = Some f'
    ∧ conversion_status f' = Some cs_failed
    ∧ conversion_error f' = Some ("不支持的文件格式: " +:+ format global_file)
    ∧ md_file_path f' = md_file_path global_file
    ∧ download_url f' = download_url global_file
    ∧ Batch.b_conversion_progress (Batch.batch w') = Some p'
    ∧ Batch.total p' = Batch.total p
    ∧ Batch.completed p' = Batch.completed p
    ∧ Batch.failed p' = (Batch.failed p + 1)%Z
    ∧ Batch.processing p' = Batch.processing p
    ∧ head (Batch.saved w') = Some (Batch.batch w').
Proof.
  intros Hpath Herr Hfind Hsup Hp.
  pose proof Hfind as Hfind'. apply list_find_Some in Hfind' as (Hgi & _ & _).
  unfold Batch.iteration, Batch.try_except. cbn [Batch.try_block].
  rewrite Hpath, Herr. cbn [negb orb].
  destruct (Batch.find_file name (Batch.b_files (Batch.batch w))) as [[gi' gf']|];
    [|discriminate Hfind].
  injection Hfind as -> ->.
  unfold Batch.convert_member. rewrite Hsup. cbn [negb].
  unfold Batch.mark_failed, mbind, Batch.worker_bind, Batch.assign, Batch.count,
    Batch.mutate, Batch.save_batch_status.
  cbn. rewrite Hp. cbn.
  eexists _, _, _. split; [reflexivity|]. cbn.
  rewrite !list_lookup_alter_eq, Hgi. cbn.
  repeat (split; [reflexivity|]). split; [cbn; lia|reflexivity].
Qed.

(** ** Instances on the sample batch *)

(** The default selection of the sample batch: the thread ends with the
    one member accounted for. *)
Lemma conversion_progress_within_total_witness :
  ∃ w,
    Batch.run_conversion Sample.converters Sample.io Sample.registry History.Missing
      "b1" [] "2025-11-11T18:06:47" = Some w
    ∧ ∃ p, Batch.b_conversion_progress (Batch.batch w) = Some p
           ∧ (Batch.completed p + Batch.failed p)%Z = Batch.total p
           ∧ Batch.processing p = 0%Z
           ∧ Batch.b_status (Batch.batch w) = st_completed.
Proof.
  assert (H1 : Sample.registry !! "b1" = Some Sample.batch_status)
    by (vm_compute; reflexivity).
  destruct (conversion_progress_within_total Sample.converters Sample.io
              Sample.registry History.Missing "b1" Sample.batch_status []
              "2025-11-11T18:06:47" H1 eq_refl eq_refl)
    as (w & Hrun & _ & _ & _ & Hex & Hdef).
  exists w. split; [exact Hrun|]. apply Hex, Hdef.
Defined.

(** The upload of [docs.zip] without a password gives the sample batch. *)
Lemma upload_batch_sample :
  Batch.upload_batch ∅ (Some "docs.zip") None "b1" "2025-11-11T18:06:30" None None
  = (Batch.UploadAccepted "b1" "docs.zip", Sample.uploaded_registry).
Proof. vm_compute. reflexivity. Qed.



(** What the extraction of that archive leaves in the registry. *)
Lemma sample_extraction_result :
  (λ r, (λ b, (Batch.b_status b, Batch.b_total_files b, Batch.b_extracted_files b,
               Batch.b_failed_files b,
               (λ f, (filename f, Py.truthy (error f))) <$> Batch.b_files b))
          <$> r.2 !! "b1")
    <$> Batch.extract_batch Sample.extract_env Sample.uploaded_registry "b1"
  = Some (Some (st_extracted, 2%Z, 1%Z, 1%Z,
                [("secret/a.pdf", true); ("b.pdf", false)])).
Proof. vm_compute. reflexivity. Qed.

(** The member of the sample batch whose format is [unknown]. *)
Lemma unsupported_member_fails_undispatched_witness :
  ∃ w' f',
    Batch.iteration Sample.converters (Sample.io 0)
      (Batch.SelDict (Some "a.pdf") (Some "/tmp/archive_extract_x/a.pdf") None)
      Sample.unsupported_world = (w', Ok tt)
    ∧ Batch.calls w' = []
    ∧ Batch.b_files (Batch.batch w') !! 0%nat = Some f'
    ∧ conversion_status f' = Some cs_failed
    ∧ conversion_error f' = Some "不支持的文件格式: unknown".
Proof.
  assert (H1 : Batch.find_file "a.pdf" (Batch.b_files (Batch.batch Sample.unsupported_world))
               = Some (0%nat, Sample.unknown_member)) by (vm_compute; reflexivity).
  assert (H2 : Batch.supported (format Sample.unknown_member) = false)
    by (vm_compute; reflexivity).
  destruct (unsupported_member_fails_undispatched Sample.converters (Sample.io 0)
              "a.pdf" (Some "/tmp/archive_extract_x/a.pdf") None
              Sample.unsupported_world 0 Sample.unknown_member
              {| Batch.total := 1; Batch.completed := 0; Batch.failed := 0;
                 Batch.processing := 0 |}
              eq_refl eq_refl H1 H2 eq_refl)
    as (w' & f' & p' & Hrun & Hcalls & _ & _ & Hf & Hst & Herr & _).
  exists w', f'. repeat split; assumption.
Defined.

(** C9: an archive with an encrypted [a.txt] at its root and a plain
    [docs/a.txt], extracted without a password and converted with the
    default selection.  The only member selected is the one of
    [docs/a.txt], of the tag [text], which is not a key of
    [SUPPORTED_FORMATS]; the worker looks its name up and finds the
    record of the entry that was not extracted, which stands first.
    That record is marked [failed] and counted; the member of the tag
    [text] is never marked.  The dispatch is not called. *)
Theorem shadowed_text_member_stays_unmarked :
  Batch.supported "text" = false
  ∧ (λ r, (λ b, (Batch.b_status b,
                 (λ f, (filename f, original_path f, format f, Py.truthy (error f),
                        extracted_path f)) <$> Batch.b_files b))
            <$> r.2 !! "b1")
      <$> Batch.extract_batch Scenario.shadow_env Sample.uploaded_registry "b1"
    = Some (Some (st_extracted,
                  [("a.txt", "a.txt", "unknown", true, None);
                   ("a.txt", "docs/a.txt", "text", false,
                    Some "/tmp/archive_extract_x/a.txt")]))
  ∧ (λ r, (λ x, x.2) <$> (Batch.convert_batch r.2 History.Missing "b1" []
                            "2025-11-11T18:06:47").2)
      <$> Batch.extract_batch Scenario.shadow_env Sample.uploaded_registry "b1"
    = Some (Some [Batch.SelDict (Some "a.txt") (Some "/tmp/archive_extract_x/a.txt")
                    None])
  ∧ (λ w, (Batch.b_status (Batch.batch w),
           Batch.b_conversion_progress (Batch.batch w),
           (λ f, (original_path f, format f, conversion_status f, conversion_error f))
             <$> Batch.b_files (Batch.batch w),
           Batch.calls w, Batch.downloads w))
      <$> (Batch.extract_batch Scenario.shadow_env Sample.uploaded_registry "b1"
           ≫= λ r, Batch.run_conversion Sample.converters Sample.io r.2 History.Missing
                     "b1" [] "2025-11-11T18:06:47")
    = Some (st_completed,
            Some {| Batch.total := 1; Batch.completed := 0; Batch.failed := 1;
                    Batch.processing := 0 |},
            [("a.txt", "unknown", Some cs_failed, Some "不支持的文件格式: unknown");
             ("docs/a.txt", "text", None, None)],
            [], []).
Proof.
  split; [reflexivity|]. split; [vm_compute; reflexivity|].
  split; vm_compute; reflexivity.
Qed.

(** * Further properties *)

(** ** The worker, member by member *)

Lemma find_file_first (name : string) (l : list FileInfo) (gi : nat) (f : FileInfo) :
  Batch.find_file name l = Some (gi, f) →
  l !! gi = Some f ∧ filename f = name
  ∧ ∀ j g, l !! j = Some g → (j < gi)%nat → filename g ≠ name.
Proof. intros H. apply list_find_Some in H. exact H. Qed.

Lemma find_file_alter (name : string) (l : list FileInfo) (gi : nat) (f : FileInfo)
    (u : Batch.FileUpdate) :
  Batch.find_file name l = Some (gi, f) →
  Batch.find_file name (alter (Batch.update_member u) gi l)
  = Some (gi, Batch.update_member u f).
Proof.
  intros H. apply find_file_first in H as (Hl & Hn & Hlt).
  apply list_find_Some. split; [|split].
  - rewrite list_lookup_alter_eq, Hl. reflexivity.
  - exact Hn.
  - intros j g Hj Hjg. rewrite list_lookup_alter_ne in Hj by lia. eauto.
Qed.

(** X1: a member whose dispatch returns a text and whose output file can be
    written ends [completed]: progress 100, the output path and download
    link recorded, the text written under [<stem>_<uuid8>.md] in the
    download folder, the call recorded, a history record added at the
    front, [completed] one more and the other counters as before; no other
    member changes. *)
Theorem member_converted (cv : Dispatch.Converters) (io : Batch.MemberIo)
    (name : string) (path err : option string) (w : Batch.World) (gi : nat)
    (global_file : FileInfo) (p : Batch.Progress)
    (caps : list Dispatch.Capability) (content : string) :
  Py.truthy path = true → Py.truthy err = false →
  Batch.find_file name (Batch.b_files (Batch.batch w)) = Some (gi, global_file) →
  Batch.supported (format global_file) = true →
  Batch.b_conversion_progress (Batch.batch w) = Some p →
  Dispatch.convert_file_content cv (extracted_path global_file) (format global_file)
  = (caps, Ok content) →
  Batch.write_error io = None →
  ∃ w' f' p',
    Batch.iteration cv io (Batch.SelDict (Some name) path err) w = (w', Ok tt)
    ∧ Batch.b_files (Batch.batch w') !! gi = Some f'
    ∧ conversion_status f' = Some cs_completed
    ∧ conversion_progress f' = Some 100%Z
    ∧ conversion_error f' = conversion_error global_file
    ∧ md_file_path f' = Some (Output.output_path io name)
    ∧ download_url f' = Some (Output.download_url_of io name)
    ∧ converted_at f' = Some (Batch.converted_now io)
    ∧ Output.extraction_part f' = Output.extraction_part global_file
    ∧ (∀ j, j ≠ gi →
         Batch.b_files (Batch.batch w') !! j = Batch.b_files (Batch.batch w) !! j)
    ∧ Batch.downloads w' = (Output.output_path io name, content) :: Batch.downloads w
    ∧ Batch.calls w'
      = Batch.calls w ++ [(extracted_path global_file, format global_file, caps)]
    ∧ Batch.history w'
      = (History.add_to_history (Batch.hist_uuid io) (Batch.hist_now io)
           (Batch.hist_save io) name (format global_file) (Batch.out_size io)
           (Output.output_path io name) (Output.download_url_of io name)
           (Batch.history w)).2
    ∧ Batch.b_conversion_progress (Batch.batch w') = Some p'
    ∧ Batch.total p' = Batch.total p
    ∧ Batch.completed p' = (Batch.completed p + 1)%Z
    ∧ Batch.failed p' = Batch.failed p
    ∧ Batch.processing p' = Batch.processing p
    ∧ head (Batch.saved w') = Some (Batch.batch w').
Proof.
  intros Hpath Herr Hfind Hsup Hp Hdisp Hwrite.
  destruct (find_file_first _ _ _ _ Hfind) as (Hgi & Hname & _).
  unfold Batch.iteration, Batch.try_except. cbn [Batch.try_block].
  rewrite Hpath, Herr. cbn [negb orb].
  destruct (Batch.find_file name (Batch.b_files (Batch.batch w))) as [[gi' gf']|];
    [|discriminate Hfind].
  injection Hfind as -> ->.
  unfold Batch.convert_member. rewrite Hsup. cbn [negb].
  unfold mbind, Batch.worker_bind, Batch.assign, Batch.count, Batch.mutate,
    Batch.save_batch_status, Batch.dispatch, Batch.write_output, Batch.record_history.
  cbn. rewrite Hp. cbn. rewrite Hdisp. cbn. rewrite Hwrite. cbn.
  eexists _, _, _. split; [reflexivity|]. cbn.
  rewrite !list_lookup_alter_eq, Hgi. cbn.
  subst name.
  split; [reflexivity|]. split; [reflexivity|]. split; [reflexivity|].
  split; [reflexivity|]. split; [reflexivity|]. split; [reflexivity|].
  split; [reflexivity|]. split; [reflexivity|].
  split. { intros j Hj. rewrite !list_lookup_alter_ne by auto. reflexivity. }
  split; [reflexivity|]. split; [reflexivity|].
  split; [reflexivity|].
  split; [reflexivity|]. cbn.
  split; [reflexivity|]. split; [reflexivity|]. split; [reflexivity|].
  split; [lia|reflexivity].
Qed.

(** X2: when the dispatch raises for a member, or its output file cannot
    be written, the iteration does not raise: the member ends [failed]
    with the message of the exception, [failed] is one more, [processing]
    is back where it was and nothing is added to the history.  The
    download folder is as it was when the dispatch raised or the output
    file could not be opened; when the file was opened and writing it
    raised, the file stays in the folder with what was written of it,
    and no record names it. *)
Theorem member_failed (cv : Dispatch.Converters) (io : Batch.MemberIo)
    (name : string) (path err : option string) (w : Batch.World) (gi : nat)
    (global_file : FileInfo) (p : Batch.Progress) (e : string) :
  Py.truthy path = true → Py.truthy err = false →
  Batch.find_file name (Batch.b_files (Batch.batch w)) = Some (gi, global_file) →
  Batch.supported (format global_file) = true →
  Batch.b_conversion_progress (Batch.batch w) = Some p →
  (Dispatch.convert_file_content cv (extracted_path global_file) (format global_file)).2
  = Raised e
  ∨ ((∃ content,
        (Dispatch.convert_file_content cv (extracted_path global_file)
           (format global_file)).2 = Ok content)
     ∧ Batch.write_error io = Some e) →
  ∃ w' f' p',
    Batch.iteration cv io (Batch.SelDict (Some name) path err) w = (w', Ok tt)
    ∧ Batch.b_files (Batch.batch w') !! gi = Some f'
    ∧ conversion_status f' = Some cs_failed
    ∧ conversion_error f' = Some e
    ∧ conversion_progress f' = Some 0%Z
    ∧ md_file_path f' = md_file_path global_file
    ∧ download_url f' = download_url global_file
    ∧ Output.extraction_part f' = Output.extraction_part global_file
    ∧ (∀ j, j ≠ gi →
         Batch.b_files (Batch.batch w') !! j = Batch.b_files (Batch.batch w) !! j)
    ∧ Batch.downloads w'
      = match (Dispatch.convert_file_content cv (extracted_path global_file)
                 (format global_file)).2, Batch.write_partial io with
        | Ok _, Some part =>
            (Output.output_path io (filename global_file), part) :: Batch.downloads w
        | _, _ => Batch.downloads w
        end
    ∧ Batch.history w' = Batch.history w
    ∧ Batch.calls w'
      = Batch.calls w
        ++ [(extracted_path global_file, format global_file,
             (Dispatch.convert_file_content cv (extracted_path global_file)
                (format global_file)).1)]
    ∧ Batch.b_conversion_progress (Batch.batch w') = Some p'
    ∧ Batch.total p' = Batch.total p
    ∧ Batch.completed p' = Batch.completed p
    ∧ Batch.failed p' = (Batch.failed p + 1)%Z
    ∧ Batch.processing p' = Batch.processing p
    ∧ head (Batch.saved w') = Some (Batch.batch w').
Proof.
  intros Hpath Herr Hfind Hsup Hp Hfail.
  destruct (find_file_first _ _ _ _ Hfind) as (Hgi & Hname & _).
  pose proof (find_file_alter _ _ _ _ (Batch.SetProgress 0)
                (find_file_alter _ _ _ _ (Batch.SetStatus cs_processing) Hfind))
    as Hfind2.
  unfold Batch.iteration, Batch.try_except. cbn [Batch.try_block].
  rewrite Hpath, Herr. cbn [negb orb].
  destruct (Batch.find_file name (Batch.b_files (Batch.batch w))) as [[gi' gf']|];
    [|discriminate Hfind].
  injection Hfind as -> ->. unfold Batch.find_file in Hfind2.
  unfold Batch.convert_member. rewrite Hsup. cbn [negb].
  unfold mbind, Batch.worker_bind, Batch.assign, Batch.count, Batch.mutate,
    Batch.save_batch_status, Batch.dispatch, Batch.write_output.
  cbn. rewrite Hp. cbn.
  destruct (Dispatch.convert_file_content cv (extracted_path global_file)
              (format global_file)) as [caps r].
  cbn [fst snd] in *.
  unfold Output.output_path, Output.output_filename.
  destruct Hfail as [->|[[content ->] Hw]]; cbn; rewrite ?Hw; cbn;
    [|destruct (Batch.write_partial io) as [part|]; cbn];
    unfold Batch.except_block; cbn; rewrite Hfind2; cbn;
    unfold Batch.mark_failed, mbind, Batch.worker_bind, Batch.assign, Batch.count,
      Batch.mutate, Batch.save_batch_status; cbn;
    (eexists _, _, _; split; [reflexivity|]); cbn;
    rewrite !list_lookup_alter_eq, Hgi; cbn;
    (split; [reflexivity|]); (split; [reflexivity|]); (split; [reflexivity|]);
    (split; [reflexivity|]); (split; [reflexivity|]); (split; [reflexivity|]);
    (split; [reflexivity|]);
    (split; [intros j Hj; rewrite !list_lookup_alter_ne by auto; reflexivity|]);
    (split; [reflexivity|]); (split; [reflexivity|]); (split; [reflexivity|]);
    (split; [reflexivity|]); cbn;
    (split; [reflexivity|]); (split; [reflexivity|]); (split; [reflexivity|]);
    (split; [lia|reflexivity]).
Qed.

(** ** The worker, over a whole selection *)



Section Pending.
Import Batch WorkerSpec.
Variables (n : Z) (names : list string).


End Pending.


Lemma worker_loop_app (cv : Dispatch.Converters) (io : nat → Batch.MemberIo)
    (pre rest : list Batch.Selected) :
  ∀ i w,
    Batch.worker_loop cv io i (pre ++ rest) w
    = match Batch.worker_loop cv io i pre w with
      | (w1, Ok _) => Batch.worker_loop cv io (i + length pre) rest w1
      | (w1, Raised e) => (w1, Raised e)
      end.
Proof.
  induction pre as [|s pre IH]; intros i w.
  - cbn. now rewrite Nat.add_0_r.
  - cbn [app Batch.worker_loop length]. unfold mbind, Batch.worker_bind.
    destruct (Batch.iteration cv (io i) s w) as [w1 [[]|e]]; [|reflexivity].
    rewrite IH. now rewrite Nat.add_succ_r.
Qed.

(** X4: a selected element that is not a JSON object ends the thread: the
    elements before it were worked on, the batch is set to
    [conversion_failed] with the message of the AttributeError, and the
    elements after it are never looked at. *)
Theorem non_object_element_aborts (cv : Dispatch.Converters)
    (io : nat → Batch.MemberIo) (pre post : list Batch.Selected) (type_name : string)
    (w w1 : Batch.World) :
  Batch.worker_loop cv io 0 pre w = (w1, Ok tt) →
  ∃ w',
    Batch.async_convert cv io (pre ++ Batch.SelOther type_name :: post) w = (w', Ok tt)
    ∧ Batch.batch w'
      = Batch.set_error ("'" +:+ type_name +:+ "' object has no attribute 'get'")
          (Batch.set_status st_conversion_failed (Batch.batch w1))
    ∧ Batch.b_status (Batch.batch w') = st_conversion_failed
    ∧ Batch.b_files (Batch.batch w') = Batch.b_files (Batch.batch w1)
    ∧ Batch.b_conversion_progress (Batch.batch w')
      = Batch.b_conversion_progress (Batch.batch w1)
    ∧ Batch.calls w' = Batch.calls w1
    ∧ Batch.downloads w' = Batch.downloads w1
    ∧ Batch.history w' = Batch.history w1
    ∧ head (Batch.saved w') = Some (Batch.batch w').
Proof.
  intros Hpre.
  unfold Batch.async_convert, Batch.try_except, Batch.convert_batch_files.
  unfold mbind at 1. unfold Batch.worker_bind at 1.
  rewrite worker_loop_app, Hpre. cbn.
  eexists. split; [reflexivity|]. cbn. auto 10.
Qed.

(** After the sample member, a string among the selected elements. *)
Lemma non_object_element_aborts_witness :
  ∃ w1 w',
    Batch.worker_loop Sample.converters Sample.io 0 Sample.selected
      Sample.unsupported_world = (w1, Ok tt)
    ∧ Batch.async_convert Sample.converters Sample.io
        (Sample.selected ++ Batch.SelOther "str" :: Sample.selected)
        Sample.unsupported_world = (w', Ok tt)
    ∧ Batch.b_status (Batch.batch w') = st_conversion_failed
    ∧ Batch.b_error (Batch.batch w') = Some "'str' object has no attribute 'get'".
Proof.
  eexists. 
  assert (H : Batch.worker_loop Sample.converters Sample.io 0 Sample.selected
                Sample.unsupported_world
              = ((Batch.worker_loop Sample.converters Sample.io 0 Sample.selected
                    Sample.unsupported_world).1, Ok tt)) by (vm_compute; reflexivity).
  destruct (non_object_element_aborts Sample.converters Sample.io Sample.selected
              Sample.selected "str" Sample.unsupported_world _ H)
    as (w' & Hrun & Hb & Hst & _).
  exists w'. split; [exact H|]. split; [exact Hrun|]. split; [exact Hst|].
  rewrite Hb. reflexivity.
Defined.

(** ** The worker: what it leaves alone *)

Section BatchInvariant.
Import Batch WorkerSpec.
Variables (I : BatchStatus → Prop) (ok : nat → Prop).
Hypothesis I_assign :
  ∀ gi u b, ok gi → I b → I (set_files (alter (update_member u) gi (b_files b)) b).
Hypothesis I_find :
  ∀ name b gi gf, I b → find_file name (b_files b) = Some (gi, gf) → ok gi.
Hypothesis I_progress : ∀ p b, I b → I (set_progress p b).
Hypothesis I_status :
  ∀ s b, s = st_completed ∨ s = st_conversion_failed → I b → I (set_status s b).
Hypothesis I_error : ∀ e b, I b → I (set_error e b).

Local Abbreviation kept := (Output.kept I).

Lemma kept_mutate g (E : World → Prop) :
  (∀ b, I b → I (g b)) → hoare kept (mutate g) (λ _, kept) E.
Proof.
  intros Hg w (Hb & Hseen & Hsaved). unfold Output.kept, mutate. cbn.
  split; [auto|]. split; [constructor; auto|exact Hsaved].
Qed.

Lemma kept_assign gi u (E : World → Prop) :
  ok gi → hoare kept (assign gi u) (λ _, kept) E.
Proof. intros Hok. apply kept_mutate. intros b. apply I_assign, Hok. Qed.

Lemma kept_save (E : World → Prop) : hoare kept save_batch_status (λ _, kept) E.
Proof.
  intros w (Hb & Hseen & Hsaved). unfold Output.kept, save_batch_status. cbn.
  split; [auto|]. split; [exact Hseen|constructor; auto].
Qed.

Lemma kept_count c d : hoare kept (count c d) (λ _, kept) kept.
Proof.
  intros w H. unfold count.
  destruct (b_conversion_progress (batch w)) as [p|]; [|exact H].
  apply (kept_mutate _ kept); [|exact H]. intros b. apply I_progress.
Qed.

Lemma kept_quiet {A : Type} (m : Worker A) :
  quiet m → hoare kept m (λ _, kept) kept.
Proof.
  intros Hq w H. destruct (Hq w) as (E1 & E2 & E3).
  destruct (m w) as [w' [x|msg]]; cbn in *; unfold Output.kept; rewrite E1, E2, E3; exact H.
Qed.

Ltac kept_step Hok :=
  first
    [ apply kept_assign; exact Hok
    | apply kept_save
    | apply kept_count
    | apply kept_quiet;
      first [apply quiet_dispatch | apply quiet_write_output | apply quiet_record_history] ].

Ltac kept_seq Hok := eapply hoare_bind; [kept_step Hok|intros ?].

Lemma kept_mark_failed gi msg :
  ok gi → hoare kept (mark_failed gi msg) (λ _, kept) kept.
Proof. intros Hok. unfold mark_failed. do 4 kept_seq Hok. kept_step Hok. Qed.

Lemma kept_convert_member cv io gi global_file :
  ok gi → hoare kept (convert_member cv io gi global_file) (λ _, kept) kept.
Proof.
  intros Hok. unfold convert_member. do 5 kept_seq Hok.
  destruct (negb (supported (format global_file))).
  - apply kept_mark_failed, Hok.
  - do 10 kept_seq Hok. kept_step Hok.
Qed.

Lemma kept_iteration cv io file_info :
  hoare kept (iteration cv io file_info) (λ _, kept) kept.
Proof.
  unfold iteration. apply (hoare_try _ _ _ _ kept).
  - destruct file_info as [[name|] path err|type_name]; cbn [try_block];
      try (intros w H; exact H).
    destruct (negb (Py.truthy path) || Py.truthy err); [intros w H; exact H|].
    intros w H. cbn beta.
    destruct (find_file name (b_files (batch w))) as [[gi gf]|] eqn:Hf; [|exact H].
    apply kept_convert_member; [|exact H]. eapply I_find; [apply H|exact Hf].
  - intros e. destruct file_info as [name path err|type_name]; cbn [except_block];
      [|intros w H; exact H].
    intros w H. cbn beta.
    destruct (find_file (default "" name) (b_files (batch w))) as [[gi gf]|] eqn:Hf;
      [|exact H].
    apply kept_mark_failed; [|exact H]. eapply I_find; [apply H|exact Hf].
Qed.

Lemma kept_worker_loop cv io files :
  ∀ i, hoare kept (worker_loop cv io i files) (λ _, kept) kept.
Proof.
  induction files as [|file_info rest IH]; intros i; cbn [worker_loop].
  - intros w H. exact H.
  - eapply hoare_bind; [apply kept_iteration|intros ?; apply IH].
Qed.

Lemma kept_async_convert cv io files w :
  kept w → kept (async_convert cv io files w).1.
Proof.
  intros H.
  assert (Ht : hoare kept (async_convert cv io files) (λ _, kept) kept).
  { unfold async_convert, convert_batch_files. apply (hoare_try _ _ _ _ kept).
    - eapply hoare_bind; [apply kept_worker_loop|intros ?].
      eapply hoare_bind; [apply kept_mutate; intros b; apply I_status; auto|intros ?].
      apply kept_save.
    - intros e.
      eapply hoare_bind; [apply kept_mutate; intros b; apply I_status; auto|intros ?].
      eapply hoare_bind; [apply kept_mutate; intros b; apply I_error|intros ?].
      apply kept_save. }
  specialize (Ht w H). destruct (async_convert cv io files w) as [w' [x|e]]; exact Ht.
Qed.

End BatchInvariant.

Lemma convert_batch_kept (I : Batch.BatchStatus → Prop)
    (reg : gmap string Batch.BatchStatus) (hist : History.HistoryFile)
    (batch_id : string) (b : Batch.BatchStatus) (data_files : list Batch.Selected)
    (now : string) :
  (∀ s b, I b → I (Batch.set_status s b)) →
  (∀ t b, I b → I (Batch.set_converted_at t b)) →
  (∀ p b, I b → I (Batch.set_progress p b)) →
  reg !! batch_id = Some b → Batch.b_status b = st_extracted → I b →
  ∃ w0,
    (Batch.convert_batch reg hist batch_id data_files now).2
    = Some (w0, Batch.selection b data_files)
    ∧ Output.kept I w0.
Proof.
  intros Hs Ht Hp Hb Hst HI. unfold Batch.convert_batch, Batch.get_batch_status.
  rewrite Hb, Hst. eexists. split; [reflexivity|].
  unfold Output.kept, mbind, Batch.worker_bind, Batch.mutate, Batch.save_batch_status.
  cbn. split; [auto|]. split.
  - constructor; [auto|]. constructor; [auto|]. constructor; [auto|constructor].
  - constructor; [auto|constructor].
Qed.

Lemma extraction_part_alter (u : Batch.FileUpdate) (gi : nat) (l : list FileInfo) :
  Output.extraction_part <$> alter (Batch.update_member u) gi l
  = Output.extraction_part <$> l.
Proof.
  rewrite (list_fmap_alter Output.extraction_part (Batch.update_member u) id)
    by (apply Forall_forall; reflexivity).
  apply list_alter_id. reflexivity.
Qed.

(** X5: a conversion leaves what upload and extraction wrote alone: in
    the final state, in every state the worker saves and in every state
    it passes through, the batch has the id, archive, password,
    extraction counts, scratch directory and timestamps it had, and its
    members are the same in number and order, each with the name, paths,
    size, format and extraction error it had. *)
Theorem conversion_keeps_extraction (cv : Dispatch.Converters)
    (io : nat → Batch.MemberIo) (reg : gmap string Batch.BatchStatus)
    (hist : History.HistoryFile) (batch_id : string) (b : Batch.BatchStatus)
    (data_files : list Batch.Selected) (now : string) :
  reg !! batch_id = Some b →
  Batch.b_status b = st_extracted →
  ∃ w,
    Batch.run_conversion cv io reg hist batch_id data_files now = Some w
    ∧ ∀ s, s = Batch.batch w ∨ s ∈ Batch.status_reads w ∨ s ∈ Batch.saved w →
        Output.extraction_view s = Output.extraction_view b
        ∧ length (Batch.b_files s) = length (Batch.b_files b).
Proof.
  intros Hb Hst.
  set (I := λ s : Batch.BatchStatus,
              Output.extraction_view s = Output.extraction_view b).
  destruct (convert_batch_kept I reg hist batch_id b data_files now)
    as (w0 & Hstart & Hk0); auto; try reflexivity.
  unfold Batch.run_conversion. rewrite Hstart. eexists. split; [reflexivity|].
  assert (Hk : Output.kept I
                 (Batch.async_convert cv io (Batch.selection b data_files) w0).1).
  { apply (kept_async_convert I (λ _, True)); auto.
    intros gi u s _ Hs. unfold I, Output.extraction_view in *. cbn.
    rewrite extraction_part_alter. exact Hs. }
  destruct Hk as (Hcur & Hse & Hsa). rewrite Forall_forall in Hse, Hsa.
  intros s Hs.
  assert (HI : I s) by (destruct Hs as [->|[H|H]]; auto).
  split; [exact HI|].
  unfold I, Output.extraction_view in HI.
  apply (f_equal snd) in HI. cbn in HI.
  apply (f_equal length) in HI. now rewrite !length_fmap in HI.
Qed.

(** X6: the worker looks a member up by its name and takes the first one:
    a member that stands behind another member of the same name is never
    assigned to, in any state of the conversion, whatever is selected. *)
Theorem shadowed_member_never_updated (cv : Dispatch.Converters)
    (io : nat → Batch.MemberIo) (reg : gmap string Batch.BatchStatus)
    (hist : History.HistoryFile) (batch_id : string) (b : Batch.BatchStatus)
    (data_files : list Batch.Selected) (now : string)
    (i j : nat) (fi fj : FileInfo) :
  reg !! batch_id = Some b →
  Batch.b_status b = st_extracted →
  (i < j)%nat →
  Batch.b_files b !! i = Some fi →
  Batch.b_files b !! j = Some fj →
  filename fi = filename fj →
  ∃ w,
    Batch.run_conversion cv io reg hist batch_id data_files now = Some w
    ∧ ∀ s, s = Batch.batch w ∨ s ∈ Batch.status_reads w ∨ s ∈ Batch.saved w →
        Batch.b_files s !! j = Some fj.
Proof.
  intros Hb Hst Hij Hi Hj Hn.
  set (I := λ s : Batch.BatchStatus,
              (∃ fi', Batch.b_files s !! i = Some fi' ∧ filename fi' = filename fj)
              ∧ Batch.b_files s !! j = Some fj).
  destruct (convert_batch_kept I reg hist batch_id b data_files now)
    as (w0 & Hstart & Hk0); auto.
  { split; eauto. }
  unfold Batch.run_conversion. rewrite Hstart. eexists. split; [reflexivity|].
  assert (Hk : Output.kept I
                 (Batch.async_convert cv io (Batch.selection b data_files) w0).1).
  { apply (kept_async_convert I (λ gi, gi ≠ j)); auto.
    - intros gi u s Hgi [(fi' & Hfi & Hnm) Hfj]. split.
      + cbn. destruct (decide (gi = i)) as [->|Hne].
        * rewrite list_lookup_alter_eq, Hfi. cbn. eexists. split; [reflexivity|exact Hnm].
        * rewrite list_lookup_alter_ne by exact Hne. eauto.
      + cbn. rewrite list_lookup_alter_ne by exact Hgi. exact Hfj.
    - intros name s gi gf [(fi' & Hfi & Hnm) Hfj] Hfind ->.
      apply find_file_first in Hfind as (Hl & Hname & Hfirst).
      rewrite Hfj in Hl. injection Hl as <-.
      apply (Hfirst i fi' Hfi Hij). congruence. }
  destruct Hk as (Hcur & Hse & Hsa). rewrite Forall_forall in Hse, Hsa.
  intros s Hs.
  assert (HI : I s) by (destruct Hs as [->|[H|H]]; auto).
  apply HI.
Qed.

(** ** The worker: dispatch calls and output files *)

Section CallsAll.
Import Batch WorkerSpec.
Variables (cv : Dispatch.Converters)
  (Q : option string * string * list Dispatch.Capability → Prop).
Hypothesis Q_dispatch :
  ∀ file_path file_format,
    supported file_format = true →
    Q (file_path, file_format,
       (Dispatch.convert_file_content cv file_path file_format).1).

Local Abbreviation calls_all := (λ w : World, Forall Q (calls w)).

Lemma calls_all_silent {A : Type} (m : Worker A) :
  silent m → hoare calls_all m (λ _, calls_all) calls_all.
Proof.
  intros Hs w H. specialize (Hs w).
  destruct (m w) as [w' [x|e]]; cbn in *; rewrite Hs; exact H.
Qed.

Lemma calls_all_dispatch file_path file_format :
  supported file_format = true →
  hoare calls_all (dispatch cv file_path file_format) (λ _, calls_all) calls_all.
Proof.
  intros Hs w H. unfold dispatch.
  pose proof (Q_dispatch file_path file_format Hs) as HQ.
  destruct (Dispatch.convert_file_content cv file_path file_format) as [caps [c|e]];
    cbn in *; apply Forall_app; (split; [exact H|]); constructor; auto.
Qed.

Lemma silent_mutate g : silent (mutate g).
Proof. intros w. reflexivity. Qed.

Ltac calls_all_step :=
  apply calls_all_silent;
  first [ apply silent_assign | apply silent_save | apply silent_count
        | apply silent_write_output | apply silent_record_history ].

Ltac calls_all_seq := eapply hoare_bind; [calls_all_step|intros ?].

Lemma calls_all_mark_failed gi msg :
  hoare calls_all (mark_failed gi msg) (λ _, calls_all) calls_all.
Proof. unfold mark_failed. do 4 calls_all_seq. calls_all_step. Qed.

Lemma calls_all_convert_member io gi global_file :
  hoare calls_all (convert_member cv io gi global_file) (λ _, calls_all) calls_all.
Proof.
  unfold convert_member. do 5 calls_all_seq.
  destruct (supported (format global_file)) eqn:Hs; cbn [negb].
  - eapply hoare_bind; [apply calls_all_dispatch, Hs|intros ?].
    do 9 calls_all_seq. calls_all_step.
  - apply calls_all_mark_failed.
Qed.

Lemma calls_all_iteration io file_info :
  hoare calls_all (iteration cv io file_info) (λ _, calls_all) calls_all.
Proof.
  unfold iteration. apply (hoare_try _ _ _ _ calls_all).
  - destruct file_info as [[name|] path err|type_name]; cbn [try_block];
      try (intros w H; exact H).
    destruct (negb (Py.truthy path) || Py.truthy err); [intros w H; exact H|].
    intros w H. cbn beta.
    destruct (find_file name (b_files (batch w))) as [[gi gf]|]; [|exact H].
    apply calls_all_convert_member, H.
  - intros e. destruct file_info as [name path err|type_name]; cbn [except_block];
      [|intros w H; exact H].
    intros w H. cbn beta.
    destruct (find_file (default "" name) (b_files (batch w))) as [[gi gf]|];
      [|exact H].
    apply calls_all_mark_failed, H.
Qed.

Lemma calls_all_worker_loop io files :
  ∀ i, hoare calls_all (worker_loop cv io i files) (λ _, calls_all) calls_all.
Proof.
  induction files as [|file_info rest IH]; intros i; cbn [worker_loop].
  - intros w H. exact H.
  - eapply hoare_bind; [apply calls_all_iteration|intros ?; apply IH].
Qed.

Lemma calls_all_async_convert io files w :
  calls_all w → calls_all (async_convert cv io files w).1.
Proof.
  intros H.
  assert (Ht : hoare calls_all (async_convert cv io files) (λ _, calls_all) calls_all).
  { unfold async_convert, convert_batch_files. apply (hoare_try _ _ _ _ calls_all).
    - eapply hoare_bind; [apply calls_all_worker_loop|intros ?].
      eapply hoare_bind; [apply calls_all_silent, silent_mutate|intros ?].
      apply calls_all_silent, silent_save.
    - intros e.
      eapply hoare_bind; [apply calls_all_silent, silent_mutate|intros ?].
      eapply hoare_bind; [apply calls_all_silent, silent_mutate|intros ?].
      apply calls_all_silent, silent_save. }
  specialize (Ht w H). destruct (async_convert cv io files w) as [w' [x|e]]; exact Ht.
Qed.

End CallsAll.

(** X7: in a conversion every call of the dispatch is for a member format
    that is a key of [SUPPORTED_FORMATS], and the capabilities recorded
    for the call are those the dispatch attempts for that path and
    format. *)
Theorem conversion_dispatches_supported_only (cv : Dispatch.Converters)
    (io : nat → Batch.MemberIo) (reg : gmap string Batch.BatchStatus)
    (hist : History.HistoryFile) (batch_id : string) (b : Batch.BatchStatus)
    (data_files : list Batch.Selected) (now : string) :
  reg !! batch_id = Some b →
  Batch.b_status b = st_extracted →
  ∃ w,
    Batch.run_conversion cv io reg hist batch_id data_files now = Some w
    ∧ ∀ file_path file_format caps,
        (file_path, file_format, caps) ∈ Batch.calls w →
        Batch.supported file_format = true
        ∧ is_Some (Batch.SUPPORTED_FORMATS !! file_format)
        ∧ caps = (Dispatch.convert_file_content cv file_path file_format).1.
Proof.
  intros Hb Hst.
  unfold Batch.run_conversion, Batch.convert_batch, Batch.get_batch_status.
  rewrite Hb, Hst. cbn [snd negb].
  match goal with
  | |- context [Batch.async_convert cv io ?fs ?w] => set (w0 := w)
  end.
  assert (Hc0 : Batch.calls w0 = []) by reflexivity.
  eexists. split; [reflexivity|].
  set (Q := λ c : option string * string * list Dispatch.Capability,
              Batch.supported c.1.2 = true
              ∧ c.2 = (Dispatch.convert_file_content cv c.1.1 c.1.2).1).
  assert (H : Forall Q (Batch.calls
                (Batch.async_convert cv io (Batch.selection b data_files) w0).1)).
  { apply (calls_all_async_convert cv Q).
    - intros file_path file_format Hs. split; [exact Hs|reflexivity].
    - rewrite Hc0. constructor. }
  rewrite Forall_forall in H. intros file_path file_format caps Hin.
  destruct (H _ Hin) as [Hs Hcaps]. cbn in Hs, Hcaps.
  split; [exact Hs|]. split; [|exact Hcaps].
  unfold Batch.supported in Hs. now apply bool_decide_eq_true in Hs.
Qed.

(** ** Runs of the sample batch *)

(** The sample member is converted. *)
Lemma member_converted_witness :
  ∃ w' f',
    Batch.iteration Sample.converters (Sample.io 0)
      (Batch.SelDict (Some "a.pdf") (Some "/tmp/archive_extract_x/a.pdf") None)
      Scenario.started = (w', Ok tt)
    ∧ Batch.b_files (Batch.batch w') !! 0%nat = Some f'
    ∧ conversion_status f' = Some cs_completed
    ∧ md_file_path f' = Some "downloads/a_1b2c3d4e.md"
    ∧ Batch.downloads w' = [("downloads/a_1b2c3d4e.md", "# a")].
Proof.
  assert (H1 : Py.truthy (Some "/tmp/archive_extract_x/a.pdf") = true) by reflexivity.
  assert (H2 : Py.truthy (None : option string) = false) by reflexivity.
  assert (H3 : Batch.find_file "a.pdf" (Batch.b_files (Batch.batch Scenario.started))
               = Some (0%nat, Sample.member)) by reflexivity.
  assert (H4 : Batch.supported (format Sample.member) = true)
    by (vm_compute; reflexivity).
  assert (H5 : Batch.b_conversion_progress (Batch.batch Scenario.started)
               = Some {| Batch.total := 1; Batch.completed := 0; Batch.failed := 0;
                         Batch.processing := 0 |}) by reflexivity.
  assert (H6 : Dispatch.convert_file_content Sample.converters
                 (extracted_path Sample.member) (format Sample.member)
               = ([Dispatch.PdfOcr], Ok "# a")) by reflexivity.
  assert (H7 : Batch.write_error (Sample.io 0) = None) by reflexivity.
  destruct (member_converted Sample.converters (Sample.io 0) "a.pdf" _ _
              Scenario.started 0 Sample.member _ _ _ H1 H2 H3 H4 H5 H6 H7)
    as (w' & f' & p' & Hrun & Hf & Hs & _ & _ & Hmd & _ & _ & _ & _ & Hd & _).
  exists w', f'. split; [exact Hrun|]. split; [exact Hf|]. split; [exact Hs|].
  split; [exact Hmd|exact Hd].
Defined.

(** The sample member when the disk is full: the member is [failed] and
    an empty output file is left in the download folder. *)
Lemma member_failed_witness :
  ∃ w' f',
    Batch.iteration Sample.converters Scenario.full_disk
      (Batch.SelDict (Some "a.pdf") (Some "/tmp/archive_extract_x/a.pdf") None)
      Scenario.started = (w', Ok tt)
    ∧ Batch.b_files (Batch.batch w') !! 0%nat = Some f'
    ∧ conversion_status f' = Some cs_failed
    ∧ conversion_error f' = Some "[Errno 28] No space left on device"
    ∧ md_file_path f' = None
    ∧ Batch.downloads w' = [("downloads/a_1b2c3d4e.md", "")]
    ∧ Batch.history w' = History.Missing.
Proof.
  assert (H1 : Py.truthy (Some "/tmp/archive_extract_x/a.pdf") = true) by reflexivity.
  assert (H2 : Py.truthy (None : option string) = false) by reflexivity.
  assert (H3 : Batch.find_file "a.pdf" (Batch.b_files (Batch.batch Scenario.started))
               = Some (0%nat, Sample.member)) by reflexivity.
  assert (H4 : Batch.supported (format Sample.member) = true)
    by (vm_compute; reflexivity).
  assert (H5 : Batch.b_conversion_progress (Batch.batch Scenario.started)
               = Some {| Batch.total := 1; Batch.completed := 0; Batch.failed := 0;
                         Batch.processing := 0 |}) by reflexivity.
  assert (H6 : (Dispatch.convert_file_content Sample.converters
                  (extracted_path Sample.member) (format Sample.member)).2
               = Raised "[Errno 28] No space left on device"
               ∨ ((∃ content,
                     (Dispatch.convert_file_content Sample.converters
                        (extracted_path Sample.member) (format Sample.member)).2
                     = Ok content)
                  ∧ Batch.write_error Scenario.full_disk
                    = Some "[Errno 28] No space left on device")).
  { right. split; [exists "# a"; reflexivity|reflexivity]. }
  destruct (member_failed Sample.converters Scenario.full_disk "a.pdf" _ _
              Scenario.started 0 Sample.member _ _ H1 H2 H3 H4 H5 H6)
    as (w' & f' & p' & Hrun & Hf & Hs & He & _ & Hmd & _ & _ & _ & Hd & Hh & _).
  exists w', f'. split; [exact Hrun|]. split; [exact Hf|]. split; [exact Hs|].
  split; [exact He|]. split; [exact Hmd|]. split; [exact Hd|exact Hh].
Defined.


(** The sample batch keeps its extraction through a conversion. *)
Lemma conversion_keeps_extraction_witness :
  ∃ w,
    Batch.run_conversion Sample.converters Sample.io Sample.registry History.Missing
      "b1" [] "2025-11-11T18:06:47" = Some w
    ∧ Output.extraction_view (Batch.batch w)
      = Output.extraction_view Sample.batch_status.
Proof.
  assert (H1 : Sample.registry !! "b1" = Some Sample.batch_status)
    by (vm_compute; reflexivity).
  assert (H2 : Batch.b_status Sample.batch_status = st_extracted) by reflexivity.
  destruct (conversion_keeps_extraction Sample.converters Sample.io
              Sample.registry History.Missing "b1" Sample.batch_status []
              "2025-11-11T18:06:47" H1 H2) as (w & Hrun & Hall).
  exists w. split; [exact Hrun|]. apply Hall. left. reflexivity.
Defined.

(** The extracted [docs/a.pdf] behind the failed [a.pdf] is selected and
    stays as the extraction left it. *)
Lemma shadowed_member_never_updated_witness :
  ∃ w,
    Batch.run_conversion Sample.converters Sample.io Scenario.shadowed_registry
      History.Missing "b1" [] "2025-11-11T18:06:47" = Some w
    ∧ Batch.selection Scenario.shadowed [] = Sample.selected
    ∧ Batch.b_files (Batch.batch w) !! 1%nat = Some Sample.member
    ∧ conversion_status Sample.member = None.
Proof.
  assert (H1 : Scenario.shadowed_registry !! "b1" = Some Scenario.shadowed)
    by (vm_compute; reflexivity).
  assert (H2 : Batch.b_status Scenario.shadowed = st_extracted) by reflexivity.
  assert (H3 : (0 < 1)%nat) by lia.
  assert (H4 : Batch.b_files Scenario.shadowed !! 0%nat = Some Scenario.failed_member)
    by reflexivity.
  assert (H5 : Batch.b_files Scenario.shadowed !! 1%nat = Some Sample.member)
    by reflexivity.
  assert (H6 : filename Scenario.failed_member = filename Sample.member) by reflexivity.
  destruct (shadowed_member_never_updated Sample.converters Sample.io
              Scenario.shadowed_registry History.Missing "b1" Scenario.shadowed []
              "2025-11-11T18:06:47" 0 1 _ _ H1 H2 H3 H4 H5 H6) as (w & Hrun & Hall).
  exists w. split; [exact Hrun|]. split; [reflexivity|].
  split; [|reflexivity]. apply Hall. left. reflexivity.
Defined.

(** The dispatch calls of the sample batch. *)
Lemma conversion_dispatches_supported_only_witness :
  ∃ w,
    Batch.run_conversion Sample.converters Sample.io Sample.registry History.Missing
      "b1" [] "2025-11-11T18:06:47" = Some w
    ∧ Batch.calls w
      = [(Some "/tmp/archive_extract_x/a.pdf", "pdf", [Dispatch.PdfOcr])].
Proof.
  assert (H1 : Sample.registry !! "b1" = Some Sample.batch_status)
    by (vm_compute; reflexivity).
  assert (H2 : Batch.b_status Sample.batch_status = st_extracted) by reflexivity.
  destruct (conversion_dispatches_supported_only Sample.converters Sample.io
              Sample.registry History.Missing "b1" Sample.batch_status []
              "2025-11-11T18:06:47" H1 H2) as (w & Hrun & _).
  exists w. split; [exact Hrun|].
  vm_compute in Hrun. injection Hrun as <-. reflexivity.
Defined.

(** ** The life cycle of a batch *)

(** X8: once the conversion of a batch is triggered its status is
    [converting], [completed] or [conversion_failed] in every state the
    worker passes through, saves or ends in, and it ends [completed] or
    [conversion_failed]: as long as the registry holds one of these
    states, [convert_batch] and [extract_batch] refuse the batch and
    change nothing. *)
Theorem triggered_batch_is_refused (cv : Dispatch.Converters)
    (io : nat → Batch.MemberIo) (reg : gmap string Batch.BatchStatus)
    (hist : History.HistoryFile) (batch_id : string) (b : Batch.BatchStatus)
    (data_files : list Batch.Selected) (now : string) :
  reg !! batch_id = Some b →
  Batch.b_status b = st_extracted →
  ∃ w,
    Batch.run_conversion cv io reg hist batch_id data_files now = Some w
    ∧ (Batch.b_status (Batch.batch w) = st_completed
       ∨ Batch.b_status (Batch.batch w) = st_conversion_failed)
    ∧ ∀ s, s = Batch.batch w ∨ s ∈ Batch.status_reads w ∨ s ∈ Batch.saved w →
        (Batch.b_status s = st_converting ∨ Batch.b_status s = st_completed
         ∨ Batch.b_status s = st_conversion_failed)
        ∧ ∀ reg' hist' data_files' now' env,
            reg' !! batch_id = Some s →
            Batch.convert_batch reg' hist' batch_id data_files' now'
            = (Batch.ConvertWrongState (Batch.b_status s), None)
            ∧ Batch.extract_batch env reg' batch_id
              = Some (Batch.ExtractWrongState (Batch.b_status s), reg').
Proof.
  intros Hb Hst.
  set (I := λ s : Batch.BatchStatus,
              Batch.b_status s = st_converting ∨ Batch.b_status s = st_completed
              ∨ Batch.b_status s = st_conversion_failed).
  unfold Batch.run_conversion, Batch.convert_batch, Batch.get_batch_status.
  rewrite Hb, Hst. cbn [snd].
  match goal with
  | |- context [Batch.async_convert cv io ?fs ?w] => set (w0 := w)
  end.
  assert (Hk0 : Output.kept I w0).
  { unfold Output.kept, I. cbn. split; [auto|]. split.
    - constructor; [auto|]. constructor; [auto|]. constructor; [auto|constructor].
    - constructor; [auto|constructor]. }
  assert (Hk : Output.kept I
                 (Batch.async_convert cv io (Batch.selection b data_files) w0).1).
  { apply (kept_async_convert I (λ _, True)); auto.
    intros s b0 [->| ->] _; unfold I; cbn; auto. }
  eexists. split; [reflexivity|]. split.
  - unfold Batch.async_convert, Batch.try_except.
    destruct (Batch.convert_batch_files cv io (Batch.selection b data_files) w0)
      as [w1 [[]|e]] eqn:Hrun.
    + left. unfold Batch.convert_batch_files in Hrun.
      unfold mbind, Batch.worker_bind in Hrun.
      destruct (Batch.worker_loop cv io 0 (Batch.selection b data_files) w0)
        as [w2 [[]|e]]; [|discriminate Hrun].
      cbn in Hrun. injection Hrun as <-. reflexivity.
    + right. reflexivity.
  - destruct Hk as (Hcur & Hse & Hsa). rewrite Forall_forall in Hse, Hsa.
    intros s Hs.
    assert (HI : I s) by (destruct Hs as [->|[H|H]]; auto).
    split; [exact HI|].
    intros reg' hist' data_files' now' env Hreg.
    unfold Batch.convert_batch, Batch.extract_batch, Batch.get_batch_status.
    rewrite Hreg. unfold I in HI.
    destruct HI as [E|[E|E]]; rewrite E; split; reflexivity.
Qed.

(** The sample batch cannot be converted twice. *)
Lemma triggered_batch_is_refused_witness :
  ∃ w,
    Batch.run_conversion Sample.converters Sample.io Sample.registry History.Missing
      "b1" [] "2025-11-11T18:06:47" = Some w
    ∧ Batch.convert_batch (<["b1" := Batch.batch w]> Sample.registry) History.Missing
        "b1" [] "2025-11-11T18:07:00"
      = (Batch.ConvertWrongState (Batch.b_status (Batch.batch w)), None).
Proof.
  assert (H1 : Sample.registry !! "b1" = Some Sample.batch_status)
    by (vm_compute; reflexivity).
  assert (H2 : Batch.b_status Sample.batch_status = st_extracted) by reflexivity.
  destruct (triggered_batch_is_refused Sample.converters Sample.io
              Sample.registry History.Missing "b1" Sample.batch_status []
              "2025-11-11T18:06:47" H1 H2) as (w & Hrun & _ & Hall).
  exists w. split; [exact Hrun|].
  destruct (Hall (Batch.batch w) (or_introl eq_refl)) as [_ Hrefused].
  apply (Hrefused _ History.Missing [] "2025-11-11T18:07:00" Sample.extract_env).
  apply lookup_insert_eq.
Defined.

(** X9: [extract_batch] touches no other batch, and runs the extractor
    once for a batch: a request that is answered with a result or with
    the extraction error leaves the batch [extracted] or
    [extract_failed], and every later request for it is refused with
    that status and changes nothing.  A refused or unknown batch leaves
    the registry as it was. *)
Theorem extraction_runs_once (env : Batch.ExtractEnv)
    (reg reg' : gmap string Batch.BatchStatus) (batch_id : string)
    (r : Batch.ExtractResponse) :
  Batch.extract_batch env reg batch_id = Some (r, reg') →
  (∀ other, other ≠ batch_id → reg' !! other = reg !! other)
  ∧ match r with
    | Batch.ExtractNotFound => reg !! batch_id = None ∧ reg' = reg
    | Batch.ExtractWrongState s =>
        s ≠ st_uploaded ∧ reg' = reg
        ∧ ∃ b, reg !! batch_id = Some b ∧ Batch.b_status b = s
    | Batch.ExtractDone total_files extracted_files failed_files files =>
        ∃ b b',
          reg !! batch_id = Some b ∧ Batch.b_status b = st_uploaded
          ∧ reg' !! batch_id = Some b'
          ∧ Batch.b_status b' = st_extracted
          ∧ Batch.b_files b' = files
          ∧ Batch.b_total_files b' = total_files
          ∧ Batch.b_extracted_files b' = extracted_files
          ∧ Batch.b_failed_files b' = failed_files
          ∧ Batch.b_extracted_at b' = Some (Batch.extracted_now env)
          ∧ ∀ env', Batch.extract_batch env' reg' batch_id
                    = Some (Batch.ExtractWrongState st_extracted, reg')
    | Batch.ExtractError message =>
        message = "解压失败: 解压失败"
        ∧ ∃ b b',
            reg !! batch_id = Some b ∧ Batch.b_status b = st_uploaded
            ∧ reg' !! batch_id = Some b'
            ∧ Batch.b_status b' = st_extract_failed
            ∧ Batch.b_error b' = Some "解压失败"
            ∧ Batch.b_files b' = Batch.b_files b
            ∧ ∀ env', Batch.extract_batch env' reg' batch_id
                      = Some (Batch.ExtractWrongState st_extract_failed, reg')
    end.
Proof.
  unfold Batch.extract_batch, Batch.get_batch_status.
  destruct (reg !! batch_id) as [b|] eqn:Hb.
  2: { intros [= <- <-]. split; [reflexivity|]. split; reflexivity. }
  destruct (Batch.b_status b) eqn:Hst;
    try (intros [= <- <-]; split; [reflexivity|]; split; [discriminate|];
         split; [reflexivity|]; exists b; split; [reflexivity|assumption]).
  destruct (Extractor.extract_archive_safe _ _ _ _) as [[t e f fs d|msg]|];
    cbn; [| |discriminate]; intros [= <- <-].
  - split; [intros other Hne; now rewrite lookup_insert_ne|].
    eexists b, _. split; [reflexivity|]. split; [exact Hst|].
    split; [apply lookup_insert_eq|]. cbn.
    do 6 (split; [reflexivity|]).
    intros env'. now rewrite lookup_insert_eq.
  - split; [intros other Hne; now rewrite lookup_insert_ne|].
    split; [reflexivity|].
    eexists b, _. split; [reflexivity|]. split; [exact Hst|].
    split; [apply lookup_insert_eq|]. cbn.
    do 3 (split; [reflexivity|]).
    intros env'. now rewrite lookup_insert_eq.
Qed.

(** The sample archive is extracted once. *)
Lemma extraction_runs_once_witness :
  ∃ total_files extracted_files failed_files files reg',
    Batch.extract_batch Sample.extract_env Sample.uploaded_registry "b1"
    = Some (Batch.ExtractDone total_files extracted_files failed_files files, reg')
    ∧ Batch.extract_batch Sample.extract_env reg' "b1"
      = Some (Batch.ExtractWrongState st_extracted, reg').
Proof.
  destruct (Batch.extract_batch Sample.extract_env Sample.uploaded_registry "b1")
    as [[r reg']|] eqn:Hrun; [|vm_compute in Hrun; discriminate Hrun].
  pose proof (extraction_runs_once Sample.extract_env Sample.uploaded_registry reg'
                "b1" r Hrun) as [_ Hr].
  destruct r as [|s|t e f fs|msg];
    try (vm_compute in Hrun; discriminate Hrun).
  destruct Hr as (b & b' & _ & _ & _ & _ & _ & _ & _ & _ & _ & Hagain).
  exists t, e, f, fs, reg'. split; [reflexivity|apply Hagain].
Defined.

(** ** Upload of an archive *)

Lemma after_last_dot_split (s t : string) :
  Py.after_last_dot s = Some t →
  ∃ stem, s = stem +:+ "." +:+ t ∧ Py.after_last_dot t = None.
Proof.
  revert t. induction s as [|c r IH]; intros t; cbn; [discriminate|].
  destruct (Py.after_last_dot r) as [t'|] eqn:Hr.
  - intros [= <-]. destruct (IH t' eq_refl) as (stem & -> & Hn).
    exists (String c stem). split; [reflexivity|exact Hn].
  - destruct (Py.is_dot c) eqn:Hc; [|discriminate]. intros [= <-].
    exists "". apply Ascii.eqb_eq in Hc. subst c. split; [reflexivity|exact Hr].
Qed.

(** X10: [upload_batch] registers a batch exactly for an upload whose name
    ends in a dot followed by [zip] in any letter case and whose file is
    saved: the batch is [uploaded] under the fresh id, with the name, the
    password of the form ([""] when there is none) and the path
    [uploads/batch_<id>_<name>], and no other entry of the registry
    changes.  When the file cannot be saved the answer is 500 and the
    registry is as it was; when the size of the saved file cannot be
    read the answer is 500 though the batch is registered.  Any other
    upload, a [.rar] among them, is answered 400 and leaves the registry
    as it was. *)
Theorem upload_registers_zip_only (reg : gmap string Batch.BatchStatus)
    (file form_password : option string) (uuid now : string)
    (save_error size_error : option string) :
  (∀ name, file = Some name → Upload.zip_name name →
     Batch.upload_batch reg file form_password uuid now save_error size_error
     = let registered :=
         <[uuid := {| Batch.b_batch_id := uuid;
                      Batch.b_archive_name := name;
                      Batch.b_archive_path :=
                        "uploads/batch_" +:+ uuid +:+ "_" +:+ name;
                      Batch.b_password := default "" form_password;
                      Batch.b_status := st_uploaded;
                      Batch.b_total_files := 0;
                      Batch.b_extracted_files := 0;
                      Batch.b_failed_files := 0;
                      Batch.b_files := [];
                      Batch.b_extracted_at := None;
                      Batch.b_converted_at := None;
                      Batch.b_created_at := now;
                      Batch.b_temp_dir := None;
                      Batch.b_error := None;
                      Batch.b_conversion_progress := None |}]> reg in
       match save_error, size_error with
       | Some _, _ => (Batch.UploadRejected 500, reg)
       | None, Some _ => (Batch.UploadRejected 500, registered)
       | None, None => (Batch.UploadAccepted uuid name, registered)
       end)
  ∧ ((∀ name, file = Some name → ¬ Upload.zip_name name) →
     Batch.upload_batch reg file form_password uuid now save_error size_error
     = (Batch.UploadRejected 400, reg))
  ∧ (∀ stem, ¬ Upload.zip_name (stem +:+ "." +:+ "rar")).
Proof.
  assert (Hiff : ∀ name,
            Batch.is_supported_format name = true ↔ Upload.zip_name name).
  { intros name. unfold Batch.is_supported_format, Upload.zip_name. split.
    - destruct (String.eqb name ""); [discriminate|].
      destruct (Py.after_last_dot name) as [t|] eqn:Ht; [|discriminate].
      intros H. apply String.eqb_eq in H. injection H as H.
      destruct (after_last_dot_split _ _ Ht) as (stem & -> & Hn). eauto.
    - intros (stem & e & -> & Hn & He).
      rewrite (after_last_dot_app stem e Hn), He.
      destruct stem; reflexivity. }
  split; [|split].
  - intros name -> Hz. unfold Batch.upload_batch.
    apply Hiff in Hz. rewrite Hz.
    destruct (String.eqb name "") eqn:Hn.
    { apply String.eqb_eq in Hn. subst name. discriminate Hz. }
    cbn [negb]. destruct save_error, size_error; reflexivity.
  - intros Hno. unfold Batch.upload_batch.
    destruct file as [name|]; [|reflexivity].
    destruct (String.eqb name ""); [reflexivity|].
    destruct (Batch.is_supported_format name) eqn:Hs; [|reflexivity].
    exfalso. apply (Hno name eq_refl), Hiff, Hs.
  - intros stem Hz. apply Hiff in Hz. unfold Batch.is_supported_format in Hz.
    rewrite (after_last_dot_app stem "rar" eq_refl) in Hz.
    destruct stem; discriminate Hz.
Qed.

(** An upload named [dir/docs.zip]: there is no directory
    [uploads/batch_b1_dir], the file is not saved, the answer is 500 and
    nothing is registered. *)
Lemma upload_registers_zip_only_witness :
  Batch.upload_batch ∅ (Some "dir/docs.zip") None "b1" "2025-11-11T18:06:30"
    (Some "[Errno 2] No such file or directory: 'uploads/batch_b1_dir/docs.zip'") None
  = (Batch.UploadRejected 500, ∅).
Proof.
  destruct (upload_registers_zip_only ∅ (Some "dir/docs.zip") None "b1"
              "2025-11-11T18:06:30"
              (Some "[Errno 2] No such file or directory: 'uploads/batch_b1_dir/docs.zip'")
              None) as (H & _ & _).
  apply (H "dir/docs.zip" eq_refl).
  exists "dir/docs", "zip". split; [reflexivity|]. split; reflexivity.
Defined.

(** ** History routes *)

Lemma length_filter_eq {A : Type} (P : A → Prop) `{!∀ x, Decision (P x)}
    (l : list A) :
  length (filter P l) = length l ↔ Forall P l.
Proof.
  induction l as [|x l IH]; [split; [constructor|reflexivity]|].
  rewrite filter_cons. destruct (decide (P x)) as [Hx|Hx]; cbn.
  - rewrite Forall_cons. split.
    + intros [= E]. split; [exact Hx|now apply IH].
    + intros [_ E]. f_equal. now apply IH.
  - split.
    + intros E. pose proof (length_filter P l). lia.
    + intros E. apply Forall_cons in E as [E _]. contradiction.
Qed.

Lemma delete_history_item_found (o : History.SaveOutcome) (history_id : string)
    (file : History.HistoryFile) :
  HistoryRoutes.delete_history_item o history_id file
  = if bool_decide (history_id ∈ History.id <$> History.load_history file)
    then (HistoryRoutes.Deleted,
          History.save_history o
            (filter (λ item, History.id item ≠ history_id) (History.load_history file))
            file)
    else (HistoryRoutes.NotFound, file).
Proof.
  unfold HistoryRoutes.delete_history_item.
  set (history := History.load_history file).
  set (kept := filter (λ item, History.id item ≠ history_id) history).
  destruct (Nat.eqb_spec (length history) (length kept)) as [E|E].
  - symmetry in E. apply length_filter_eq in E.
    rewrite bool_decide_eq_false_2; [reflexivity|].
    intros Hin. apply list_elem_of_fmap in Hin as (r & -> & Hr).
    rewrite Forall_forall in E. now apply (E r Hr).
  - rewrite bool_decide_eq_true_2; [reflexivity|].
    destruct (decide (history_id ∈ History.id <$> history)) as [Hin|Hnin]; [exact Hin|].
    exfalso. apply E. symmetry. apply length_filter_eq, Forall_forall.
    intros r Hr Heq. apply Hnin, list_elem_of_fmap. eauto.
Qed.

(** X11: [delete_history_item] answers 404 and leaves the file alone
    exactly when no record has the id.  Otherwise it answers 200, and
    when the file is written every record of that id is gone and the
    others are kept in their order; when the file cannot be opened for
    writing the answer is still 200 and the records are all still
    there; when the write breaks off the whole history reads as empty.
    [clear_history] leaves an empty history when the file is written. *)
Theorem delete_history_item_by_id (o : History.SaveOutcome) (history_id : string)
    (file : History.HistoryFile) :
  (history_id ∉ History.id <$> History.load_history file →
   HistoryRoutes.delete_history_item o history_id file = (HistoryRoutes.NotFound, file))
  ∧ (history_id ∈ History.id <$> History.load_history file →
     ∃ file',
       HistoryRoutes.delete_history_item o history_id file
       = (HistoryRoutes.Deleted, file')
       ∧ (o = History.Saved →
          (history_id ∉ History.id <$> History.load_history file')
          ∧ History.load_history file'
            = filter (λ item, History.id item ≠ history_id) (History.load_history file)
          ∧ (History.load_history file' `sublist_of` History.load_history file)
          ∧ ∀ r, r ∈ History.load_history file → History.id r ≠ history_id →
                 r ∈ History.load_history file')
       ∧ (o = History.OpenRefused →
          file' = file
          ∧ history_id ∈ History.id <$> History.load_history file')
       ∧ (o = History.DumpInterrupted → History.load_history file' = []))
  ∧ HistoryRoutes.get_history (HistoryRoutes.clear_history History.Saved file)
    = ([], 0%nat).
Proof.
  rewrite delete_history_item_found. split; [|split; [|reflexivity]].
  - intros H. now rewrite bool_decide_eq_false_2.
  - intros H. rewrite bool_decide_eq_true_2 by exact H.
    eexists. split; [reflexivity|]. split; [|split].
    + intros ->. cbn. split; [|split; [reflexivity|split]].
      * intros Hin. apply list_elem_of_fmap in Hin as (r & -> & Hr).
        apply list_elem_of_filter in Hr as [Hne _]. now apply Hne.
      * apply sublist_filter.
      * intros r Hr Hne. apply list_elem_of_filter. split; assumption.
    + intros ->. cbn. split; [reflexivity|exact H].
    + intros ->. reflexivity.
Qed.

(** X12: a record that was just added under a fresh id, to a history
    below the cap, is removed again by [delete_history_item] with that
    id, and the history is what it was before. *)
Theorem add_then_delete_restores (uuid now original_name file_format : string)
    (file_size : Z) (md_file_path download_url : string)
    (file : History.HistoryFile) :
  uuid ∉ History.id <$> History.load_history file →
  (length (History.load_history file) < History.cap)%nat →
  HistoryRoutes.delete_history_item History.Saved uuid
    (History.add_to_history uuid now History.Saved original_name file_format
       file_size md_file_path download_url file).2
  = (HistoryRoutes.Deleted, History.Stored (History.load_history file)).
Proof.
  intros Hfresh Hlen. rewrite delete_history_item_found.
  unfold History.add_to_history. cbn [snd History.save_history History.load_history].
  set (history := History.load_history file) in *.
  match goal with
  | |- context [(History.cap <? length (?r :: history))%nat] => set (record := r)
  end.
  destruct (Nat.ltb_spec History.cap (length (record :: history))) as [H|_];
    [cbn in H; lia|].
  rewrite bool_decide_eq_true_2 by (cbn; left).
  cbn [History.save_history History.load_history]. f_equal. f_equal.
  rewrite filter_cons.
  destruct (decide (History.id record ≠ uuid)) as [Hne|_]; [now contradiction Hne|].
  clear Hlen. induction history as [|r l IH]; [reflexivity|].
  rewrite filter_cons. destruct (decide (History.id r ≠ uuid)) as [_|Heq].
  - f_equal. apply IH. intros Hin. apply Hfresh. cbn. now right.
  - exfalso. destruct (decide (History.id r = uuid)) as [E|Hne];
      [|now contradiction Heq].
    apply Hfresh. cbn. rewrite E. left.
Qed.

(** A first record is added and deleted again. *)
Lemma add_then_delete_restores_witness :
  HistoryRoutes.delete_history_item History.Saved "0f3a"
    (History.add_to_history "0f3a" "2025-11-11T18:06:47" History.Saved
       "a.pdf" "pdf" 120 "downloads/a_1b2c3d4e.md" "/download-md" History.Missing).2
  = (HistoryRoutes.Deleted, History.Stored []).
Proof.
  apply (add_then_delete_restores "0f3a" "2025-11-11T18:06:47" "a.pdf" "pdf" 120
           "downloads/a_1b2c3d4e.md" "/download-md" History.Missing).
  - cbn. apply not_elem_of_nil.
  - cbn. unfold History.cap. lia.
Defined.

(** X13: after any number of conversions whose history writes succeed, the
    history holds the added records, the latest first, followed by the
    records it had before, cut to the 100 nearest the front. *)
Theorem add_all_keeps_newest (adds : list History.HistoryRecord)
    (file : History.HistoryFile) :
  (length (History.load_history file) ≤ History.cap)%nat →
  Forall (λ r, History.status r = "completed") adds →
  History.load_history (HistoryRoutes.add_all adds file)
  = take History.cap (rev adds ++ History.load_history file)
  ∧ (length (History.load_history (HistoryRoutes.add_all adds file))
     = Nat.min History.cap (length adds + length (History.load_history file)))%nat.
Proof.
  intros Hlen Hst.
  assert (Hmain : History.load_history (HistoryRoutes.add_all adds file)
                  = take History.cap (rev adds ++ History.load_history file)).
  { revert file Hlen. induction Hst as [|r adds Hr Hadds IH]; intros file Hlen.
    - cbn. now rewrite take_ge.
    - change (HistoryRoutes.add_all (r :: adds) file)
        with (HistoryRoutes.add_all adds
                (History.add_to_history (History.id r) (History.converted_at r)
                   History.Saved (History.original_name r) (History.format r)
                   (History.file_size r) (History.md_file_path r)
                   (History.download_url r) file).2).
      set (file' := (History.add_to_history _ _ _ _ _ _ _ _ file).2).
      assert (Hfile' : History.load_history file'
                       = take History.cap (r :: History.load_history file)).
      { unfold file', History.add_to_history.
        cbn [snd History.save_history History.load_history].
        replace {| History.id := History.id r;
                   History.original_name := History.original_name r;
                   History.format := History.format r;
                   History.file_size := History.file_size r;
                   History.md_file_path := History.md_file_path r;
                   History.download_url := History.download_url r;
                   History.converted_at := History.converted_at r;
                   History.status := "completed" |} with r
          by (destruct r; cbn in Hr; now subst).
        destruct (Nat.ltb_spec History.cap (length (r :: History.load_history file)))
          as [H|H]; [reflexivity|]. now rewrite take_ge. }
      rewrite IH.
      + rewrite Hfile'. cbn [rev]. rewrite <- app_assoc. cbn [app].
        rewrite !take_app. f_equal.
        destruct (History.cap - length (rev adds))%nat as [|n] eqn:E;
          [reflexivity|].
        assert (Hn : (S n ≤ History.cap)%nat) by lia.
        rewrite take_take. f_equal. lia.
      + rewrite Hfile', length_take. lia. }
  split; [exact Hmain|].
  rewrite Hmain, length_take, length_app, length_rev. reflexivity.
Qed.

(** Two records added to an empty history. *)
Lemma add_all_keeps_newest_witness :
  History.id <$> History.load_history
                   (HistoryRoutes.add_all
                      [Scenario.history_record "0f3a"; Scenario.history_record "0f3b"]
                      History.Missing)
  = ["0f3b"; "0f3a"].
Proof.
  set (r := Scenario.history_record).
  assert (H1 : (length (History.load_history History.Missing) ≤ History.cap)%nat)
    by (cbn; lia).
  assert (H2 : Forall (λ r, History.status r = "completed") [r "0f3a"; r "0f3b"]).
  { constructor; [reflexivity|]. constructor; [reflexivity|constructor]. }
  destruct (add_all_keeps_newest [r "0f3a"; r "0f3b"] History.Missing H1 H2)
    as [-> _].
  reflexivity.
Defined.

(** ** The dispatch: what it raises and what it passes over *)

Lemma supported_keys (file_format : string) :
  Batch.supported file_format = true →
  file_format ∈ ["pdf"; "word"; "excel"; "ppt"; "image"; "audio"; "video";
                 "html"; "csv"; "json"; "xml"; "zip"; "rar"].
Proof.
  unfold Batch.supported. intros H. apply bool_decide_eq_true in H as [v Hv].
  apply elem_of_list_to_map_2 in Hv.
  apply (list_elem_of_fmap_2 fst) in Hv. exact Hv.
Qed.

Ltac format_cases H :=
  repeat (apply elem_of_cons in H as [->|H]); [..|now apply elem_of_nil in H].

(** X14: an exception leaves [convert_file_content] only for the formats
    [csv], [image], [json], [xml], [html] and [word], and it is the
    exception of reading the file or of the converter of that format.
    For every other format, supported or not, the call returns a text. *)
Theorem dispatch_raises_for_six_formats (cv : Dispatch.Converters)
    (file_path : option string) (file_format e : string) :
  (Dispatch.convert_file_content cv file_path file_format).2 = Raised e →
  file_format ∈ ["csv"; "image"; "json"; "xml"; "html"; "word"]
  ∧ (Dispatch.read_text cv file_path = Raised e
     ∨ (∃ content, Dispatch.read_text cv file_path = Ok content
                   ∧ Dispatch.csv_converter cv content = Raised e)
     ∨ Dispatch.img_converter cv file_path = Raised e
     ∨ Dispatch.word_converter cv file_path = Raised e).
Proof.
  unfold Dispatch.convert_file_content, Dispatch.fenced, Dispatch.absorbed.
  repeat match goal with
         | |- context [String.eqb file_format ?t] =>
             destruct (String.eqb_spec file_format t) as [->|?]
         end;
    repeat match goal with
           | |- context [match ?r with Ok _ => _ | Raised _ => _ end] =>
               destruct r eqn:?
           end;
    cbn; try discriminate; intros H; try (injection H as ->);
    (split; [repeat constructor|]);
    eauto 6.
Qed.

(** An image when the OCR is missing. *)
Lemma dispatch_raises_for_six_formats_witness :
  "image" ∈ ["csv"; "image"; "json"; "xml"; "html"; "word"]
  ∧ (Dispatch.convert_file_content Scenario.no_ocr (Some "a.png") "pdf").2 = Ok "# a".
Proof.
  assert (H : (Dispatch.convert_file_content Scenario.no_ocr (Some "a.png") "image").2
              = Raised "PaddleOCR is not installed") by reflexivity.
  destruct (dispatch_raises_for_six_formats Scenario.no_ocr (Some "a.png") "image" _ H)
    as [Hin _].
  split; [exact Hin|reflexivity].
Defined.

(** X15: of the formats in [SUPPORTED_FORMATS], [excel], [zip] and [rar]
    are the ones for which [convert_file_content] attempts no converter:
    it returns the text that says the format is not supported, as an
    ordinary result.  For every other supported format it attempts at
    least one converter. *)
Theorem supported_formats_without_converter (cv : Dispatch.Converters)
    (file_path : option string) (file_format : string) :
  Batch.supported file_format = true →
  ((Dispatch.convert_file_content cv file_path file_format).1 = []
   ↔ file_format ∈ ["excel"; "zip"; "rar"])
  ∧ (file_format ∈ ["excel"; "zip"; "rar"] →
     Dispatch.convert_file_content cv file_path file_format
     = ([], Ok (Dispatch.unsupported_document file_format))).
Proof.
  intros H. apply supported_keys in H. split; [split|].
  - intros Hcaps. format_cases H;
      try (repeat constructor);
      exfalso; revert Hcaps;
      unfold Dispatch.convert_file_content, Dispatch.fenced, Dispatch.absorbed; cbn;
      repeat match goal with
             | |- context [match ?r with Ok _ => _ | Raised _ => _ end] =>
                 destruct r
             end; discriminate.
  - intros Hin. format_cases Hin; reflexivity.
  - intros Hin. format_cases Hin; reflexivity.
Qed.

(** A spreadsheet. *)
Lemma supported_formats_without_converter_witness :
  Dispatch.convert_file_content Sample.converters (Some "a.xlsx") "excel"
  = ([], Ok (Dispatch.unsupported_document "excel")).
Proof.
  assert (H : Batch.supported "excel" = true) by (vm_compute; reflexivity).
  destruct (supported_formats_without_converter Sample.converters (Some "a.xlsx")
              "excel" H) as [_ Hdoc].
  apply Hdoc. apply list_elem_of_here.
Defined.

(** ** The two classifiers *)

Lemma extension_listed_or_unknown (k : string) :
  k ∈ (map_to_list Classifier.extractor_format_map).*1
  ∨ (Classifier.extractor_format_map !! k = None ∧ Classifier.format_map !! k = None).
Proof.
  destruct (Classifier.extractor_format_map !! k) as [v|] eqn:Hk.
  - left. apply elem_of_map_to_list in Hk.
    apply (list_elem_of_fmap_2 fst) in Hk. exact Hk.
  - right. split; [reflexivity|].
    destruct (Classifier.format_map !! k) as [v|] eqn:Hf; [|reflexivity].
    exfalso. apply elem_of_list_to_map_2 in Hf.
    apply (list_elem_of_fmap_2 fst) in Hf. cbn in Hf.
    format_cases Hf; vm_compute in Hk; discriminate Hk.
Qed.

(** X16: the classifier of the batch extraction and the one of the
    [ArchiveExtractor] class give the same tag for every name, except
    for the names with the extension of an audio or video file or
    [bmp]: these the class calls [audio], [video] or [image], which are
    supported formats, and the batch extraction calls [unknown].  So the
    batch extraction never gives the tags [audio] and [video], and the
    tags it gives that are not in [SUPPORTED_FORMATS] are [text] and
    [unknown]. *)
Theorem classifiers_differ_on_media (f : string) :
  ((Py.extension f ∉ Media.extensions) →
   Classifier.detect_format f = Classifier._detect_file_format f)
  ∧ (Py.extension f ∈ Media.extensions →
     Classifier.detect_format f = "unknown"
     ∧ Classifier._detect_file_format f ∈ ["image"; "audio"; "video"]
     ∧ Batch.supported (Classifier._detect_file_format f) = true)
  ∧ (Classifier.detect_format f ∉ ["audio"; "video"])
  ∧ (Batch.supported (Classifier.detect_format f) = false
     ↔ Classifier.detect_format f ∈ ["text"; "unknown"]).
Proof.
  assert (Hne : Py.extension f ∈ Media.extensions → f ≠ "").
  { intros H ->. change (Py.extension "") with "" in H.
    unfold Media.extensions in H.
    repeat (apply elem_of_cons in H as [?|H]; [discriminate|]).
    now apply elem_of_nil in H. }
  split; [|split; [|split]].
  - intros Hk. unfold Classifier.detect_format, Classifier._detect_file_format.
    destruct (String.eqb_spec f "") as [->|_]; [reflexivity|].
    revert Hk. generalize (Py.extension f). intros k Hk.
    destruct (extension_listed_or_unknown k) as [Hin|[-> ->]]; [|reflexivity].
    let l := eval vm_compute in ((map_to_list Classifier.extractor_format_map).*1) in
    change ((map_to_list Classifier.extractor_format_map).*1) with l in Hin.
    format_cases Hin; try reflexivity;
      exfalso; apply Hk; unfold Media.extensions; repeat constructor.
  - intros Hk. specialize (Hne Hk).
    unfold Classifier.detect_format, Classifier._detect_file_format.
    destruct (String.eqb_spec f "") as [->|_]; [now contradiction Hne|].
    revert Hk. generalize (Py.extension f). intros k Hk.
    unfold Media.extensions in Hk.
    format_cases Hk; (split; [reflexivity|]); (split; [|reflexivity]);
      vm_compute; repeat constructor.
  - pose proof (detect_format_in f) as Hin. intros Hbad.
    unfold Classifier.inline_tags in Hin. cbn in Hin.
    revert Hin Hbad. generalize (Classifier.detect_format f). intros t Hin Hbad.
    format_cases Hin;
      repeat (apply elem_of_cons in Hbad as [?|Hbad]; [discriminate|]);
      now apply elem_of_nil in Hbad.
  - pose proof (detect_format_in f) as Hin.
    unfold Classifier.inline_tags in Hin. cbn in Hin.
    revert Hin. generalize (Classifier.detect_format f). intros t Hin.
    format_cases Hin; split; intros H;
      try (vm_compute in H; discriminate H);
      try (repeat constructor);
      try reflexivity;
      exfalso;
      repeat (apply elem_of_cons in H as [?|H]; [discriminate|]);
      now apply elem_of_nil in H.
Qed.

(** ** Archive extractor: where the entries are written *)

Lemma has_slash_app (s t : string) :
  Py.has_slash (s +:+ t) = Py.has_slash s || Py.has_slash t.
Proof.
  induction s as [|c s IH]; [reflexivity|].
  rewrite append_cons_l. cbn. now rewrite IH, orb_assoc.
Qed.

Lemma has_slash_split_slash (p : string) : Py.has_slash (Py.split_slash p).2 = false.
Proof.
  induction p as [|c r IH]; [reflexivity|]. cbn.
  destruct (Py.has_slash r) eqn:Hr.
  - destruct (Py.split_slash r). exact IH.
  - destruct (Py.is_slash c) eqn:Hc; cbn; [exact Hr|]. now rewrite Hc, Hr.
Qed.

Lemma has_slash_basename (p : string) : Py.has_slash (Py.basename p) = false.
Proof. apply has_slash_split_slash. Qed.

Lemma split_slash_plain (p : string) :
  Py.has_slash p = false → Py.split_slash p = ("", p).
Proof.
  destruct p as [|c r]; [reflexivity|]. cbn.
  intros H. apply orb_false_iff in H as [Hc Hr]. now rewrite Hr, Hc.
Qed.

Lemma rsplit_dot_app (p a b : string) : Py.rsplit_dot p = Some (a, b) → p = a +:+ b.
Proof.
  revert a b. induction p as [|c r IH]; intros a b; cbn; [discriminate|].
  destruct (Py.rsplit_dot r) as [[a' b']|].
  - intros [= <- <-]. rewrite append_cons_l. f_equal. now apply IH.
  - destruct (Py.is_dot c); [|discriminate]. intros [= <- <-]. reflexivity.
Qed.

Lemma has_slash_splitext (p : string) :
  Py.has_slash p = false →
  Py.has_slash (Py.splitext p).1 = false ∧ Py.has_slash (Py.splitext p).2 = false.
Proof.
  intros Hp. unfold Py.splitext. rewrite (split_slash_plain p Hp).
  destruct (Py.rsplit_dot p) as [[a b]|] eqn:Hs; [|now split].
  destruct (Py.all_dots a); [now split|].
  apply rsplit_dot_app in Hs. subst p.
  rewrite has_slash_app in Hp. apply orb_false_iff in Hp as [Ha Hb].
  cbn. rewrite append_nil_l. now split.
Qed.

Lemma is_slash_pretty_N_char (d : N) : Py.is_slash (pretty_N_char d) = false.
Proof.
  unfold pretty_N_char.
  repeat match goal with
         | |- context [match ?x with _ => _ end] => destruct x
         end; reflexivity.
Qed.

Lemma has_slash_pretty_N_go (x : N) :
  ∀ s, Py.has_slash (pretty_N_go x s) = Py.has_slash s.
Proof.
  induction (N.lt_wf_0 x) as [x _ IH]. intros s.
  destruct (decide (x = 0%N)) as [->|Hx]; [now rewrite pretty_N_go_0|].
  rewrite pretty_N_go_step by lia.
  rewrite IH by (apply N.div_lt; lia). cbn.
  now rewrite is_slash_pretty_N_char.
Qed.

Lemma has_slash_str_of_nat (k : nat) : Py.has_slash (Py.str_of_nat k) = false.
Proof.
  unfold Py.str_of_nat, pretty, pretty_nat, pretty, pretty_N.
  destruct (decide (N.of_nat k = 0%N)); [reflexivity|].
  now rewrite has_slash_pretty_N_go.
Qed.

Lemma has_slash_candidate (base_name ext : string) (k : nat) :
  Py.has_slash base_name = false → Py.has_slash ext = false →
  Py.has_slash (Extractor.candidate base_name ext k) = false.
Proof.
  intros Hb He. unfold Extractor.candidate.
  now rewrite !has_slash_app, Hb, He, has_slash_str_of_nat.
Qed.

Section ExtractionNames.
Variables (temp_dir : string) (password : option string) (clock : nat → Z).

Local Abbreviation step := (ExtractorRel.entry_step temp_dir password clock).
Local Abbreviation run := (ExtractorRel.loop_run temp_dir password clock).

(** The name of a written entry is the base name of the entry or a
    suffixed one. *)
Lemma step_name fs recs zi fs' f :
  step fs recs zi (fs', recs ++ [f]) → is_Some (extracted_path f) →
  filename f = Py.basename (Zip.zi_filename zi)
  ∨ ∃ k, filename f
         = Extractor.candidate (Py.splitext (Py.basename (Zip.zi_filename zi))).1
             (Py.splitext (Py.basename (Zip.zi_filename zi))).2 k.
Proof.
  intros H [p Hp].
  apply step_inv in H as (n & q & Hu & [[Ho E]|[(msg & Ho & E)|(msg & Ho & E)]]);
    injection E as E1 E; apply app_inj_tail in E as [_ E]; subst; cbn in Hp;
    try discriminate.
  apply unique_name_spec in Hu as (_ & _ & [[-> _]|[_ (k & _ & ->)]]); cbn; eauto.
Qed.

Lemma step_name_plain fs recs zi fs' f :
  step fs recs zi (fs', recs ++ [f]) → is_Some (extracted_path f) →
  Py.has_slash (filename f) = false.
Proof.
  intros H Hp. destruct (step_name _ _ _ _ _ H Hp) as [->|[k ->]].
  - apply has_slash_basename.
  - destruct (has_slash_splitext _ (has_slash_basename (Zip.zi_filename zi))).
    now apply has_slash_candidate.
Qed.

Lemma run_names fs k ms fs' new :
  run fs k ms fs' new →
  Forall (λ f, is_Some (extracted_path f) → Py.has_slash (filename f) = false) new.
Proof.
  induction 1 as [|fs k zi f fs1 rest fs2 new recs Hk Hs Hr IH]; constructor.
  - eapply step_name_plain, Hs.
  - exact IH.
Qed.

End ExtractionNames.

(** X17: an archive whose entries all have a name is extracted, and in
    every extraction that succeeds every entry that was written was
    written directly in the scratch directory: its path is the directory
    joined with the name of its record, that name has no [/] and is none
    of the empty name, [.] and [..], whatever the names of the entries
    in the archive are. *)
Theorem extraction_stays_in_scratch_directory (temp_dir : string)
    (file_list : list Zip.ZipInfo) (clock : nat → Z) (password : option string) :
  (Forall Zip.named file_list →
   ∃ total_files extracted_files failed_files files,
     Extractor.extract_archive_safe (Ok temp_dir) (Ok file_list) clock password
     = Some (Extractor.Extracted total_files extracted_files failed_files files
               temp_dir))
  ∧ ∀ total_files extracted_files failed_files files dir,
      Extractor.extract_archive_safe (Ok temp_dir) (Ok file_list) clock password
      = Some (Extractor.Extracted total_files extracted_files failed_files files dir) →
      dir = temp_dir
      ∧ Forall2 (ExtractorRel.entry_record password) (Extractor.members file_list) files
      ∧ ∀ f p, f ∈ files → extracted_path f = Some p →
          p = Py.path_join temp_dir (filename f)
          ∧ Py.has_slash (filename f) = false
          ∧ (filename f ∉ [""; "."; ".."])
          ∧ ∃ sep, (sep = "" ∨ sep = "/") ∧ p = temp_dir +:+ sep +:+ filename f.
Proof.
  split.
  { intros Hall.
    destruct (extract_archive_safe_run temp_dir password clock file_list Hall)
      as (fs' & files & E & _).
    eexists _, _, _, files. exact E. }
  intros total_files extracted_files failed_files files dir E.
  pose proof (extract_archive_safe_extracted _ _ _ _ _ _ _ _ _ E) as Hall.
  destruct (extract_archive_safe_run temp_dir password clock file_list Hall)
    as (fs' & files' & E' & Hloop).
  rewrite E' in E. injection E as _ _ _ -> <-.
  split; [reflexivity|]. split; [eapply run_records, Hloop|].
  intros f p Hf Hp.
  apply list_elem_of_lookup in Hf as [j Hj].
  pose proof (run_path_of_name _ _ _ _ _ _ _ _ Hloop j f p Hj Hp) as Hpath.
  pose proof (run_names _ _ _ _ _ _ _ _ Hloop) as Hnames.
  rewrite Forall_forall in Hnames.
  assert (Hplain : Py.has_slash (filename f) = false).
  { apply Hnames; [eapply list_elem_of_lookup_2, Hj|eauto]. }
  destruct (run_paths _ _ _ _ _ _ _ _ Hloop) as [Hfresh _].
  assert (Hin : p ∈ omap extracted_path files).
  { apply list_elem_of_omap. exists f. split; [eapply list_elem_of_lookup_2, Hj|exact Hp]. }
  destruct (Hfresh p Hin) as [Hnew _].
  split; [exact Hpath|]. split; [exact Hplain|]. split.
  - intros Hbad. apply Hnew. subst p. unfold Extractor.fresh_dir.
    repeat (apply elem_of_cons in Hbad as [->|Hbad]; [repeat constructor|]).
    now apply elem_of_nil in Hbad.
  - subst p. unfold Py.path_join.
    assert (Hs : Py.starts_with_slash (filename f) = false).
    { destruct (filename f) as [|c r]; [reflexivity|]. cbn in *.
      now apply orb_false_iff in Hplain as [-> _]. }
    rewrite Hs.
    destruct (String.eqb temp_dir "" || Py.ends_with_slash temp_dir).
    + exists "". split; [now left|reflexivity].
    + exists "/". split; [now right|reflexivity].
Qed.

(** An archive whose entries are named [../../etc/cron.d/job],
    [/abs/b.txt] and [c/d/e.md]: all three are written in the scratch
    directory. *)
Lemma extraction_stays_in_scratch_directory_witness :
  ∃ files f p,
    Extractor.extract_archive_safe (Ok "/tmp/archive_extract_x")
      (Ok Scenario.escaping_archive) (λ _, 0%Z) None
    = Some (Extractor.Extracted 3 3 0 files "/tmp/archive_extract_x")
    ∧ (λ f, (original_path f, extracted_path f)) <$> files
      = [("../../etc/cron.d/job", Some "/tmp/archive_extract_x/job");
         ("/abs/b.txt", Some "/tmp/archive_extract_x/b.txt");
         ("c/d/e.md", Some "/tmp/archive_extract_x/e.md")]
    ∧ files !! 0%nat = Some f ∧ extracted_path f = Some p
    ∧ p = Py.path_join "/tmp/archive_extract_x" (filename f)
    ∧ Py.has_slash (filename f) = false.
Proof.
  destruct (extraction_stays_in_scratch_directory "/tmp/archive_extract_x"
              Scenario.escaping_archive (λ _, 0%Z) None) as [Hex Hall].
  assert (Hn : Forall Zip.named Scenario.escaping_archive).
  { repeat (constructor; [discriminate|]). constructor. }
  destruct (Hex Hn) as (t & e & f & files & E).
  destruct (Hall t e f files _ E) as (_ & _ & Hin).
  pose proof E as E'. vm_compute in E'.
  injection E' as <- <- <- <-.
  eexists _, _, _. split; [exact E|]. split; [reflexivity|].
  split; [reflexivity|]. split; [reflexivity|].
  match goal with
  | |- ?p = _ ∧ _ =>
      destruct (Hin _ p (list_elem_of_here _ _) eq_refl) as (Hp & Hs & _)
  end.
  split; [exact Hp|exact Hs].
Defined.

(** ** Archive extractor: what the default selection takes *)

Lemma path_join_nonempty (a b : string) : b ≠ "" → Py.path_join a b ≠ "".
Proof.
  intros Hb. unfold Py.path_join.
  destruct (Py.starts_with_slash b); [exact Hb|].
  destruct (String.eqb a "" || Py.ends_with_slash a);
    destruct a; cbn; try discriminate; exact Hb.
Qed.

Lemma selection_counts (password : option string) (ms : list Zip.ZipInfo)
    (files : list FileInfo) :
  Forall2 (ExtractorRel.entry_record password) ms files →
  Forall (λ f, ∀ p, extracted_path f = Some p → p ≠ "") files →
  length (Batch.default_selection files)
  = length (filter (λ zi, ExtractorSpec.written password zi = true) ms)
  ∧ (length (filter (λ f, Extractor.has_error f = false) files)
     = length (Batch.default_selection files)
       + length (filter (λ zi, ExtractorSpec.failure password zi = Some "") ms))%nat
  ∧ (length (filter (λ f, Extractor.has_error f = true) files)
     + length (filter (λ zi, ExtractorSpec.failure password zi = Some "") ms)
     = length (filter (λ zi, ExtractorSpec.written password zi = false) ms))%nat.
Proof.
  unfold Batch.default_selection. rewrite length_fmap.
  induction 1 as [|zi f ms files Hr Hrs IH]; intros Hpaths; [now cbn|].
  apply Forall_cons in Hpaths as [Hp Hps].
  destruct (IH Hps) as (IH1 & IH2 & IH3). clear IH.
  rewrite !(filter_cons _ f), !(filter_cons _ zi).
  unfold ExtractorRel.entry_record in Hr.
  unfold ExtractorSpec.written, ExtractorSpec.failure, Extractor.has_error in *.
  destruct Hr as (_ & _ & Hr).
  destruct (Zip.open_and_copy zi (Extractor.pwd_arg password)) as [|msg|msg].
  - destruct Hr as (He & [p Hpath] & _). rewrite He, Hpath. cbn.
    assert (Hne : String.eqb p "" = false).
    { apply String.eqb_neq. now apply Hp. }
    rewrite Hne. cbn.
    repeat match goal with
           | |- context [decide ?P] => destruct (decide P); try congruence
           end; cbn; lia.
  - destruct Hr as (He & Hpath & _). rewrite He, Hpath. cbn.
    destruct (String.eqb_spec msg "") as [->|Hm]; cbn;
      repeat match goal with
             | |- context [decide ?P] => destruct (decide P); try congruence
             end; cbn; lia.
  - destruct Hr as (He & Hpath & _). rewrite He, Hpath. cbn.
    destruct (String.eqb_spec msg "") as [->|Hm]; cbn;
      repeat match goal with
             | |- context [decide ?P] => destruct (decide P); try congruence
             end; cbn; lia.
Qed.

(** X18: an archive whose entries all have a name is extracted, and after
    every extraction that succeeds the default selection of a conversion
    is as long as the number of entries that were opened and copied.
    The count [extracted_files] is that number plus the number of
    entries that failed with an empty message, which are counted as
    extracted and are not selected; [failed_files] leaves these out.
    When every entry is opened and copied, nothing has failed and
    everything is selected. *)
Theorem default_selection_is_what_was_written (temp_dir : string)
    (file_list : list Zip.ZipInfo) (clock : nat → Z) (password : option string) :
  (Forall Zip.named file_list →
   ∃ total_files extracted_files failed_files files,
     Extractor.extract_archive_safe (Ok temp_dir) (Ok file_list) clock password
     = Some (Extractor.Extracted total_files extracted_files failed_files files
               temp_dir))
  ∧ ∀ total_files extracted_files failed_files files dir,
      Extractor.extract_archive_safe (Ok temp_dir) (Ok file_list) clock password
      = Some (Extractor.Extracted total_files extracted_files failed_files files dir) →
      total_files = Z.of_nat (length (Extractor.members file_list))
      ∧ Forall2 (ExtractorRel.entry_record password) (Extractor.members file_list) files
      ∧ length (Batch.default_selection files)
        = length (filter (λ zi, ExtractorSpec.written password zi = true)
                    (Extractor.members file_list))
      ∧ extracted_files
        = (Z.of_nat (length (Batch.default_selection files))
           + Z.of_nat (length (filter (λ zi, ExtractorSpec.failure password zi = Some "")
                                 (Extractor.members file_list))))%Z
      ∧ (failed_files
         + Z.of_nat (length (filter (λ zi, ExtractorSpec.failure password zi = Some "")
                               (Extractor.members file_list))))%Z
        = Z.of_nat (length (filter (λ zi, ExtractorSpec.written password zi = false)
                              (Extractor.members file_list)))
      ∧ (Forall (λ zi, ExtractorSpec.written password zi = true)
           (Extractor.members file_list) →
         failed_files = 0%Z ∧ extracted_files = total_files
         ∧ Z.of_nat (length (Batch.default_selection files)) = total_files).
Proof.
  split.
  { intros Hall.
    destruct (extract_archive_safe_run temp_dir password clock file_list Hall)
      as (fs' & files & E & _).
    eexists _, _, _, files. exact E. }
  intros total_files extracted_files failed_files files dir E.
  pose proof (extract_archive_safe_extracted _ _ _ _ _ _ _ _ _ E) as Hnamed.
  destruct (extract_archive_safe_run temp_dir password clock file_list Hnamed)
    as (fs' & files' & E' & Hloop).
  rewrite E' in E. injection E as <- <- <- -> _.
  split; [reflexivity|].
  pose proof (run_records _ _ _ _ _ _ _ _ Hloop) as Hrecs.
  split; [exact Hrecs|].
  assert (Hpaths : Forall (λ f, ∀ p, extracted_path f = Some p → p ≠ "") files).
  { apply Forall_forall. intros f Hf p Hp.
    apply list_elem_of_lookup in Hf as [j Hj].
    rewrite (run_path_of_name _ _ _ _ _ _ _ _ Hloop j f p Hj Hp).
    apply path_join_nonempty. intros Hname.
    destruct (run_paths _ _ _ _ _ _ _ _ Hloop) as [Hfresh _].
    assert (Hin : p ∈ omap extracted_path files).
    { apply list_elem_of_omap. exists f.
      split; [eapply list_elem_of_lookup_2, Hj|exact Hp]. }
    destruct (Hfresh p Hin) as [Hnew _]. apply Hnew.
    rewrite (run_path_of_name _ _ _ _ _ _ _ _ Hloop j f p Hj Hp), Hname.
    unfold Extractor.fresh_dir. constructor. }
  destruct (selection_counts password _ _ Hrecs Hpaths) as (H1 & H2 & H3).
  split; [exact H1|]. split; [lia|]. split; [lia|].
  intros Hall.
  assert (Hw : filter (λ zi, ExtractorSpec.written password zi = true)
                 (Extractor.members file_list) = Extractor.members file_list).
  { clear -Hall. induction Hall as [|zi l Hzi _ IH]; [reflexivity|].
    rewrite filter_cons. destruct (decide _); [now rewrite IH|contradiction]. }
  assert (Hf : filter (λ zi, ExtractorSpec.written password zi = false)
                 (Extractor.members file_list) = []).
  { clear -Hall. induction Hall as [|zi l Hzi _ IH]; [reflexivity|].
    rewrite filter_cons. destruct (decide _); [congruence|exact IH]. }
  rewrite Hw in H1. rewrite Hf in H3. cbn in H3. lia.
Qed.

(** The sample archive without a password: of its two entries the plain
    one is written and selected, the encrypted one is not. *)
Lemma default_selection_is_what_was_written_witness :
  ∃ files,
    Extractor.extract_archive_safe (Ok "/tmp/archive_extract_x") (Ok Sample.archive)
      (λ _, 0%Z) None
    = Some (Extractor.Extracted 2 1 1 files "/tmp/archive_extract_x")
    ∧ length (Batch.default_selection files) = 1%nat
    ∧ Batch.default_selection files
      = [Batch.SelDict (Some "b.pdf") (Some "/tmp/archive_extract_x/b.pdf") None].
Proof.
  destruct (default_selection_is_what_was_written "/tmp/archive_extract_x"
              Sample.archive (λ _, 0%Z) None) as [Hex Hall].
  assert (Hn : Forall Zip.named Sample.archive).
  { repeat (constructor; [discriminate|]). constructor. }
  destruct (Hex Hn) as (t & e & f & files & E).
  destruct (Hall t e f files _ E) as (_ & _ & Hlen & _).
  pose proof E as E'. vm_compute in E'.
  injection E' as <- <- <- <-.
  eexists. split; [exact E|]. split; [exact Hlen|reflexivity].
Defined.

(** ** The worker: counters and output files *)






(** The sample batch when every output file is written: one member
    completed, one file. *)
Lemma sample_batch_one_file :
  (λ w, (Batch.completed <$> Batch.b_conversion_progress (Batch.batch w),
         length (Batch.downloads w)))
    <$> Batch.run_conversion Sample.converters Sample.io Sample.registry
          History.Missing "b1" [] "2025-11-11T18:06:47"
  = Some (Some 1%Z, 1%nat).
Proof. vm_compute. reflexivity. Qed.

(** ** The routes for a single file: the format of an upload *)

Lemma supported_items_map : Batch.SUPPORTED_FORMATS = list_to_map Single.supported_items.
Proof. reflexivity. Qed.

Lemma dot_extension_cases (filename : string) :
  (Single.dot_extension filename = "" ∧ Py.extension filename = "")
  ∨ (Single.dot_extension filename = String "." (Py.extension filename)).
Proof.
  unfold Single.dot_extension, Py.extension.
  destruct (Py.after_last_dot filename); [right|left]; auto.
Qed.

Lemma _detect_file_format_lookup (filename : string) :
  Classifier._detect_file_format filename
  = default "unknown" (Classifier.extractor_format_map !! Py.extension filename).
Proof.
  unfold Classifier._detect_file_format.
  destruct (String.eqb_spec filename "") as [->|_]; reflexivity.
Qed.

Ltac item_cases H :=
  repeat (apply elem_of_cons in H as [H|H]; [injection H as -> ->|]);
  [..|now apply elem_of_nil in H].

Lemma extension_lists_disjoint (ext k : string) :
  (ext = "" ∧ k = "") ∨ ext = String "." k →
  let found :=
    fst <$> find (λ item, Single.contains (Single.split_comma item.2) ext)
              Single.supported_items in
  (∀ ft exts, (ft, exts) ∈ Single.supported_items →
     Single.contains (Single.split_comma exts) ext = true ↔ found = Some ft)
  ∧ match found with
    | Some ft =>
        default "unknown" (Classifier.extractor_format_map !! k)
        = (if bool_decide (ft ∈ ["zip"; "rar"]) then "unknown" else ft)
    | None =>
        default "unknown" (Classifier.extractor_format_map !! k) ∈ ["text"; "unknown"]
    end.
Proof.
  intros [[-> ->]| ->].
  - split.
    + intros ft exts Hin. unfold Single.supported_items in Hin.
      item_cases Hin; vm_compute; split; discriminate.
    + vm_compute. repeat constructor.
  - intros found.
    assert (Hfound :
              found
              = fst <$> find (λ item, Single.contains (Single.split_comma item.2)
                                        (String "." k))
                          Single.supported_items) by reflexivity.
    clearbody found.
    unfold Single.supported_items, Single.contains in Hfound. cbn in Hfound.
    repeat match type of Hfound with
           | context [String.eqb k ?s] =>
               destruct (String.eqb_spec k s) as [->|?]; cbn in Hfound
           end;
      subst found;
      try (split;
           [ intros ft exts Hin; unfold Single.supported_items in Hin;
             item_cases Hin; vm_compute; split; congruence
           | vm_compute; reflexivity ]).
    split.
    + intros ft exts Hin. unfold Single.supported_items in Hin.
      item_cases Hin; unfold Single.contains; cbn;
        repeat match goal with
               | H : k ≠ ?s |- context [String.eqb k ?s] =>
                   rewrite (proj2 (String.eqb_neq k s) H)
               end;
        cbn; split; discriminate.
    + destruct (extension_listed_or_unknown k) as [Hin|[-> _]];
        [|cbn; repeat constructor].
      let l := eval vm_compute in ((map_to_list Classifier.extractor_format_map).*1) in
      change ((map_to_list Classifier.extractor_format_map).*1) with l in Hin.
      format_cases Hin; try contradiction; vm_compute; repeat constructor.
Qed.

(** X20: [is_supported_file] accepts a name for a format exactly when
    [detect_file_format] gives that format for the name: no extension is
    listed under two formats.  The format so detected is the tag that
    [ArchiveExtractor._detect_file_format] gives, except for [zip] and
    [rar], which that classifier calls [unknown]; a name for which
    nothing is detected is [text] or [unknown] to that classifier. *)
Theorem upload_format_checks_agree (filename format_type : string) :
  (Single.is_supported_file filename format_type = true
   ↔ Single.detect_file_format filename = Some format_type)
  ∧ (Single.detect_file_format filename = Some format_type →
     Classifier._detect_file_format filename
     = if bool_decide (format_type ∈ ["zip"; "rar"]) then "unknown" else format_type)
  ∧ (Single.detect_file_format filename = None →
     Classifier._detect_file_format filename ∈ ["text"; "unknown"]).
Proof.
  rewrite _detect_file_format_lookup.
  assert (Hext : (Single.dot_extension filename = "" ∧ Py.extension filename = "")
                 ∨ Single.dot_extension filename = String "." (Py.extension filename))
    by apply dot_extension_cases.
  pose proof (extension_lists_disjoint _ _ Hext) as [Hiff Htag]. cbv zeta in Hiff, Htag.
  assert (Hdetect : Single.detect_file_format filename
                    = fst <$> find (λ item, Single.contains (Single.split_comma item.2)
                                              (Single.dot_extension filename))
                                Single.supported_items).
  { unfold Single.detect_file_format.
    destruct (String.eqb_spec filename "") as [->|_]; reflexivity. }
  rewrite Hdetect. split; [|split].
  - unfold Single.is_supported_file. rewrite supported_items_map.
    destruct (list_to_map Single.supported_items !! format_type) as [exts|] eqn:Hl.
    + apply elem_of_list_to_map_2 in Hl. apply Hiff, Hl.
    + split; [discriminate|]. intros Hf. exfalso.
      destruct (find _ Single.supported_items) as [[t exts]|] eqn:Hfind;
        [|discriminate Hf].
      injection Hf as ->. apply find_some in Hfind as [Hin _].
      apply not_elem_of_list_to_map in Hl. apply Hl.
      apply list_elem_of_In in Hin. apply (list_elem_of_fmap_2 fst) in Hin. exact Hin.
  - intros Hf. rewrite Hf in Htag. exact Htag.
  - intros Hf. rewrite Hf in Htag. exact Htag.
Qed.

(** ** The routes for a single file: conversion *)

(** X21: for the ten formats it has a branch for, the route
    [convert_format] produces what the dispatch of the batch worker
    produces for the same file, text or exception.  For every other
    format, [excel], [zip] and [rar] among them, the route produces the
    empty text where the batch dispatch produces the text that says the
    format is not supported. *)
Theorem route_agrees_with_batch_dispatch (cv : Dispatch.Converters)
    (upload_path format_type : string) :
  (format_type ∈ Single.converted_formats →
   Single.route_content cv upload_path format_type
   = (Dispatch.convert_file_content cv (Some upload_path) format_type).2)
  ∧ ((format_type ∉ Single.converted_formats) →
     Single.route_content cv upload_path format_type = Ok ""
     ∧ Dispatch.convert_file_content cv (Some upload_path) format_type
       = ([], Ok (Dispatch.unsupported_document format_type))).
Proof.
  unfold Single.converted_formats. split.
  - intros Hin. format_cases Hin;
      unfold Single.route_content, Dispatch.convert_file_content, Dispatch.fenced,
        Dispatch.absorbed; cbn;
      repeat match goal with
             | |- context [match ?r with Ok _ => _ | Raised _ => _ end] =>
                 destruct r
             end; reflexivity.
  - intros Hnot.
    unfold Single.route_content, Dispatch.convert_file_content.
    repeat match goal with
           | |- context [String.eqb format_type ?t] =>
               destruct (String.eqb_spec format_type t) as [->|?];
                 [exfalso; apply Hnot; repeat constructor|]
           end.
    split; reflexivity.
Qed.

(** X22: what a request of [convert_format] leaves behind.  Answered with
    an error, 400 or 500, it has changed nothing: the upload is still
    there, nothing is written and the history is as it was.  Answered
    with a success, it has written the text of the upload under
    [<stem>_<uuid8>.md] in the download folder, removed the upload and
    put a record at the front of the history, whose id it returns.
    When an exception leaves the view, the upload and the history are as
    they were, and either the output could not be opened and nothing is
    written, or it was opened and stays with what was written of it, or
    it is written in full and removing the upload raised. *)
Theorem convert_format_outcomes (cv : Dispatch.Converters) (io : Single.RouteIo)
    (format_type : string) (data : option (option string)) (fs fs' : Single.Files)
    (r : Single.ConvertFormatResponse) :
  Single.convert_format cv io format_type data fs = (r, fs') →
  match r with
  | Single.FormatRejected code message => (code = 400%Z ∨ code = 500%Z) ∧ fs' = fs
  | Single.FormatConverted md_file_path message history_id =>
      ∃ file_id content,
        data = Some (Some file_id)
        ∧ Batch.supported format_type = true
        ∧ Single.exists_path io (Py.path_join Batch.UPLOAD_FOLDER file_id) = true
        ∧ Single.route_content cv (Py.path_join Batch.UPLOAD_FOLDER file_id) format_type
          = Ok content
        ∧ md_file_path
          = Py.path_join Batch.DOWNLOAD_FOLDER
              ((Py.splitext (Py.basename (Py.path_join Batch.UPLOAD_FOLDER file_id))).1
               +:+ "_" +:+ Single.uuid8 io +:+ ".md")
        ∧ Single.written fs' = (md_file_path, content) :: Single.written fs
        ∧ Single.removed fs'
          = Py.path_join Batch.UPLOAD_FOLDER file_id :: Single.removed fs
        ∧ history_id = Single.hist_uuid io
        ∧ ∃ record,
            History.id record = history_id
            ∧ History.original_name record
              = Py.basename (Py.path_join Batch.UPLOAD_FOLDER file_id)
            ∧ History.format record = format_type
            ∧ History.md_file_path record = md_file_path
            ∧ Single.history fs'
              = History.save_history (Single.hist_save io)
                  (take History.cap (record :: History.load_history (Single.history fs)))
                  (Single.history fs)
  | Single.FormatEscaped e =>
      ∃ file_id content,
        data = Some (Some file_id)
        ∧ Single.route_content cv (Py.path_join Batch.UPLOAD_FOLDER file_id) format_type
          = Ok content
        ∧ Single.history fs' = Single.history fs
        ∧ Single.removed fs' = Single.removed fs
        ∧ ((Single.write_error io = Some e
            ∧ Single.written fs'
              = match Single.write_partial io with
                | Some part =>
                    (Py.path_join Batch.DOWNLOAD_FOLDER
                       ((Py.splitext
                           (Py.basename (Py.path_join Batch.UPLOAD_FOLDER file_id))).1
                        +:+ "_" +:+ Single.uuid8 io +:+ ".md"), part)
                    :: Single.written fs
                | None => Single.written fs
                end)
           ∨ (Single.write_error io = None ∧ Single.remove_error io = Some e
              ∧ Single.written fs'
                = (Py.path_join Batch.DOWNLOAD_FOLDER
                     ((Py.splitext
                         (Py.basename (Py.path_join Batch.UPLOAD_FOLDER file_id))).1
                      +:+ "_" +:+ Single.uuid8 io +:+ ".md"), content)
                  :: Single.written fs))
  end.
Proof.
  unfold Single.convert_format.
  destruct (Batch.supported format_type) eqn:Hs; cbn [negb];
    [|intros [= <- <-]; auto].
  destruct data as [[file_id|]|]; [|intros [= <- <-]; auto..].
  destruct (Single.exists_path io _) eqn:He; cbn [negb]; [|intros [= <- <-]; auto].
  destruct (Single.route_content cv _ format_type) as [content|e] eqn:Hc;
    [|intros [= <- <-]; auto].
  destruct (Single.write_error io) as [e|] eqn:Hw.
  { destruct (Single.write_partial io) as [part|]; intros [= <- <-];
      exists file_id, content; cbn; auto 10. }
  destruct (Single.remove_error io) as [e|] eqn:Hr.
  { intros [= <- <-]. exists file_id, content. cbn. auto 10. }
  unfold History.add_to_history. cbv beta iota zeta. intros [= <- <-].
  exists file_id, content.
  split; [reflexivity|]. split; [reflexivity|]. split; [exact He|].
  split; [exact Hc|]. do 4 (split; [reflexivity|]).
  set (upload_path := Py.path_join Batch.UPLOAD_FOLDER file_id).
  set (output_filename :=
         (Py.splitext (Py.basename upload_path)).1 +:+ "_" +:+ Single.uuid8 io +:+ ".md").
  set (output_path := Py.path_join Batch.DOWNLOAD_FOLDER output_filename).
  exists {| History.id := Single.hist_uuid io;
            History.original_name := Py.basename upload_path;
            History.format := format_type;
            History.file_size := Single.output_size io;
            History.md_file_path := output_path;
            History.download_url :=
              "/download-md?file_path=" +:+ output_path
              +:+ "&filename=" +:+ Py.basename output_filename;
            History.converted_at := Single.hist_now io;
            History.status := "completed" |}.
  do 4 (split; [reflexivity|]).
  cbn [Single.history]. f_equal.
  destruct (Nat.ltb_spec History.cap
              (S (length (History.load_history (Single.history fs)))));
    [reflexivity|].
  symmetry. apply take_ge. cbn [length]. lia.
Qed.

(** A PDF when the disk is full: the exception leaves the view, the
    upload is still there, and an empty output file is in the download
    folder. *)
Lemma convert_format_outcomes_witness :
  ∃ fs',
    Single.convert_format Sample.converters Scenario.route_full_disk "pdf"
      (Some (Some "0f3a_a.pdf")) Scenario.no_files
    = (Single.FormatEscaped "[Errno 28] No space left on device", fs')
    ∧ Single.written fs' = [("downloads/0f3a_a_1b2c3d4e.md", "")]
    ∧ Single.removed fs' = []
    ∧ Single.history fs' = Single.history Scenario.no_files.
Proof.
  destruct (Single.convert_format Sample.converters Scenario.route_full_disk "pdf"
              (Some (Some "0f3a_a.pdf")) Scenario.no_files) as [r fs'] eqn:Hrun.
  pose proof (convert_format_outcomes _ _ _ _ _ _ _ Hrun) as Hout.
  vm_compute in Hrun. injection Hrun as <- <-.
  destruct Hout as (file_id & content & Hdata & _ & Hh & Hr & [[_ Hw]|[Hw _]]);
    [|discriminate Hw].
  injection Hdata as <-.
  eexists. split; [reflexivity|]. split; [exact Hw|]. split; [exact Hr|exact Hh].
Defined.

(** A PDF is converted by the route. *)
Lemma convert_format_pdf :
  (λ r, (r.1, Single.written r.2, Single.removed r.2))
    (Single.convert_format Sample.converters Scenario.route_io "pdf"
       (Some (Some "0f3a_a.pdf")) Scenario.no_files)
  = (Single.FormatConverted "downloads/0f3a_a_1b2c3d4e.md" "成功转换 0f3a_a.pdf" "0f3a",
     [("downloads/0f3a_a_1b2c3d4e.md", "# a")], ["uploads/0f3a_a.pdf"]).
Proof. vm_compute. reflexivity. Qed.

(** X23: [convert_format] joins the upload folder with the [file_id] of
    the request as it is.  A [file_id] that starts with [/] names the
    file itself, wherever it is: the route converts that file and
    removes it. *)
Theorem file_id_names_any_path (cv : Dispatch.Converters) (io : Single.RouteIo)
    (format_type file_id content : string) (fs : Single.Files) :
  Py.starts_with_slash file_id = true →
  Batch.supported format_type = true →
  Single.exists_path io file_id = true →
  Single.route_content cv file_id format_type = Ok content →
  Single.write_error io = None →
  Single.remove_error io = None →
  ∃ md_file_path message history_id fs',
    Single.convert_format cv io format_type (Some (Some file_id)) fs
    = (Single.FormatConverted md_file_path message history_id, fs')
    ∧ Single.removed fs' = file_id :: Single.removed fs
    ∧ Single.written fs' = (md_file_path, content) :: Single.written fs.
Proof.
  intros Habs Hs He Hc Hw Hr. unfold Single.convert_format.
  assert (Hjoin : Py.path_join Batch.UPLOAD_FOLDER file_id = file_id).
  { unfold Py.path_join. now rewrite Habs. }
  rewrite Hs, Hjoin, He, Hc, Hw, Hr. cbn.
  eexists _, _, _, _. split; [reflexivity|]. split; reflexivity.
Qed.

(** A request for [/etc/hosts] as a JSON file. *)
Lemma file_id_names_any_path_witness :
  ∃ md_file_path message history_id fs',
    Single.convert_format Sample.converters Scenario.route_io "json"
      (Some (Some "/etc/hosts")) Scenario.no_files
    = (Single.FormatConverted md_file_path message history_id, fs')
    ∧ Single.removed fs' = ["/etc/hosts"].
Proof.
  assert (H1 : Py.starts_with_slash "/etc/hosts" = true) by reflexivity.
  assert (H2 : Batch.supported "json" = true) by (vm_compute; reflexivity).
  assert (H3 : Single.exists_path Scenario.route_io "/etc/hosts" = true) by reflexivity.
  assert (H4 : Single.route_content Sample.converters "/etc/hosts" "json"
               = Ok ("```json" +:+ Py.nl +:+ "text" +:+ Py.nl +:+ "```"))
    by reflexivity.
  assert (H5 : Single.write_error Scenario.route_io = None) by reflexivity.
  assert (H6 : Single.remove_error Scenario.route_io = None) by reflexivity.
  destruct (file_id_names_any_path Sample.converters Scenario.route_io "json"
              "/etc/hosts" _ Scenario.no_files H1 H2 H3 H4 H5 H6)
    as (md & msg & hid & fs' & Hrun & Hrem & _).
  exists md, msg, hid, fs'. split; [exact Hrun|exact Hrem].
Defined.

(** ** The routes for a single file: from upload to conversion *)

Lemma split_slash_last (a x : string) :
  Py.has_slash x = false → Py.split_slash (a +:+ String "/" x) = (a +:+ "/", x).
Proof.
  intros Hx. induction a as [|c a IH].
  - rewrite !append_nil_l. cbn. now rewrite Hx.
  - rewrite !append_cons_l. cbn [Py.split_slash].
    rewrite has_slash_app. cbn [Py.has_slash]. change (Py.is_slash "/") with true.
    rewrite orb_true_l, orb_true_r, IH. reflexivity.
Qed.

(** X24: a file that [upload_file] has stored is the file that
    [convert_format] looks for under the [file_id] returned, when the
    name of the upload has no [/]: the id is [<uuid>_<name>], and the
    upload folder joined with it is the path the file was saved to.
    The upload is stored only if its name has an extension listed
    under the format of the request. *)
Theorem stored_upload_is_found_by_its_id (format_type filename uuid : string)
    (save : outcome Z) (file_id original_name upload_path : string) (file_size : Z) :
  Single.upload_file format_type (Some filename) uuid save
  = Single.FileStored file_id original_name file_size upload_path →
  Py.has_slash filename = false →
  Py.has_slash uuid = false →
  Single.is_supported_file filename format_type = true
  ∧ save = Ok file_size
  ∧ original_name = filename
  ∧ file_id = uuid +:+ "_" +:+ filename
  ∧ upload_path = "uploads/" +:+ file_id
  ∧ Py.path_join Batch.UPLOAD_FOLDER file_id = upload_path.
Proof.
  unfold Single.upload_file.
  destruct (Batch.supported format_type); cbn [negb]; [|discriminate].
  destruct (String.eqb filename ""); [discriminate|].
  destruct (Single.is_supported_file filename format_type); cbn [negb];
    [|discriminate].
  destruct save as [n|e]; [|discriminate].
  intros [= <- <- <- <-] Hname Huuid.
  assert (Hplain : Py.has_slash (uuid +:+ "_" +:+ filename) = false).
  { now rewrite !has_slash_app, Huuid, Hname. }
  assert (Hjoin : Py.path_join Batch.UPLOAD_FOLDER (uuid +:+ "_" +:+ filename)
                  = "uploads" +:+ "/" +:+ uuid +:+ "_" +:+ filename).
  { unfold Py.path_join.
    destruct (uuid +:+ "_" +:+ filename) as [|c r] eqn:E; [reflexivity|].
    cbn in Hplain. apply orb_false_iff in Hplain as [Hc _].
    cbn [Py.starts_with_slash]. rewrite Hc. reflexivity. }
  assert (Hbase : Py.basename (Py.path_join Batch.UPLOAD_FOLDER (uuid +:+ "_" +:+ filename))
                  = uuid +:+ "_" +:+ filename).
  { rewrite Hjoin. unfold Py.basename.
    change ("uploads" +:+ "/" +:+ uuid +:+ "_" +:+ filename)
      with ("uploads" +:+ String "/" (uuid +:+ "_" +:+ filename)).
    now rewrite (split_slash_last "uploads" _ Hplain). }
  rewrite Hbase. do 4 (split; [reflexivity|]). split; [exact Hjoin|reflexivity].
Qed.

(** A PDF is uploaded. *)
Lemma stored_upload_is_found_by_its_id_witness :
  Single.upload_file "pdf" (Some "a.pdf") "0f3a" (Ok 120%Z)
  = Single.FileStored "0f3a_a.pdf" "a.pdf" 120 "uploads/0f3a_a.pdf"
  ∧ Py.path_join Batch.UPLOAD_FOLDER "0f3a_a.pdf" = "uploads/0f3a_a.pdf".
Proof.
  assert (H : Single.upload_file "pdf" (Some "a.pdf") "0f3a" (Ok 120%Z)
              = Single.FileStored "0f3a_a.pdf" "a.pdf" 120 "uploads/0f3a_a.pdf")
    by (vm_compute; reflexivity).
  destruct (stored_upload_is_found_by_its_id "pdf" "a.pdf" "0f3a" (Ok 120%Z)
              "0f3a_a.pdf" "a.pdf" "uploads/0f3a_a.pdf" 120 H eq_refl eq_refl)
    as (_ & _ & _ & _ & _ & Hjoin).
  split; [exact H|exact Hjoin].
Defined.

(** X25: the order of the three requests for a batch.  A batch that was
    just uploaded cannot be converted.  Its extraction runs the
    extractor on the archive as it was saved, with the password of the
    upload, or none when that is empty.  After an extraction that
    succeeded a conversion without a selection starts on the members
    that were extracted without error; after one that failed no
    conversion starts. *)
Theorem conversion_follows_extraction (reg reg1 : gmap string Batch.BatchStatus)
    (name : string) (form_password : option string) (uuid now : string)
    (save_error size_error : option string) :
  Batch.upload_batch reg (Some name) form_password uuid now save_error size_error
  = (Batch.UploadAccepted uuid name, reg1) →
  (∀ hist data_files now',
     Batch.convert_batch reg1 hist uuid data_files now'
     = (Batch.ConvertWrongState st_uploaded, None))
  ∧ ∀ env r reg2,
      Batch.extract_batch env reg1 uuid = Some (r, reg2) →
      match r with
      | Batch.ExtractDone total_files extracted_files failed_files files =>
          ∃ temp_dir,
            Extractor.extract_archive_safe (Batch.mkdtemp env)
              (Batch.open_archive env
                 (Py.path_join Batch.UPLOAD_FOLDER ("batch_" +:+ uuid +:+ "_" +:+ name)))
              (Batch.clock env) (Py.or_none (default "" form_password))
            = Some (Extractor.Extracted total_files extracted_files failed_files
                      files temp_dir)
            ∧ ∀ hist now', ∃ w0,
                Batch.convert_batch reg2 hist uuid [] now'
                = (Batch.ConvertStarted
                     (Z.of_nat (length (Batch.default_selection files))),
                   Some (w0, Batch.default_selection files))
                ∧ Batch.b_status (Batch.batch w0) = st_converting
                ∧ Batch.b_files (Batch.batch w0) = files
      | Batch.ExtractError _ =>
          (∃ e,
             Extractor.extract_archive_safe (Batch.mkdtemp env)
               (Batch.open_archive env
                  (Py.path_join Batch.UPLOAD_FOLDER ("batch_" +:+ uuid +:+ "_" +:+ name)))
               (Batch.clock env) (Py.or_none (default "" form_password))
             = Some (Extractor.NotExtracted e))
          ∧ ∀ hist data_files now',
              Batch.convert_batch reg2 hist uuid data_files now'
              = (Batch.ConvertWrongState st_extract_failed, None)
      | Batch.ExtractNotFound | Batch.ExtractWrongState _ => False
      end.
Proof.
  unfold Batch.upload_batch.
  destruct (String.eqb name ""); [discriminate|].
  destruct (Batch.is_supported_format name); cbn [negb]; [|discriminate].
  destruct save_error; [discriminate|]. destruct size_error; [discriminate|].
  intros [= <-]. split.
  - intros hist data_files now'.
    unfold Batch.convert_batch, Batch.get_batch_status.
    now rewrite lookup_insert_eq.
  - intros env r reg2.
    unfold Batch.extract_batch, Batch.get_batch_status.
    rewrite lookup_insert_eq. cbn [Batch.b_status Batch.set_status Batch.b_archive_path
                                   Batch.b_password].
    destruct (Extractor.extract_archive_safe _ _ _ _) as [[t e f fs d|msg]|];
      cbn; [| |discriminate]; intros [= <- <-].
    + exists d. split; [reflexivity|]. intros hist now'.
      unfold Batch.convert_batch, Batch.get_batch_status.
      rewrite lookup_insert_eq. cbn. eexists. split; [reflexivity|]. split; reflexivity.
    + split; [eauto|]. intros hist data_files now'.
      unfold Batch.convert_batch, Batch.get_batch_status.
      now rewrite lookup_insert_eq.
Qed.

(** The sample archive, from upload to the start of the conversion. *)
Lemma conversion_follows_extraction_witness :
  ∃ reg1,
    Batch.upload_batch ∅ (Some "docs.zip") None "b1" "2025-11-11T18:06:30" None None
    = (Batch.UploadAccepted "b1" "docs.zip", reg1)
    ∧ Batch.convert_batch reg1 History.Missing "b1" [] "2025-11-11T18:06:47"
      = (Batch.ConvertWrongState st_uploaded, None).
Proof.
  destruct (Batch.upload_batch ∅ (Some "docs.zip") None "b1" "2025-11-11T18:06:30"
              None None) as [r reg1] eqn:Hup.
  assert (Hr : r = Batch.UploadAccepted "b1" "docs.zip").
  { vm_compute in Hup. now injection Hup as <- _. }
  subst r.
  destruct (conversion_follows_extraction ∅ reg1 "docs.zip" None "b1"
              "2025-11-11T18:06:30" None None Hup) as [Hrefused _].
  exists reg1. split; [reflexivity|apply Hrefused].
Defined.

(** ** The worker: a batch in which everything converts *)

Lemma extraction_part_names (l l' : list FileInfo) :
  Output.extraction_part <$> l = Output.extraction_part <$> l' →
  filename <$> l = filename <$> l'.
Proof.
  intros H.
  change filename with ((λ t : string * string * option string * Z * string
                                * option string * Z, t.1.1.1.1.1.1)
                        ∘ Output.extraction_part).
  rewrite !list_fmap_compose. now rewrite H.
Qed.

Section AllDone.
Import Batch.
Variables (cv : Dispatch.Converters) (b : BatchStatus).
Hypothesis converts :
  ∀ f, f ∈ b_files b →
    supported (format f) = true
    ∧ ∃ content,
        (Dispatch.convert_file_content cv (extracted_path f) (format f)).2 = Ok content.

Lemma all_done_iteration (io : MemberIo) (s : Selected) (n k : Z) (w : World) :
  write_error io = None →
  Output.selectable (filename <$> b_files b) s = true →
  Output.all_done b n k w →
  ∃ w', iteration cv io s w = (w', Ok tt) ∧ Output.all_done b n (k + 1) w'.
Proof.
  intros Hwrite Hsel (p & Hp & Hn & Hc & Hf & Hb & Hd & Hcalls & Hparts).
  destruct s as [[name|] path err|type_name]; cbn in Hsel; try discriminate.
  apply andb_true_iff in Hsel as [Hsel Herr].
  apply andb_true_iff in Hsel as [Hname Hpath].
  apply bool_decide_eq_true in Hname. apply negb_true_iff in Herr.
  rewrite <- (extraction_part_names _ _ Hparts) in Hname.
  apply list_elem_of_fmap in Hname as (g & -> & Hg).
  destruct (list_find_elem_of (λ f, filename f = filename g) _ g Hg eq_refl)
    as [[gi gf] Hfind].
  destruct (find_file_first _ _ _ _ Hfind) as (Hgi & Hgf & _).
  assert (Horig : ∃ f0, b_files b !! gi = Some f0
                        ∧ Output.extraction_part gf = Output.extraction_part f0).
  { pose proof (f_equal (λ l, l !! gi) Hparts) as Hat. cbn beta in Hat.
    rewrite !list_lookup_fmap, Hgi in Hat.
    destruct (b_files b !! gi) as [f0|]; [|discriminate Hat].
    exists f0. split; [reflexivity|]. cbn in Hat. congruence. }
  destruct Horig as (f0 & Hf0 & Hsame).
  destruct (converts f0 (list_elem_of_lookup_2 _ _ _ Hf0)) as [Hsup (content & Hok)].
  assert (Hfmt : format gf = format f0).
  { unfold Output.extraction_part in Hsame. congruence. }
  assert (Hpth : extracted_path gf = extracted_path f0).
  { unfold Output.extraction_part in Hsame. congruence. }
  rewrite <- Hfmt in Hsup, Hok. rewrite <- Hpth in Hok.
  unfold iteration, try_except. cbn [try_block].
  rewrite Hpath, Herr. cbn [negb orb].
  unfold find_file. rewrite Hfind.
  unfold convert_member. rewrite Hsup. cbn [negb].
  unfold mbind, worker_bind, assign, count, mutate, save_batch_status, dispatch,
    write_output, record_history.
  cbn. rewrite Hp. cbn.
  destruct (Dispatch.convert_file_content cv (extracted_path gf) (format gf))
    as [caps r]. cbn in Hok. subst r. cbn. rewrite Hwrite. cbn.
  eexists. split; [reflexivity|].
  eexists. split; [reflexivity|]. cbn.
  split; [exact Hn|]. split; [lia|]. split; [exact Hf|]. split; [lia|].
  split; [lia|]. split; [rewrite length_app; cbn; lia|].
  rewrite !extraction_part_alter. exact Hparts.
Qed.

Lemma all_done_worker_loop (io : nat → MemberIo) (files : list Selected) :
  (∀ i, write_error (io i) = None) →
  Forall (λ s, Output.selectable (filename <$> b_files b) s = true) files →
  ∀ i n k w,
    Output.all_done b n k w →
    ∃ w', worker_loop cv io i files w = (w', Ok tt)
          ∧ Output.all_done b n (k + Z.of_nat (length files)) w'.
Proof.
  intros Hwrite Hall. induction Hall as [|s files Hs _ IH]; intros i n k w Hw.
  - exists w. split; [reflexivity|]. cbn. now rewrite Z.add_0_r.
  - destruct (all_done_iteration (io i) s n k w (Hwrite i) Hs Hw) as (w1 & Hit & Hw1).
    destruct (IH (S i) n (k + 1)%Z w1 Hw1) as (w2 & Hloop & Hw2).
    exists w2. cbn [worker_loop]. unfold mbind, worker_bind. rewrite Hit.
    split; [exact Hloop|].
    replace (k + Z.of_nat (length (s :: files)))%Z
      with (k + 1 + Z.of_nat (length files))%Z by (cbn [length]; lia).
    exact Hw2.
Qed.

End AllDone.

(** X26: when every member of a batch has a supported format for which
    the dispatch returns a text, the output files can be written, and
    every selected element names an extracted member, the conversion
    ends [completed] with [completed] equal to [total], the number of
    selected elements, nothing failed, nothing in process, and one
    output file for each selected element. *)
Theorem all_selected_members_converted (cv : Dispatch.Converters)
    (io : nat → Batch.MemberIo) (reg : gmap string Batch.BatchStatus)
    (hist : History.HistoryFile) (batch_id : string) (b : Batch.BatchStatus)
    (data_files : list Batch.Selected) (now : string) :
  reg !! batch_id = Some b →
  Batch.b_status b = st_extracted →
  (∀ f, f ∈ Batch.b_files b →
     Batch.supported (format f) = true
     ∧ ∃ content,
         (Dispatch.convert_file_content cv (extracted_path f) (format f)).2
         = Ok content) →
  (∀ i, Batch.write_error (io i) = None) →
  Forall (λ s, Output.selectable (filename <$> Batch.b_files b) s = true)
    (Batch.selection b data_files) →
  ∃ w p,
    Batch.run_conversion cv io reg hist batch_id data_files now = Some w
    ∧ Batch.b_status (Batch.batch w) = st_completed
    ∧ Batch.b_conversion_progress (Batch.batch w) = Some p
    ∧ Batch.total p = Z.of_nat (length (Batch.selection b data_files))
    ∧ Batch.completed p = Batch.total p
    ∧ Batch.failed p = 0%Z
    ∧ Batch.processing p = 0%Z
    ∧ length (Batch.downloads w) = length (Batch.selection b data_files)
    ∧ length (Batch.calls w) = length (Batch.selection b data_files).
Proof.
  intros Hb Hst Hconv Hwrite Hsel.
  unfold Batch.run_conversion, Batch.convert_batch, Batch.get_batch_status.
  rewrite Hb, Hst. cbn [snd].
  set (files := Batch.selection b data_files) in *.
  match goal with
  | |- context [Batch.async_convert cv io files ?w] => set (w0 := w)
  end.
  assert (H0 : Output.all_done b (Z.of_nat (length files)) 0 w0).
  { eexists. split; [reflexivity|]. cbn. auto 10. }
  destruct (all_done_worker_loop cv b Hconv io files Hwrite Hsel 0%nat _ _ w0 H0)
    as (w1 & Hloop & p & Hp & Hn & Hc & Hf & Hpr & Hd & Hcalls & _).
  unfold Batch.async_convert, Batch.try_except, Batch.convert_batch_files,
    mbind, Batch.worker_bind.
  rewrite Hloop. cbn.
  eexists _, p. split; [reflexivity|]. cbn.
  split; [reflexivity|]. split; [exact Hp|]. split; [exact Hn|].
  split; [lia|]. split; [exact Hf|]. split; [exact Hpr|]. lia.
Qed.

(** The sample batch: its one member is converted. *)
Lemma all_selected_members_converted_witness :
  ∃ w p,
    Batch.run_conversion Sample.converters Sample.io Sample.registry History.Missing
      "b1" [] "2025-11-11T18:06:47" = Some w
    ∧ Batch.b_conversion_progress (Batch.batch w) = Some p
    ∧ Batch.completed p = 1%Z
    ∧ Batch.failed p = 0%Z.
Proof.
  assert (H1 : Sample.registry !! "b1" = Some Sample.batch_status)
    by (vm_compute; reflexivity).
  assert (H2 : Batch.b_status Sample.batch_status = st_extracted) by reflexivity.
  assert (H3 : ∀ f, f ∈ Batch.b_files Sample.batch_status →
                 Batch.supported (format f) = true
                 ∧ ∃ content,
                     (Dispatch.convert_file_content Sample.converters
                        (extracted_path f) (format f)).2 = Ok content).
  { intros f Hf. apply list_elem_of_singleton in Hf. subst f.
    split; [vm_compute; reflexivity|]. exists "# a". reflexivity. }
  assert (H4 : ∀ i, Batch.write_error (Sample.io i) = None) by reflexivity.
  assert (H5 : Forall (λ s, Output.selectable
                              (filename <$> Batch.b_files Sample.batch_status) s = true)
                 (Batch.selection Sample.batch_status [])).
  { constructor; [vm_compute; reflexivity|constructor]. }
  destruct (all_selected_members_converted Sample.converters Sample.io
              Sample.registry History.Missing "b1" Sample.batch_status []
              "2025-11-11T18:06:47" H1 H2 H3 H4 H5)
    as (w & p & Hrun & _ & Hp & Ht & Hc & Hf & _).
  exists w, p. split; [exact Hrun|]. split; [exact Hp|].
  split; [rewrite Hc, Ht; reflexivity|exact Hf].
Defined.
